(** * AwesomeGIC bank ledger: a shallow embedding of [bank_system.py]

    The development follows the Python module top-down:

    - [Dec]     the part of Python's [decimal] module that the ledger uses
                (construction from text, [quantize], [+ - * /] and the
                comparisons, all under the default context: 28 significant
                digits, ROUND_HALF_EVEN);
    - [PyDate]  the part of [datetime] / [calendar] that the ledger uses
                ([strptime] with the format [%Y%m%d], date comparison,
                [monthrange], date differences);
    - the classes [Transaction], [InterestRule], [BankAccount] and
      [BankSystem] with [create_transaction], [add_interest_rule] and
      [calculate_interest];
    - the properties of the ledger.

    Python [str] values are modelled as [string] (text in the ASCII range),
    Python [int] as [Z], [dict] as [gmap], [list] as [list]. *)

From Stdlib Require Import ZArith QArith Qround Ascii String List Bool.
From Stdlib Require Import Sorted Permutation.
From stdpp Require Import base gmap strings list pretty.
Import ListNotations.

Local Open Scope Z_scope.

(** ** Decimal arithmetic under the default context *)

Module Dec.

(** A finite decimal number [coef * 10 ^ expo].  Python keeps the sign
    apart from a non-negative coefficient; here the coefficient is signed,
    so the two zeros [0] and [-0] (which compare equal and behave alike in
    every operation below) are one value. *)
Record t : Type := mk { coef : Z; expo : Z }.

(** What the constructor [Decimal(text)] can yield. *)
Inductive parsed : Type :=
| Finite (d : t)
| Infinity (negative : bool)
| NaN (signaling : bool).

(** Context constants ([getcontext()] of a fresh interpreter). *)
Definition prec : Z := 28.
Definition Emax : Z := 999999.
Definition Emin : Z := -999999.
Definition Etiny : Z := Emin - prec + 1.

Definition zero : t := mk 0 0.                  (* Decimal('0') *)
Definition of_int (n : Z) : t := mk n 0.        (* Decimal(n), n an int *)
Definition cent : t := mk 1 (-2).               (* Decimal('0.01') *)

(** [len(str(n))] for [n >= 0]. *)
Fixpoint ndigits_fuel (fuel : nat) (n : Z) : Z :=
  match fuel with
  | O => 1
  | S f => if n <? 10 then 1 else 1 + ndigits_fuel f (n / 10)
  end.

Definition ndigits (n : Z) : Z :=
  ndigits_fuel (Z.to_nat (Z.log2 n)) n.

(** [self.adjusted()]: exponent of the most significant digit. *)
Definition adjusted (d : t) : Z :=
  expo d + ndigits (Z.abs (coef d)) - 1.

Inductive rounding : Type := ROUND_HALF_UP | ROUND_HALF_EVEN.

(** Drop the last [k] digits ([k > 0]) of the non-negative integer [n],
    rounding the kept part: [_round_half_up] looks at the first dropped
    digit, [_round_half_even] first tests for an exact half. *)
Definition round_half_up (n k : Z) : Z :=
  let q := n / 10 ^ k in
  let r := n mod 10 ^ k in
  if 10 ^ k <=? 2 * r then q + 1 else q.

Definition round_half_even (n k : Z) : Z :=
  let q := n / 10 ^ k in
  let r := n mod 10 ^ k in
  if (2 * r =? 10 ^ k) && Z.even q then q else round_half_up n k.

Definition round_digits (mode : rounding) (n k : Z) : Z :=
  match mode with
  | ROUND_HALF_UP => round_half_up n k
  | ROUND_HALF_EVEN => round_half_even n k
  end.

(** [Decimal._rescale(exp, rounding)]. *)
Definition rescale (mode : rounding) (e : Z) (d : t) : t :=
  if coef d =? 0 then mk 0 e
  else if e <=? expo d then mk (coef d * 10 ^ (expo d - e)) e
  else mk (Z.sgn (coef d) * round_digits mode (Z.abs (coef d)) (e - expo d)) e.

(** [Decimal._fix(context)]: keep at most [prec] digits.  The exponent
    range of the context (|exponent| up to 999999) is not represented:
    the ledger stores amounts with exponent [-2] and at most 28 digits,
    and its sums, products and quotients stay far inside that range. *)
Definition fix_ctx (d : t) : t :=
  if coef d =? 0 then d
  else
    let n := Z.abs (coef d) in
    let exp_min := ndigits n + expo d - prec in
    if expo d <? exp_min then
      let c := round_half_even n (exp_min - expo d) in
      if prec <? ndigits c
      then mk (Z.sgn (coef d) * (c / 10)) (exp_min + 1)
      else mk (Z.sgn (coef d) * c) exp_min
    else d.

(** [_normalize(op1, op2, prec)]: bring two non-zero operands to a common
    exponent; an operand too small to matter is replaced by a unit in a
    position that rounds the same way. *)
Definition normalize (a b : t) : t * t :=
  let swap := expo a <? expo b in
  let tmp := if swap then b else a in
  let other := if swap then a else b in
  let tmp_len := ndigits (Z.abs (coef tmp)) in
  let other_len := ndigits (Z.abs (coef other)) in
  let e := expo tmp + Z.min (-1) (tmp_len - prec - 2) in
  let other' :=
    if other_len + expo other - 1 <? e
    then mk (Z.sgn (coef other)) e else other in
  let tmp' := mk (coef tmp * 10 ^ (expo tmp - expo other')) (expo other') in
  if swap then (other', tmp') else (tmp', other').

(** [Decimal.__add__]. *)
Definition add (a b : t) : t :=
  let e := Z.min (expo a) (expo b) in
  if (coef a =? 0) && (coef b =? 0) then fix_ctx (mk 0 e)
  else if coef a =? 0 then
    fix_ctx (rescale ROUND_HALF_EVEN (Z.max e (expo b - prec - 1)) b)
  else if coef b =? 0 then
    fix_ctx (rescale ROUND_HALF_EVEN (Z.max e (expo a - prec - 1)) a)
  else
    let '(a', b') := normalize a b in
    if coef a' + coef b' =? 0 then fix_ctx (mk 0 e)
    else fix_ctx (mk (coef a' + coef b') (expo a')).

Definition neg (a : t) : t := mk (- coef a) (expo a).

(** [Decimal.__sub__]: [self + (-other)]. *)
Definition sub (a b : t) : t := add a (neg b).

(** [Decimal.__mul__]. *)
Definition mul (a b : t) : t :=
  fix_ctx (mk (coef a * coef b) (expo a + expo b)).

(** The loop of [__truediv__] that strips trailing zeros of an exact
    quotient while the exponent is below the ideal one. *)
Fixpoint strip_zeros (fuel : nat) (c e ideal : Z) : Z * Z :=
  match fuel with
  | O => (c, e)
  | S f =>
      if (e <? ideal) && (c mod 10 =? 0)
      then strip_zeros f (c / 10) (e + 1) ideal
      else (c, e)
  end.

(** [Decimal.__truediv__]; [None] is the exception raised for a zero
    divisor (DivisionByZero, or InvalidOperation for [0 / 0]). *)
Definition div (a b : t) : option t :=
  if coef b =? 0 then None
  else if coef a =? 0 then Some (fix_ctx (mk 0 (expo a - expo b)))
  else
    let na := Z.abs (coef a) in
    let nb := Z.abs (coef b) in
    let shift := ndigits nb - ndigits na + prec + 1 in
    let e := expo a - expo b - shift in
    let num := if 0 <=? shift then na * 10 ^ shift else na in
    let den := if 0 <=? shift then nb else nb * 10 ^ (- shift) in
    let q := num / den in
    let r := num mod den in
    let '(c, e') :=
      if r =? 0
      then strip_zeros (Z.to_nat (Z.max 0 (expo a - expo b - e))) q e
                       (expo a - expo b)
      else (if q mod 5 =? 0 then q + 1 else q, e) in
    Some (fix_ctx (mk (Z.sgn (coef a) * Z.sgn (coef b) * c) e')).

(** [Decimal.quantize(exp, rounding)] for a finite [exp]; [None] is
    InvalidOperation: the target exponent is outside the context, or the
    result would need more than [prec] digits. *)
Definition quantize_to (mode : rounding) (e : Z) (d : t) : option t :=
  if coef d =? 0 then Some (fix_ctx (mk 0 e))
  else if Emax <? adjusted d then None
  else if prec <? adjusted d - e + 1 then None
  else
    let ans := rescale mode e d in
    if Emax <? adjusted ans then None
    else if prec <? ndigits (Z.abs (coef ans)) then None
    else Some (fix_ctx ans).

Definition quantize (mode : rounding) (target : t) (d : t) : option t :=
  let e := expo target in
  if (e <? Etiny) || (Emax <? e) then None
  else quantize_to mode e d.

(** [x.quantize(Decimal('0.01'), rounding=ROUND_HALF_UP)]. *)
Definition quantize_cents (d : t) : option t :=
  quantize ROUND_HALF_UP cent d.

(** Comparison of finite decimals ([Decimal._cmp]): by numerical value. *)
Definition compare (a b : t) : comparison :=
  let e := Z.min (expo a) (expo b) in
  Z.compare (coef a * 10 ^ (expo a - e)) (coef b * 10 ^ (expo b - e)).

Definition leb (a b : t) : bool :=
  match compare a b with Gt => false | _ => true end.
Definition ltb (a b : t) : bool :=
  match compare a b with Lt => true | _ => false end.
Definition eqb (a b : t) : bool :=
  match compare a b with Eq => true | _ => false end.

(** The numerical value, as a rational (used to state properties). *)
Definition to_Q (d : t) : Q :=
  if 0 <=? expo d
  then inject_Z (coef d * 10 ^ expo d)
  else Qmake (coef d) (Z.to_pos (10 ^ (- expo d))).

(** *** Construction from text: [Decimal(text)]

    [text.strip().replace("_", "")] is matched against the grammar
    [sign? (digits [. digits?] | . digits) (E sign? digits)?], or
    [Inf], [Infinity], [NaN], [sNaN] with optional diagnostic digits,
    letters in either case.  [None] is InvalidOperation. *)

Definition code (c : ascii) : Z := Z.of_nat (nat_of_ascii c).

Definition is_space (c : ascii) : bool :=
  ((9 <=? code c) && (code c <=? 13)) || ((28 <=? code c) && (code c <=? 32)).

Definition is_digit (c : ascii) : bool :=
  (48 <=? code c) && (code c <=? 57).

Definition digit_val (c : ascii) : Z := code c - 48.

Definition lower (c : ascii) : ascii :=
  if (65 <=? code c) && (code c <=? 90)
  then ascii_of_nat (nat_of_ascii c + 32) else c.

Fixpoint lstrip (s : list ascii) : list ascii :=
  match s with
  | c :: r => if is_space c then lstrip r else s
  | [] => []
  end.

Definition strip (s : list ascii) : list ascii :=
  rev (lstrip (rev (lstrip s))).

Definition remove_underscores (s : list ascii) : list ascii :=
  List.filter (fun c => negb (Ascii.eqb c "_")) s.

(** The longest prefix of digits, and what follows it. *)
Fixpoint span_digits (s : list ascii) : list ascii * list ascii :=
  match s with
  | c :: r =>
      if is_digit c
      then let '(ds, rest) := span_digits r in (c :: ds, rest)
      else ([], s)
  | [] => ([], [])
  end.

(** [int(digits)]; the empty text counts as [0], as in
    [int(intpart + fracpart)] after the look-ahead for one digit. *)
Definition int_of_digits (ds : list ascii) : Z :=
  fold_left (fun acc c => 10 * acc + digit_val c) ds 0.

Definition take_sign (s : list ascii) : bool * list ascii :=
  match s with
  | "-"%char :: r => (true, r)
  | "+"%char :: r => (false, r)
  | _ => (false, s)
  end.

(** The optional exponent part, which must reach the end of the text. *)
Definition parse_exponent (s : list ascii) : option Z :=
  match s with
  | [] => Some 0
  | c :: r =>
      if Ascii.eqb (lower c) "e" then
        let '(negative, r') := take_sign r in
        let '(ds, rest) := span_digits r' in
        match ds, rest with
        | _ :: _, [] =>
            Some (if negative then - int_of_digits ds else int_of_digits ds)
        | _, _ => None
        end
      else None
  end.

(** The constructor converts exactly or not at all: the number must fit
    the widest context of the C implementation (64-bit build), that is,
    its exponent is at least [MIN_ETINY] and its most significant digit is
    at most at [MAX_EMAX]. *)
Definition MAX_EMAX : Z := 999999999999999999.
Definition MIN_ETINY : Z := -1999999999999999997.

Definition representable (d : t) : bool :=
  (MIN_ETINY <=? expo d) && (adjusted d <=? MAX_EMAX).

Definition parse_number (s : list ascii) : option t :=
  let '(intpart, r1) := span_digits s in
  let '(fracpart, r2) :=
    match r1 with
    | "."%char :: r => span_digits r
    | _ => ([], r1)
    end in
  match intpart ++ fracpart with
  | [] => None
  | _ :: _ =>
      match parse_exponent r2 with
      | Some e =>
          let d := mk (int_of_digits (intpart ++ fracpart))
                      (e - Z.of_nat (length fracpart)) in
          if representable d then Some d else None
      | None => None
      end
  end.

Definition all_digits (s : list ascii) : bool := forallb is_digit s.

Definition parse_special (negative : bool) (s : list ascii) : option parsed :=
  let l := List.map lower s in
  if (string_of_list_ascii l =? "inf")%string
     || (string_of_list_ascii l =? "infinity")%string
  then Some (Infinity negative)
  else
    match l with
    | "n"%char :: "a"%char :: "n"%char :: diag =>
        if all_digits diag then Some (NaN false) else None
    | "s"%char :: "n"%char :: "a"%char :: "n"%char :: diag =>
        if all_digits diag then Some (NaN true) else None
    | _ => None
    end.

Definition parse (text : string) : option parsed :=
  let s := remove_underscores (strip (list_ascii_of_string text)) in
  let '(negative, body) := take_sign s in
  match parse_number body with
  | Some d => Some (Finite (if negative then neg d else d))
  | None => parse_special negative body
  end.

End Dec.

(** ** Dates: the part of [datetime] and [calendar] the ledger uses *)

Module PyDate.

(** A [datetime.date]: proleptic Gregorian year, month, day. *)
Record t : Type := mk { year : Z; month : Z; day : Z }.

Definition MINYEAR : Z := 1.
Definition MAXYEAR : Z := 9999.

Definition is_leap (y : Z) : bool :=
  (y mod 4 =? 0) && (negb (y mod 100 =? 0) || (y mod 400 =? 0)).

Definition days_in_month (y m : Z) : Z :=
  if (m =? 2) && is_leap y then 29
  else nth (Z.to_nat m) [0; 31; 28; 31; 30; 31; 30; 31; 31; 30; 31; 30; 31] 0.

Definition days_before_year (y : Z) : Z :=
  let p := y - 1 in p * 365 + p / 4 - p / 100 + p / 400.

Definition days_before_month (y m : Z) : Z :=
  nth (Z.to_nat m) [0; 0; 31; 59; 90; 120; 151; 181; 212; 243; 273; 304; 334] 0
  + (if (2 <? m) && is_leap y then 1 else 0).

(** [date.toordinal()]: 0001-01-01 is day 1. *)
Definition toordinal (d : t) : Z :=
  days_before_year (year d) + days_before_month (year d) (month d) + day d.

(** The constructor [date(year, month, day)]; [None] is ValueError. *)
Definition make (y m d : Z) : option t :=
  if (MINYEAR <=? y) && (y <=? MAXYEAR)
     && (1 <=? m) && (m <=? 12)
     && (1 <=? d) && (d <=? days_in_month y m)
  then Some (mk y m d) else None.

(** Dates compare as the triples (year, month, day). *)
Definition compare (a b : t) : comparison :=
  match year a ?= year b with
  | Eq => match month a ?= month b with
          | Eq => day a ?= day b
          | c => c
          end
  | c => c
  end.

Definition leb (a b : t) : bool :=
  match compare a b with Gt => false | _ => true end.
Definition ltb (a b : t) : bool :=
  match compare a b with Lt => true | _ => false end.
Definition eqb (a b : t) : bool :=
  (year a =? year b) && (month a =? month b) && (day a =? day b).

(** [(a - b).days]. *)
Definition days_between (a b : t) : Z := toordinal a - toordinal b.

(** [d + timedelta(days=1)]: the next calendar day; [None] is the
    OverflowError raised past 9999-12-31. *)
Definition next_day (d : t) : option t :=
  if day d <? days_in_month (year d) (month d)
  then Some (mk (year d) (month d) (day d + 1))
  else if month d <? 12 then Some (mk (year d) (month d + 1) 1)
  else if year d <? MAXYEAR then Some (mk (year d + 1) 1 1)
  else None.

(** [calendar.monthrange(year, month)[1]]: the number of days of the
    month; [None] is IllegalMonthError. *)
Definition monthrange (y m : Z) : option Z :=
  if (1 <=? m) && (m <=? 12) then Some (days_in_month y m) else None.

(** *** [datetime.strptime(text, "%Y%m%d").date()]

    The format is compiled to the regular expression
    [(\d\d\d\d)(1[0-2]|0[1-9]|[1-9])(3[0-1]|[1-2]\d|0[1-9]|[1-9]| [1-9])],
    matched at the start of the text by a backtracking matcher that
    tries the alternatives of each group from left to right; the first
    match found must then cover the whole text. *)

Definition scanner : Type := list ascii -> option (Z * list ascii).

Definition in_range (lo hi : Z) (c : ascii) : bool :=
  (lo <=? Dec.digit_val c) && (Dec.digit_val c <=? hi) && Dec.is_digit c.

(** One character in [lo..hi], then one in [lo'..hi']. *)
Definition two_chars (lo hi lo' hi' : Z) : scanner := fun s =>
  match s with
  | a :: b :: r =>
      if in_range lo hi a && in_range lo' hi' b
      then Some (10 * Dec.digit_val a + Dec.digit_val b, r) else None
  | _ => None
  end.

Definition one_char (lo hi : Z) : scanner := fun s =>
  match s with
  | a :: r => if in_range lo hi a then Some (Dec.digit_val a, r) else None
  | _ => None
  end.

Definition space_then (lo hi : Z) : scanner := fun s =>
  match s with
  | " "%char :: r => one_char lo hi r
  | _ => None
  end.

Definition year_scanner : scanner := fun s =>
  match s with
  | a :: b :: c :: d :: r =>
      if forallb Dec.is_digit [a; b; c; d]
      then Some (Dec.int_of_digits [a; b; c; d], r) else None
  | _ => None
  end.

Definition month_alternatives : list scanner :=
  [two_chars 1 1 0 2; two_chars 0 0 1 9; one_char 1 9].

Definition day_alternatives : list scanner :=
  [two_chars 3 3 0 1; two_chars 1 2 0 9; two_chars 0 0 1 9;
   one_char 1 9; space_then 1 9].

(** First alternative that matches. *)
Fixpoint first_alternative (alts : list scanner) (s : list ascii)
  : option (Z * list ascii) :=
  match alts with
  | [] => None
  | f :: rest =>
      match f s with
      | Some r => Some r
      | None => first_alternative rest s
      end
  end.

(** Month then day, backtracking into the month when no day follows. *)
Fixpoint month_then_day (alts : list scanner) (s : list ascii)
  : option (Z * Z * list ascii) :=
  match alts with
  | [] => None
  | f :: rest =>
      match f s with
      | Some (m, r) =>
          match first_alternative day_alternatives r with
          | Some (d, r') => Some (m, d, r')
          | None => month_then_day rest s
          end
      | None => month_then_day rest s
      end
  end.

Definition strptime_Ymd (text : string) : option t :=
  match year_scanner (list_ascii_of_string text) with
  | Some (y, r) =>
      match month_then_day month_alternatives r with
      | Some (m, d, []) => make y m d
      | _ => None
      end
  | None => None
  end.

End PyDate.

(** ** The ledger classes *)

(** [transaction_type] takes the values ['D'], ['W'] and ['I']. *)
Inductive txn_kind : Type := D | W | I.

Definition txn_kind_eqb (a b : txn_kind) : bool :=
  match a, b with
  | D, D | W, W | I, I => true
  | _, _ => false
  end.

Record Transaction : Type := mkTransaction {
  date : PyDate.t;
  account : string;
  transaction_type : txn_kind;
  amount : Dec.t;
  txn_id : option string
}.

Record InterestRule : Type := mkInterestRule {
  rule_date : PyDate.t;        (* [InterestRule.date] *)
  rule_id : string;
  rate : Dec.t
}.

Record BankAccount : Type := mkBankAccount {
  account_id : string;
  transactions : list Transaction
}.

Record BankSystem : Type := mkBankSystem {
  accounts : gmap string BankAccount;
  interest_rules : list InterestRule;
  transaction_counters : gmap string Z
}.

(** [Transaction.__init__]: the amount is quantized again on construction;
    [None] is the InvalidOperation of [quantize]. *)
Definition Transaction_init (d : PyDate.t) (acct : string) (k : txn_kind)
    (amt : Dec.t) (id : option string) : option Transaction :=
  match Dec.quantize_cents amt with
  | Some a => Some (mkTransaction d acct k a id)
  | None => None
  end.

(** [InterestRule.__init__]. *)
Definition InterestRule_init (d : PyDate.t) (id : string) (r : Dec.t)
    : option InterestRule :=
  match Dec.quantize_cents r with
  | Some q => Some (mkInterestRule d id q)
  | None => None
  end.

(** [BankAccount.__init__] and [BankSystem.__init__]. *)
Definition BankAccount_init (id : string) : BankAccount := mkBankAccount id [].
Definition BankSystem_init : BankSystem := mkBankSystem ∅ [] ∅.

(** [BankAccount.add_transaction]. *)
Definition add_transaction (t : Transaction) (a : BankAccount) : BankAccount :=
  mkBankAccount (account_id a) (transactions a ++ [t]).

(** [BankAccount.get_balance_at_date]. *)
Definition balance_step (target_date : PyDate.t) (balance : Dec.t)
    (txn : Transaction) : Dec.t :=
  if PyDate.leb (date txn) target_date then
    match transaction_type txn with
    | D => Dec.add balance (amount txn)
    | W => Dec.sub balance (amount txn)
    | I => Dec.add balance (amount txn)
    end
  else balance.

Definition get_balance_at_date (a : BankAccount) (target_date : PyDate.t)
    : Dec.t :=
  fold_left (balance_step target_date) (transactions a) Dec.zero.

(** [BankAccount.can_withdraw]. *)
Definition can_withdraw (a : BankAccount) (amt : Dec.t) (d : PyDate.t) : bool :=
  Dec.leb amt (get_balance_at_date a d).

(** ** [BankSystem.create_transaction] *)

Inductive txn_error : Type :=
| InvalidDate | InvalidType | InvalidAmount | NonPositiveAmount
| InsufficientFunds.

Definition txn_error_message (e : txn_error) : string :=
  match e with
  | InvalidDate => "Invalid date format. Please use YYYYMMDD format."
  | InvalidType =>
      "Invalid transaction type. Use D for deposit or W for withdrawal."
  | InvalidAmount => "Invalid amount format."
  | NonPositiveAmount => "Amount must be greater than zero."
  | InsufficientFunds => "Insufficient funds for withdrawal."
  end.

(** What a call can do: return [(True, account_id)], return
    [(False, message)], or leave through an exception. *)
Inductive txn_result : Type :=
| TxnOk (acct : string)
| TxnFail (e : txn_error)
| TxnRaised.

(** [txn_type.upper() in ['D', 'W']], with the kind it denotes. *)
Definition parse_txn_type (txn_type : string) : option txn_kind :=
  let u := string_of_list_ascii
             (List.map (fun c => if (97 <=? Dec.code c) && (Dec.code c <=? 122)
                                 then ascii_of_nat (nat_of_ascii c - 32) else c)
                       (list_ascii_of_string txn_type)) in
  if (u =? "D")%string then Some D
  else if (u =? "W")%string then Some W
  else None.

(** The [try] block around the amount: any exception gives "Invalid amount
    format".  Infinities and signaling NaNs make [quantize] raise; a quiet
    NaN passes through [quantize] and makes the comparison [amount <= 0]
    raise. *)
Definition validate_amount (amount_str : string) : txn_error + Dec.t :=
  match Dec.parse amount_str with
  | Some (Dec.Finite d) =>
      match Dec.quantize_cents d with
      | Some a => if Dec.leb a Dec.zero then inl NonPositiveAmount else inr a
      | None => inl InvalidAmount
      end
  | Some (Dec.Infinity _) | Some (Dec.NaN _) | None => inl InvalidAmount
  end.

(** [f"{n:02d}"]. *)
Definition format_02d (n : Z) : string :=
  if (0 <=? n) && (n <? 10) then ("0" ++ pretty n)%string else pretty n.

(** "Create or get account": the accounts after the lookup. *)
Definition get_or_create (acct_id : string) (accts : gmap string BankAccount)
    : gmap string BankAccount :=
  match accts !! acct_id with
  | None => <[acct_id := BankAccount_init acct_id]> accts
  | Some _ => accts
  end.

Definition create_transaction (date_str acct_id txn_type amount_str : string)
    (st : BankSystem) : txn_result * BankSystem :=
  match PyDate.strptime_Ymd date_str with
  | None => (TxnFail InvalidDate, st)
  | Some d =>
  match parse_txn_type txn_type with
  | None => (TxnFail InvalidType, st)
  | Some kind =>
  match validate_amount amount_str with
  | inl e => (TxnFail e, st)
  | inr amt =>
      (* Create or get account *)
      let accts := get_or_create acct_id (accounts st) in
      let acct := default (BankAccount_init acct_id) (accts !! acct_id) in
      let st1 := mkBankSystem accts (interest_rules st)
                              (transaction_counters st) in
      (* Check if withdrawal is possible *)
      if txn_kind_eqb kind W && negb (can_withdraw acct amt d)
      then (TxnFail InsufficientFunds, st1)
      else
        (* Generate transaction ID *)
        let n := default 0 (transaction_counters st !! date_str) + 1 in
        let counters := <[date_str := n]> (transaction_counters st) in
        let id := (date_str ++ "-" ++ format_02d n)%string in
        let st2 := mkBankSystem accts (interest_rules st) counters in
        (* Create and add transaction *)
        match Transaction_init d acct_id kind amt (Some id) with
        | None => (TxnRaised, st2)
        | Some txn =>
            (TxnOk acct_id,
             mkBankSystem (<[acct_id := add_transaction txn acct]> accts)
                          (interest_rules st) counters)
        end
  end end end.

(** ** [BankSystem.add_interest_rule] *)

Inductive rule_error : Type :=
| RuleInvalidDate | InvalidRate | RateOutOfRange.

Inductive rule_result : Type :=
| RuleOk
| RuleFail (e : rule_error)
| RuleRaised.

Definition validate_rate (rate_str : string) : rule_error + Dec.t :=
  match Dec.parse rate_str with
  | Some (Dec.Finite d) =>
      match Dec.quantize_cents d with
      | Some r =>
          if Dec.leb r Dec.zero || Dec.leb (Dec.of_int 100) r
          then inl RateOutOfRange else inr r
      | None => inl InvalidRate
      end
  | Some (Dec.Infinity _) | Some (Dec.NaN _) | None => inl InvalidRate
  end.

(** [list.sort(key=...)] is a stable sort; insertion from the right, each
    element placed before the first one that is not smaller, is the stable
    sort. *)
Section Sort.
Context {A : Type} (le : A -> A -> bool).

Fixpoint insert_sorted (x : A) (l : list A) : list A :=
  match l with
  | [] => [x]
  | y :: r => if le x y then x :: l else y :: insert_sorted x r
  end.

Definition sorted (l : list A) : list A := fold_right insert_sorted [] l.
End Sort.

Definition rule_le (a b : InterestRule) : bool :=
  PyDate.leb (rule_date a) (rule_date b).

Definition add_interest_rule (date_str rid rate_str : string)
    (st : BankSystem) : rule_result * BankSystem :=
  match PyDate.strptime_Ymd date_str with
  | None => (RuleFail RuleInvalidDate, st)
  | Some d =>
  match validate_rate rate_str with
  | inl e => (RuleFail e, st)
  | inr r =>
      (* Remove any existing rule for the same date *)
      let kept := List.filter (fun rule => negb (PyDate.eqb (rule_date rule) d))
                              (interest_rules st) in
      let st1 := mkBankSystem (accounts st) kept (transaction_counters st) in
      match InterestRule_init d rid r with
      | None => (RuleRaised, st1)
      | Some rule =>
          (RuleOk,
           mkBankSystem (accounts st) (sorted rule_le (kept ++ [rule]))
                        (transaction_counters st))
      end
  end end.

(** ** [BankSystem.calculate_interest] *)

(** [None], a decimal, or an exception. *)
Inductive interest_result : Type :=
| NoInterest
| InterestValue (v : Dec.t)
| InterestRaised.

(** [set.add] on a set kept as a duplicate-free list. *)
Definition set_add (d : PyDate.t) (s : list PyDate.t) : list PyDate.t :=
  if existsb (PyDate.eqb d) s then s else s ++ [d].

Definition in_month (start_date end_date d : PyDate.t) : bool :=
  PyDate.leb start_date d && PyDate.leb d end_date.

(** The sorted set of balance change dates. *)
Definition balance_change_dates (account_txns : list Transaction)
    (rules : list InterestRule) (start_date end_date : PyDate.t)
    : list PyDate.t :=
  let s1 := fold_left (fun s txn =>
                         if in_month start_date end_date (date txn)
                         then set_add (date txn) s else s)
                      account_txns [] in
  let s2 := fold_left (fun s rule =>
                         if in_month start_date end_date (rule_date rule)
                         then set_add (rule_date rule) s else s)
                      rules s1 in
  sorted PyDate.leb (set_add start_date s2).

(** The inner loop that finds the applicable rule: the last rule, in list
    order, whose date is not after [current_date]. *)
Definition applicable_rule (rules : list InterestRule)
    (current_date : PyDate.t) : option InterestRule :=
  fold_left (fun found rule =>
               if PyDate.leb (rule_date rule) current_date
               then Some rule else found)
            rules None.

(** [(balance * rate / 100 * num_days) / 365]. *)
Definition daily_interest (balance rate : Dec.t) (num_days : Z)
    : option Dec.t :=
  match Dec.div (Dec.mul balance rate) (Dec.of_int 100) with
  | Some x => Dec.div (Dec.mul x (Dec.of_int num_days)) (Dec.of_int 365)
  | None => None
  end.

(** One iteration of [for i in range(len(balance_change_dates))]; the
    accumulator is [None] once an exception has been raised. *)
Definition period_step (acct : BankAccount) (rules : list InterestRule)
    (dates : list PyDate.t) (end_date : PyDate.t)
    (total : option Dec.t) (i : nat) : option Dec.t :=
  match total, dates !! i with
  | Some tot, Some current_date =>
      if PyDate.eqb current_date end_date then Some tot
      else
        let next_date :=
          match dates !! (i + 1)%nat with
          | Some nd => Some nd
          | None => PyDate.next_day end_date
          end in
        match next_date with
        | None => None
        | Some nd =>
            let num_days := PyDate.days_between nd current_date in
            let balance := get_balance_at_date acct current_date in
            match applicable_rule rules current_date with
            | Some rule =>
                match daily_interest balance (rate rule) num_days with
                | Some di => Some (Dec.add tot di)
                | None => None
                end
            | None => Some tot
            end
        end
  | _, _ => None
  end.

(** The accumulated, not yet quantized, total. *)
Definition accumulate_interest (acct : BankAccount) (rules : list InterestRule)
    (dates : list PyDate.t) (end_date : PyDate.t) : option Dec.t :=
  fold_left (period_step acct rules dates end_date)
            (seq 0 (length dates)) (Some Dec.zero).

(** The value of [total_interest] after the final [quantize]; [None] is an
    exception raised on the way. *)
Definition total_interest (acct : BankAccount) (rules : list InterestRule)
    (dates : list PyDate.t) (end_date : PyDate.t) : option Dec.t :=
  match accumulate_interest acct rules dates end_date with
  | Some unrounded => Dec.quantize_cents unrounded
  | None => None
  end.

Definition is_interest_of_month (year month : Z) (t : Transaction) : bool :=
  txn_kind_eqb (transaction_type t) I
  && (PyDate.year (date t) =? year) && (PyDate.month (date t) =? month).

Definition calculate_interest (acct_id : string) (year month : Z)
    (st : BankSystem) : interest_result * BankSystem :=
  match accounts st !! acct_id with
  | None => (NoInterest, st)
  | Some acct =>
  (* Determine the last day of the month *)
  match PyDate.monthrange year month with
  | None => (InterestRaised, st)
  | Some last_day =>
  match PyDate.make year month 1, PyDate.make year month last_day with
  | Some start_date, Some end_date =>
      let account_txns :=
        List.filter (fun t => PyDate.leb (date t) end_date) (transactions acct) in
      match account_txns with
      | [] => (NoInterest, st)
      | _ :: _ =>
      match List.filter (is_interest_of_month year month) account_txns with
      | _ :: _ => (NoInterest, st)
      | [] =>
          let dates := balance_change_dates account_txns (interest_rules st)
                                            start_date end_date in
          match total_interest acct (interest_rules st) dates end_date with
          | None => (InterestRaised, st)
          | Some total =>
              if Dec.ltb Dec.zero total then
                match Transaction_init end_date acct_id I total None with
                | None => (InterestRaised, st)
                | Some interest_txn =>
                    (InterestValue total,
                     mkBankSystem
                       (<[acct_id := add_transaction interest_txn acct]>
                          (accounts st))
                       (interest_rules st) (transaction_counters st))
                end
              else (InterestValue Dec.zero, st)
          end
      end end
  | _, _ => (InterestRaised, st)
  end end end.

(** ** Sessions: the states a ledger goes through

    [print_monthly_statement] changes the state only through its call of
    [calculate_interest]; the other methods of [BankSystem] do not change
    it. *)
Inductive step (st : BankSystem) : BankSystem -> Prop :=
| step_create (date_str acct_id txn_type amount_str : string) :
    step st (create_transaction date_str acct_id txn_type amount_str st).2
| step_rule (date_str rid rate_str : string) :
    step st (add_interest_rule date_str rid rate_str st).2
| step_interest (acct_id : string) (year month : Z) :
    step st (calculate_interest acct_id year month st).2.

Definition reachable_from (st st' : BankSystem) : Prop := rtc step st st'.
Definition reachable (st : BankSystem) : Prop :=
  reachable_from BankSystem_init st.

(** The transactions of an account id (none when the id is unknown). *)
Definition transactions_of (st : BankSystem) (acct_id : string)
    : list Transaction :=
  match accounts st !! acct_id with
  | Some a => transactions a
  | None => []
  end.

(** The balance of an account id at a date (an unknown id has no
    transactions). *)
Definition balance_of (st : BankSystem) (acct_id : string) (d : PyDate.t)
    : Dec.t :=
  get_balance_at_date
    (default (BankAccount_init acct_id) (accounts st !! acct_id)) d.

(** The Interest transactions of an account dated in a year and month. *)
Definition interest_of_month (st : BankSystem) (acct_id : string)
    (year month : Z) : list Transaction :=
  List.filter (is_interest_of_month year month) (transactions_of st acct_id).

(** The last day of a month, as a date. *)
Definition month_end (year month : Z) : PyDate.t :=
  PyDate.mk year month (PyDate.days_in_month year month).
Definition month_start (year month : Z) : PyDate.t := PyDate.mk year month 1.

(** ** The accrual as the specification words it

    Each breakpoint [d] other than the month end starts a period that runs
    to the next breakpoint, or through the month end for the last one;
    its length is [next - d] days, and [month_end - d + 1] for the trailing
    period. *)
Fixpoint periods (dates : list PyDate.t) (end_date : PyDate.t)
    : list (PyDate.t * Z) :=
  match dates with
  | [] => []
  | d :: rest =>
      (if PyDate.eqb d end_date then []
       else [(d, match rest with
                 | d' :: _ => PyDate.days_between d' d
                 | [] => PyDate.days_between end_date d + 1
                 end)])
      ++ periods rest end_date
  end.

(** [x / y] for a non-zero literal divisor. *)
Definition div_by (x : Dec.t) (n : Z) : Dec.t :=
  default Dec.zero (Dec.div x (Dec.of_int n)).

(** [balance * rate / 100 * periodDays / 365] in the ledger's decimal
    arithmetic (28 significant digits, each operation rounded half-even). *)
Definition period_term (balance rate : Dec.t) (period_days : Z) : Dec.t :=
  div_by (Dec.mul (div_by (Dec.mul balance rate) 100) (Dec.of_int period_days))
         365.

(** One period added to a running total; a period before any rule
    contributes nothing. *)
Definition add_period (acct : BankAccount) (rules : list InterestRule)
    (acc : Dec.t) (p : PyDate.t * Z) : Dec.t :=
  match applicable_rule rules p.1 with
  | Some rule =>
      Dec.add acc (period_term (get_balance_at_date acct p.1) (rate rule) p.2)
  | None => acc
  end.

(** The terms of all periods, added up in the same arithmetic. *)
Definition period_sum (acct : BankAccount) (rules : list InterestRule)
    (ps : list (PyDate.t * Z)) : Dec.t :=
  fold_left (add_period acct rules) ps Dec.zero.

(** The same in exact rational arithmetic, rounded once at the end. *)
Definition exact_term (balance rate : Q) (period_days : Z) : Q :=
  (balance * rate / 100 * inject_Z period_days / 365)%Q.

Definition add_exact_period (acct : BankAccount) (rules : list InterestRule)
    (acc : Q) (p : PyDate.t * Z) : Q :=
  match applicable_rule rules p.1 with
  | Some rule =>
      (acc + exact_term (Dec.to_Q (get_balance_at_date acct p.1))
                        (Dec.to_Q (rate rule)) p.2)%Q
  | None => acc
  end.

Definition exact_sum (acct : BankAccount) (rules : list InterestRule)
    (ps : list (PyDate.t * Z)) : Q :=
  fold_left (add_exact_period acct rules) ps 0%Q.

(** Round-half-up to a whole number of cents. *)
Definition cents_half_up (q : Q) : Z :=
  if Qle_bool 0 q then Qfloor (q * 100 + (1 # 2))%Q
  else - Qfloor (- q * 100 + (1 # 2))%Q.

(** ** Sample sessions *)

(** Three postings and a 5% rule (the January scenario). *)
Definition january_session : BankSystem :=
  let st := BankSystem_init in
  let st := (create_transaction "20230101" "AC001" "D" "1000" st).2 in
  let st := (create_transaction "20230115" "AC001" "D" "500" st).2 in
  let st := (create_transaction "20230120" "AC001" "W" "200" st).2 in
  (add_interest_rule "20230101" "RULE1" "5" st).2.

(** Three deposits whose exact January interest at 5% is 0.065. *)
Definition half_cent_session : BankSystem :=
  let st := BankSystem_init in
  let st := (create_transaction "20230101" "AC001" "D" "6.39" st).2 in
  let st := (create_transaction "20230120" "AC001" "D" "8.58" st).2 in
  let st := (create_transaction "20230127" "AC001" "D" "34.69" st).2 in
  (add_interest_rule "20230101" "RULE1" "5" st).2.

(** A deposit, a later withdrawal of all of it, and a backdated withdrawal. *)
Definition backdated_session : BankSystem :=
  let st := BankSystem_init in
  let st := (create_transaction "20230110" "AC001" "D" "100" st).2 in
  let st := (create_transaction "20230120" "AC001" "W" "100" st).2 in
  (create_transaction "20230115" "AC001" "W" "50" st).2.

(** An equal deposit and withdrawal on one day, under a 5% rule. *)
Definition zero_balance_session : BankSystem :=
  let st := BankSystem_init in
  let st := (add_interest_rule "20230101" "RULE1" "5.00" st).2 in
  let st := (create_transaction "20230101" "ACC002" "D" "500.00" st).2 in
  (create_transaction "20230101" "ACC002" "W" "500.00" st).2.

(** A deposit in a ledger without any rule. *)
Definition no_rule_session : BankSystem :=
  (create_transaction "20230105" "AC001" "D" "1000" BankSystem_init).2.

(** A deposit of 1000 on 2024-02-01 under a 5% rule (a leap February). *)
Definition leap_february_session : BankSystem :=
  let st := BankSystem_init in
  let st := (add_interest_rule "20240101" "RULE1" "5" st).2 in
  (create_transaction "20240201" "AC001" "D" "1000" st).2.

(** ** The statement functions

    [print_account_transactions] and [print_monthly_statement] return a
    text.  The explanatory texts are modelled as they are; a table is
    modelled by its rows, in the order printed, each with the running
    balance the code computes for it (the column layout of the text is not
    modelled). *)

(** [int(text)], base 10, as CPython 3.11 does it: blanks around the
    number, an optional sign, digits with single underscores between them,
    and at most 4300 digits; [None] is ValueError. *)
Module PyInt.

Definition is_space (c : ascii) : bool :=
  ((9 <=? Dec.code c) && (Dec.code c <=? 13)) || (Dec.code c =? 32).

Fixpoint lstrip (s : list ascii) : list ascii :=
  match s with
  | c :: r => if is_space c then lstrip r else s
  | [] => []
  end.

Definition strip (s : list ascii) : list ascii :=
  rev (lstrip (rev (lstrip s))).

Definition max_str_digits : Z := 4300.

(** Digits and underscores: the value read so far and the number of
    digits; an underscore must stand between two digits. *)
Fixpoint scan (s : list ascii) (after_digit : bool) (acc n : Z)
    : option (Z * Z) :=
  match s with
  | [] => if after_digit then Some (acc, n) else None
  | c :: r =>
      if Dec.is_digit c then scan r true (10 * acc + Dec.digit_val c) (n + 1)
      else if Ascii.eqb c "_" && after_digit then scan r false acc n
      else None
  end.

Definition parse (text : list ascii) : option Z :=
  let '(negative, body) := Dec.take_sign (strip text) in
  match scan body false 0 0 with
  | Some (v, n) =>
      if max_str_digits <? n then None
      else Some (if negative then - v else v)
  | None => None
  end.

End PyInt.

(** [d - timedelta(days=1)]: the previous calendar day; [None] is the
    OverflowError raised before 0001-01-01. *)
Definition prev_day (d : PyDate.t) : option PyDate.t :=
  if 1 <? PyDate.day d
  then Some (PyDate.mk (PyDate.year d) (PyDate.month d) (PyDate.day d - 1))
  else if 1 <? PyDate.month d
  then Some (PyDate.mk (PyDate.year d) (PyDate.month d - 1)
               (PyDate.days_in_month (PyDate.year d) (PyDate.month d - 1)))
  else if PyDate.MINYEAR <? PyDate.year d
  then Some (PyDate.mk (PyDate.year d - 1) 12 31)
  else None.

(** The sort key [(x.date, x.txn_id or "")]: [txn_key_le a b] is
    [not (key b < key a)]. *)
Definition txn_key_le (a b : Transaction) : bool :=
  PyDate.ltb (date a) (date b)
  || (PyDate.eqb (date a) (date b)
      && String.leb (default "" (txn_id a)) (default "" (txn_id b))).

(** One line of a table: the running balance after the transaction. *)
Definition running_step (balance : Dec.t) (txn : Transaction) : Dec.t :=
  match transaction_type txn with
  | D => Dec.add balance (amount txn)
  | W => Dec.sub balance (amount txn)
  | I => Dec.add balance (amount txn)
  end.

Fixpoint running_rows (balance : Dec.t) (txns : list Transaction)
    : list (Transaction * Dec.t) :=
  match txns with
  | [] => []
  | txn :: rest =>
      let b := running_step balance txn in (txn, b) :: running_rows b rest
  end.

Inductive statement_result : Type :=
| StatementText (text : string)
| StatementTable (rows : list (Transaction * Dec.t))
| StatementRaised.

(** [BankSystem.print_account_transactions]; the running balance is
    computed for every line and printed when [with_balance] is set. *)
Definition print_account_transactions (acct_id : string) (with_balance : bool)
    (st : BankSystem) : statement_result :=
  match accounts st !! acct_id with
  | None => StatementText ("Account " ++ acct_id ++ " does not exist.")
  | Some acct =>
      StatementTable
        (running_rows Dec.zero (sorted txn_key_le (transactions acct)))
  end.

(** [year_month[:4]] and [year_month[4:]], read by [int]; the month must
    be in 1..12. *)
Inductive month_selector : Type :=
| SelectorMonth (year month : Z)
| SelectorInvalidMonth
| SelectorInvalidFormat.

Definition parse_year_month (year_month : string) : month_selector :=
  let s := list_ascii_of_string year_month in
  match PyInt.parse (firstn 4 s) with
  | None => SelectorInvalidFormat
  | Some year =>
      match PyInt.parse (skipn 4 s) with
      | None => SelectorInvalidFormat
      | Some month =>
          if (month <? 1) || (12 <? month) then SelectorInvalidMonth
          else SelectorMonth year month
      end
  end.

(** [BankSystem.print_monthly_statement]. *)
Definition print_monthly_statement (acct_id year_month : string)
    (st : BankSystem) : statement_result * BankSystem :=
  match accounts st !! acct_id with
  | None => (StatementText ("Account " ++ acct_id ++ " does not exist."), st)
  | Some _ =>
  match parse_year_month year_month with
  | SelectorInvalidMonth => (StatementText "Invalid month.", st)
  | SelectorInvalidFormat =>
      (StatementText "Invalid year/month format. Please use YYYYMM format.",
       st)
  | SelectorMonth year month =>
      (* Calculate interest for this month if it hasn't been calculated yet *)
      match calculate_interest acct_id year month st with
      | (InterestRaised, st1) => (StatementRaised, st1)
      | (_, st1) =>
      match PyDate.monthrange year month with
      | None => (StatementRaised, st1)
      | Some last_day =>
      match PyDate.make year month 1, PyDate.make year month last_day with
      | Some start_date, Some end_date =>
          let txns := transactions_of st1 acct_id in
          let month_txns :=
            List.filter (fun t => in_month start_date end_date (date t)) txns in
          match month_txns with
          | [] =>
              (StatementText ("No transactions found for account " ++ acct_id
                              ++ " in " ++ year_month ++ "."), st1)
          | _ :: _ =>
              match prev_day start_date with
              | None => (StatementRaised, st1)
              | Some before =>
                  let starting_balance :=
                    fold_left (balance_step before) txns Dec.zero in
                  (StatementTable
                     (running_rows starting_balance
                        (sorted txn_key_le month_txns)), st1)
              end
          end
      | _, _ => (StatementRaised, st1)
      end end end
  end end.

(** [d.strftime("%Y%m%d")] for a year of four digits: the year, the month
    and the day, zero-padded (below the year 1000 the C library does not
    pad the year, and the text is shorter). *)
Definition digit_char (n : Z) : ascii :=
  ascii_of_nat (Z.to_nat (48 + n mod 10)).

Definition year_text (y : Z) : list ascii :=
  [digit_char (y / 1000); digit_char (y / 100); digit_char (y / 10);
   digit_char y].

Definition two_digits (n : Z) : list ascii :=
  [digit_char (n / 10); digit_char n].

Definition strftime_Ymd (d : PyDate.t) : string :=
  string_of_list_ascii
    (year_text (PyDate.year d) ++ two_digits (PyDate.month d)
     ++ two_digits (PyDate.day d)).

(** ** Amounts as whole cents *)

(** What a transaction adds to a balance, in cents. *)
Definition signed_cents (t : Transaction) : Z :=
  match transaction_type t with
  | W => - Dec.coef (amount t)
  | D | I => Dec.coef (amount t)
  end.

(** The sum of the signed cents of the transactions dated up to [q]. *)
Definition cents_upto (q : PyDate.t) (txns : list Transaction) : Z :=
  fold_right Z.add 0
    (List.map signed_cents
       (List.filter (fun t => PyDate.leb (date t) q) txns)).

(** The sum of all amounts, regardless of sign and date. *)
Definition cents_volume (txns : list Transaction) : Z :=
  fold_right Z.add 0 (List.map (fun t => Z.abs (Dec.coef (amount t))) txns).

(** The account of the January scenario, and the same transactions
    entered in another order. *)
Definition january_account : BankAccount :=
  mkBankAccount "AC001"
    [mkTransaction (PyDate.mk 2023 1 1) "AC001" D (Dec.mk 100000 (-2))
       (Some "20230101-01");
     mkTransaction (PyDate.mk 2023 1 15) "AC001" D (Dec.mk 50000 (-2))
       (Some "20230115-01");
     mkTransaction (PyDate.mk 2023 1 20) "AC001" W (Dec.mk 20000 (-2))
       (Some "20230120-01")].

Definition january_account_reordered : BankAccount :=
  mkBankAccount "AC001"
    [mkTransaction (PyDate.mk 2023 1 20) "AC001" W (Dec.mk 20000 (-2))
       (Some "20230120-01");
     mkTransaction (PyDate.mk 2023 1 1) "AC001" D (Dec.mk 100000 (-2))
       (Some "20230101-01");
     mkTransaction (PyDate.mk 2023 1 15) "AC001" D (Dec.mk 50000 (-2))
       (Some "20230115-01")].

(** ** Predicates used to state the properties *)

(** A stored amount: exponent [-2], at most 28 digits. *)
Definition is_cents (a : Dec.t) : Prop :=
  Dec.expo a = -2 /\ Dec.ndigits (Z.abs (Dec.coef a)) <= Dec.prec.

(** What every stored Interest transaction looks like: dated on the last
    day of a real month, with a positive amount. *)
Definition interest_ok (t : Transaction) : Prop :=
  1 <= PyDate.year (date t) <= 9999 /\ 1 <= PyDate.month (date t) <= 12 /\
  PyDate.day (date t)
    = PyDate.days_in_month (PyDate.year (date t)) (PyDate.month (date t)) /\
  Dec.ltb Dec.zero (amount t) = true.

(** Invariant of the accounts: Interest transactions are well formed and
    there is at most one per account and month. *)
Definition accounts_inv (st : BankSystem) : Prop :=
  forall k,
    (forall t, In t (transactions_of st k) -> transaction_type t = I ->
               interest_ok t) /\
    (forall y m, (length (interest_of_month st k y m) <= 1)%nat).

Definition rule_lt (a b : InterestRule) : Prop :=
  PyDate.ltb (rule_date a) (rule_date b) = true.

(** Invariant of the rule list: strictly ascending effective dates. *)
Definition rules_inv (st : BankSystem) : Prop :=
  StronglySorted rule_lt (interest_rules st).

(** A balance that is exactly [s] cents: [s] at exponent [-2], or the
    initial [Decimal('0')]. *)
Definition holds_cents (b : Dec.t) (s : Z) : Prop :=
  b = Dec.mk s (-2) \/ (b = Dec.zero /\ s = 0).

(** The amounts of an account are whole cents and their sum has at most 28
    digits: the range in which the ledger's sums are exact. *)
Definition exact_range (txns : list Transaction) : Prop :=
  Forall (fun t => is_cents (amount t)) txns /\
  cents_volume txns < 10 ^ 28.

(** A real calendar date. *)
Definition valid_date (d : PyDate.t) : Prop :=
  PyDate.make (PyDate.year d) (PyDate.month d) (PyDate.day d) = Some d.

(** What every stored transaction of the account [k] looks like. *)
Definition txn_ok (k : string) (t : Transaction) : Prop :=
  account t = k /\ valid_date (date t) /\
  is_cents (amount t) /\ Dec.ltb Dec.zero (amount t) = true /\
  (transaction_type t = I <-> txn_id t = None).

(** What every stored rule looks like. *)
Definition rule_ok (r : InterestRule) : Prop :=
  valid_date (rule_date r) /\ is_cents (rate r) /\
  Dec.ltb Dec.zero (rate r) = true /\
  Dec.ltb (rate r) (Dec.of_int 100) = true.

(** Well-formedness of a ledger state. *)
Definition wf_inv (st : BankSystem) : Prop :=
  (forall k a, accounts st !! k = Some a ->
     account_id a = k /\ Forall (txn_ok k) (transactions a)) /\
  Forall rule_ok (interest_rules st).

(** A date text as [strptime] accepts it has no hyphen. *)
Definition dash_free (s : string) : Prop :=
  ~ In "-"%char (list_ascii_of_string s).

(** The ids of the transactions of an account, in the order stored
    (Interest transactions have none). *)
Definition ids_of (st : BankSystem) (k : string) : list string :=
  omap txn_id (transactions_of st k).

(** The transaction ids of a state: every counter is at least 1; each id
    is [D-NN] for a date text [D] and a number [NN] between 1 and the
    counter of [D]; no id occurs twice in an account, or in two accounts. *)
Definition ids_inv (st : BankSystem) : Prop :=
  (forall D c, transaction_counters st !! D = Some c -> 1 <= c) /\
  (forall k id,
     In id (ids_of st k) ->
     exists D n, id = (D ++ "-" ++ format_02d n)%string /\ dash_free D /\
                 1 <= n <= default 0 (transaction_counters st !! D)) /\
  (forall k, List.NoDup (ids_of st k)) /\
  (forall k1 k2 id, In id (ids_of st k1) -> In id (ids_of st k2) -> k1 = k2).

(** The number a text of digits denotes. *)
Definition text_value (s : string) : Z :=
  Dec.int_of_digits (list_ascii_of_string s).

(** A scanner of [strptime] that consumes no hyphen. *)
Definition clean (f : PyDate.scanner) : Prop :=
  forall s v r, f s = Some (v, r) ->
    exists pre, s = pre ++ r /\ ~ In "-"%char pre.

(** Strict order of dates, and transactions in date order. *)
Definition date_lt (a b : PyDate.t) : Prop := PyDate.ltb a b = true.

Definition txn_date_le (a b : Transaction) : Prop :=
  PyDate.leb (date a) (date b) = true.

(** The sum of the signed cents of a list of transactions. *)
Definition signed_sum (txns : list Transaction) : Z :=
  fold_right Z.add 0 (map signed_cents txns).

(** * Properties *)

(** ** Decimal arithmetic *)

Section DecFacts.

Lemma ndigits_fuel_upper (f : nat) : forall n k,
  0 <= n < 10 ^ k -> 1 <= k -> Dec.ndigits_fuel f n <= k.
Proof.
  induction f as [|f IH]; intros n k Hn Hk; simpl; [lia|].
  destruct (Z.ltb_spec n 10) as [Hlt|Hge]; [lia|].
  assert (Hk2 : 2 <= k).
  { destruct (Z.eq_dec k 1) as [->|]; [|lia]. simpl in Hn. lia. }
  specialize (IH (n / 10) (k - 1)).
  assert (n / 10 < 10 ^ (k - 1)).
  { apply Z.div_lt_upper_bound; [lia|].
    replace (10 * 10 ^ (k - 1)) with (10 ^ k); [lia|].
    rewrite <- Z.pow_succ_r by lia. f_equal. lia. }
  assert (0 <= n / 10) by (apply Z.div_pos; lia).
  lia.
Qed.

Lemma ndigits_upper n k :
  0 <= n < 10 ^ k -> 1 <= k -> Dec.ndigits n <= k.
Proof. apply ndigits_fuel_upper. Qed.

Lemma ndigits_fuel_pos f n : 1 <= Dec.ndigits_fuel f n.
Proof.
  revert n. induction f as [|f IH]; intros n; simpl; [lia|].
  destruct (n <? 10); [lia|]. specialize (IH (n / 10)). lia.
Qed.

Lemma ndigits_pos n : 1 <= Dec.ndigits n.
Proof. apply ndigits_fuel_pos. Qed.

(** [ndigits] is the number of decimal digits. *)
Lemma ndigits_fuel_spec (f : nat) : forall n,
  0 < n < 2 ^ (Z.of_nat f + 1) ->
  10 ^ (Dec.ndigits_fuel f n - 1) <= n < 10 ^ Dec.ndigits_fuel f n.
Proof.
  induction f as [|f IH]; intros n Hn.
  { cbn in *. lia. }
  cbn [Dec.ndigits_fuel]. destruct (Z.ltb_spec n 10) as [Hlt|Hge].
  { cbn. lia. }
  assert (Hpow : 2 ^ (Z.of_nat (S f) + 1) = 2 * 2 ^ (Z.of_nat f + 1)).
  { rewrite <- Z.pow_succ_r by lia. f_equal. lia. }
  assert (Hq : 0 < n / 10 < 2 ^ (Z.of_nat f + 1)).
  { split; [apply Z.div_str_pos; lia|].
    apply Z.div_lt_upper_bound; lia. }
  specialize (IH (n / 10) Hq).
  pose proof (ndigits_fuel_pos f (n / 10)) as Hk.
  replace (1 + Dec.ndigits_fuel f (n / 10) - 1)
    with (Z.succ (Dec.ndigits_fuel f (n / 10) - 1)) by lia.
  replace (1 + Dec.ndigits_fuel f (n / 10))
    with (Z.succ (Dec.ndigits_fuel f (n / 10))) by lia.
  rewrite !Z.pow_succ_r by lia.
  pose proof (Z.div_mod n 10 ltac:(lia)).
  pose proof (Z.mod_pos_bound n 10 ltac:(lia)). lia.
Qed.

Lemma ndigits_spec n :
  0 < n -> 10 ^ (Dec.ndigits n - 1) <= n < 10 ^ Dec.ndigits n.
Proof.
  intros Hn. apply ndigits_fuel_spec. split; [done|].
  rewrite Z2Nat.id by apply Z.log2_nonneg.
  apply (Z.log2_spec n Hn).
Qed.

Lemma fix_ctx_short d :
  Dec.ndigits (Z.abs (Dec.coef d)) <= Dec.prec -> Dec.fix_ctx d = d.
Proof.
  intros H. unfold Dec.fix_ctx.
  destruct (Dec.coef d =? 0); [done|].
  destruct (Z.ltb_spec (Dec.expo d)
              (Dec.ndigits (Z.abs (Dec.coef d)) + Dec.expo d - Dec.prec));
    [lia|done].
Qed.

Lemma quantize_cents_eq d :
  Dec.quantize_cents d = Dec.quantize_to Dec.ROUND_HALF_UP (-2) d.
Proof. reflexivity. Qed.

Lemma quantize_cents_is_cents x a :
  Dec.quantize_cents x = Some a -> is_cents a.
Proof.
  rewrite quantize_cents_eq. unfold Dec.quantize_to, is_cents. cbn [Dec.expo Dec.cent].
  destruct (Dec.coef x =? 0).
  { intros [= <-]. cbn. split; [done|]. vm_compute. discriminate. }
  destruct (Dec.Emax <? Dec.adjusted x); [done|].
  destruct (Dec.prec <? Dec.adjusted x - -2 + 1); [done|].
  set (ans := Dec.rescale Dec.ROUND_HALF_UP (-2) x).
  destruct (Dec.Emax <? Dec.adjusted ans); [done|].
  destruct (Z.ltb_spec Dec.prec (Dec.ndigits (Z.abs (Dec.coef ans))));
    [done|].
  intros [= <-]. rewrite fix_ctx_short by done. split; [|done].
  unfold ans, Dec.rescale.
  destruct (Dec.coef x =? 0); [done|]. destruct (-2 <=? Dec.expo x); done.
Qed.

Lemma quantize_cents_of_cents a :
  is_cents a -> Dec.quantize_cents a = Some a.
Proof.
  destruct a as [c e]. intros [He Hn]. cbn in He, Hn. subst e.
  rewrite quantize_cents_eq. unfold Dec.quantize_to. cbn [Dec.expo Dec.coef Dec.cent].
  destruct (Z.eqb_spec c 0) as [->|Hc]; [done|].
  unfold Dec.adjusted. cbn [Dec.expo Dec.coef].
  assert (Hr : Dec.rescale Dec.ROUND_HALF_UP (-2) (Dec.mk c (-2))
               = Dec.mk c (-2)).
  { unfold Dec.rescale. cbn [Dec.expo Dec.coef].
    destruct (Z.eqb_spec c 0); [done|]. cbn. f_equal. lia. }
  rewrite Hr. cbn [Dec.expo Dec.coef].
  unfold Dec.prec, Dec.Emax in *.
  repeat match goal with
         | |- context [?a <? ?b] => destruct (Z.ltb_spec a b); [lia|]
         end.
  rewrite fix_ctx_short; [done|]. cbn. unfold Dec.prec. lia.
Qed.

Lemma quantize_cents_idem x a :
  Dec.quantize_cents x = Some a -> Dec.quantize_cents a = Some a.
Proof. intros H. apply quantize_cents_of_cents, (quantize_cents_is_cents x), H. Qed.

Lemma pow10_pos k : 0 <= k -> 0 < 10 ^ k.
Proof. intros. apply Z.pow_pos_nonneg; lia. Qed.

Lemma pow10_split a b : 0 <= a -> 0 <= b -> 10 ^ (a + b) = 10 ^ a * 10 ^ b.
Proof. intros. apply Z.pow_add_r; lia. Qed.

Lemma compare_antisym a b : Dec.compare b a = CompOpp (Dec.compare a b).
Proof.
  unfold Dec.compare. rewrite (Z.min_comm (Dec.expo b)).
  apply Z.compare_antisym.
Qed.

Lemma leb_ltb a b : Dec.leb a b = negb (Dec.ltb b a).
Proof.
  unfold Dec.leb, Dec.ltb. rewrite (compare_antisym a b).
  destruct (Dec.compare a b); done.
Qed.

Lemma ltb_zero x : Dec.ltb Dec.zero x = true <-> 0 < Dec.coef x.
Proof.
  unfold Dec.ltb, Dec.compare. cbn [Dec.zero Dec.coef Dec.expo].
  set (k := Dec.expo x - Z.min 0 (Dec.expo x)).
  assert (0 < 10 ^ k) by (apply pow10_pos; lia).
  rewrite Z.mul_0_l.
  destruct (Z.compare_spec 0 (Dec.coef x * 10 ^ k)); split; try done; nia.
Qed.

Lemma leb_zero x : Dec.leb x Dec.zero = true <-> Dec.coef x <= 0.
Proof.
  rewrite leb_ltb, negb_true_iff, <- not_true_iff_false, ltb_zero. lia.
Qed.

Lemma leb_refl a : Dec.leb a a = true.
Proof. unfold Dec.leb, Dec.compare. by rewrite Z.compare_refl. Qed.

(** Rounding half up: what is dropped decides. *)
Lemma round_half_up_spec n k :
  0 <= n -> 0 <= k ->
  exists q r, n = 10 ^ k * q + r /\ 0 <= r < 10 ^ k /\ 0 <= q /\
    Dec.round_half_up n k = if 10 ^ k <=? 2 * r then q + 1 else q.
Proof.
  intros Hn Hk. pose proof (pow10_pos k Hk) as HP.
  exists (n / 10 ^ k), (n mod 10 ^ k).
  split; [apply Z.div_mod; lia|].
  split; [apply Z.mod_pos_bound; lia|].
  split; [apply Z.div_pos; lia|done].
Qed.

(** Below half a cent [quantize] gives zero. *)
Lemma quantize_cents_tiny x :
  Dec.ltb Dec.zero x = true -> Dec.ltb x (Dec.mk 5 (-3)) = true ->
  Dec.quantize_cents x = Some (Dec.mk 0 (-2)).
Proof.
  destruct x as [c e]. rewrite ltb_zero. cbn [Dec.coef]. intros Hc.
  unfold Dec.ltb, Dec.compare. cbn [Dec.coef Dec.expo].
  destruct (Z.compare_spec (c * 10 ^ (e - Z.min e (-3)))
              (5 * 10 ^ (-3 - Z.min e (-3)))) as [|Hlt|]; try done.
  intros _.
  assert (He : e <= -3).
  { destruct (Z.le_gt_cases e (-3)) as [|Hgt]; [done|exfalso].
    rewrite Z.min_r in Hlt by lia.
    replace (-3 - -3) with 0 in Hlt by lia.
    assert (10 <= 10 ^ (e - -3)).
    { replace (e - -3) with (1 + (e + 2)) by lia.
      rewrite pow10_split by lia.
      pose proof (pow10_pos (e + 2)). change (10 ^ 1) with 10. nia. }
    change (10 ^ 0) with 1 in Hlt. nia. }
  rewrite Z.min_l in Hlt by lia.
  replace (e - e) with 0 in Hlt by lia. change (10 ^ 0) with 1 in Hlt.
  set (k := -2 - e).
  assert (Hk : 1 <= k) by (unfold k; lia).
  assert (HP : 10 ^ k = 10 * 10 ^ (-3 - e)).
  { replace k with (1 + (-3 - e)) by (unfold k; lia).
    by rewrite pow10_split by lia. }
  pose proof (pow10_pos (-3 - e)) as HP'.
  assert (Hnd : Dec.ndigits c <= k).
  { apply ndigits_upper; [|done]. lia. }
  rewrite quantize_cents_eq. unfold Dec.quantize_to, Dec.adjusted.
  cbn [Dec.coef Dec.expo Dec.cent].
  destruct (Z.eqb_spec c 0); [lia|].
  rewrite Z.abs_eq by lia. unfold Dec.prec, Dec.Emax.
  destruct (Z.ltb_spec 999999 (e + Dec.ndigits c - 1)); [unfold k in *; lia|].
  destruct (Z.ltb_spec 28 (e + Dec.ndigits c - 1 - -2 + 1));
    [unfold k in *; lia|].
  assert (Hr : Dec.rescale Dec.ROUND_HALF_UP (-2) (Dec.mk c e)
               = Dec.mk 0 (-2)).
  { unfold Dec.rescale. cbn [Dec.coef Dec.expo].
    destruct (Z.eqb_spec c 0); [lia|].
    destruct (Z.leb_spec (-2) e); [lia|].
    cbn [Dec.round_digits]. rewrite Z.abs_eq by lia. fold k.
    destruct (round_half_up_spec c k) as (q & r & Hqr & Hrb & Hq & ->);
      [lia..|].
    assert (q = 0) by nia. subst q.
    destruct (Z.leb_spec (10 ^ k) (2 * r)); [nia|].
    f_equal. lia. }
  rewrite Hr. done.
Qed.

(** From half a cent on, what [quantize] gives is positive. *)
Lemma quantize_cents_positive x q :
  Dec.leb (Dec.mk 5 (-3)) x = true -> Dec.quantize_cents x = Some q ->
  Dec.ltb Dec.zero q = true.
Proof.
  destruct x as [c e]. intros Hle Hq.
  assert (Hx : 5 * 10 ^ (-3 - Z.min (-3) e) <= c * 10 ^ (e - Z.min (-3) e)).
  { revert Hle. unfold Dec.leb, Dec.compare. cbn [Dec.coef Dec.expo].
    destruct (Z.compare_spec (5 * 10 ^ (-3 - Z.min (-3) e))
                (c * 10 ^ (e - Z.min (-3) e))); intros; try done; lia. }
  assert (Hc : 0 < c).
  { pose proof (pow10_pos (-3 - Z.min (-3) e)).
    pose proof (pow10_pos (e - Z.min (-3) e)). nia. }
  apply ltb_zero.
  rewrite quantize_cents_eq in Hq. revert Hq. unfold Dec.quantize_to.
  cbn [Dec.coef Dec.expo Dec.cent].
  destruct (Z.eqb_spec c 0); [lia|].
  destruct (Dec.Emax <? _); [done|]. destruct (Dec.prec <? _); [done|].
  destruct (Dec.Emax <? _); [done|].
  destruct (Z.ltb_spec Dec.prec
              (Dec.ndigits (Z.abs (Dec.coef
                 (Dec.rescale Dec.ROUND_HALF_UP (-2) (Dec.mk c e))))));
    [done|].
  intros [= <-]. rewrite fix_ctx_short by done.
  unfold Dec.rescale. cbn [Dec.coef Dec.expo].
  destruct (Z.eqb_spec c 0); [lia|].
  destruct (Z.leb_spec (-2) e) as [Hpad|Hcut]; cbn [Dec.coef].
  - pose proof (pow10_pos (e - -2)). nia.
  - cbn [Dec.round_digits]. rewrite Z.abs_eq, Z.sgn_pos by lia.
    rewrite Z.min_r in Hx by lia.
    replace (e - e) with 0 in Hx by lia. change (10 ^ 0) with 1 in Hx.
    set (k := -2 - e). assert (Hk : 1 <= k) by (unfold k; lia).
    assert (HP : 10 ^ k = 10 * 10 ^ (-3 - e)).
    { replace k with (1 + (-3 - e)) by (unfold k; lia).
      by rewrite pow10_split by lia. }
    pose proof (pow10_pos (-3 - e)) as HP'.
    destruct (round_half_up_spec c k) as (q & r & Hqr & Hrb & Hq & ->);
      [lia..|].
    destruct (Z.leb_spec (10 ^ k) (2 * r)); [lia|]. nia.
Qed.

(** Below [10^26 - 0.005] the result of [quantize] fits the context. *)
Lemma quantize_cents_defined x :
  Dec.ltb Dec.zero x = true ->
  Dec.ltb x (Dec.mk 99999999999999999999999999995 (-3)) = true ->
  exists q, Dec.quantize_cents x = Some q.
Proof.
  destruct x as [c e]. rewrite ltb_zero. cbn [Dec.coef]. intros Hc.
  unfold Dec.ltb, Dec.compare. cbn [Dec.coef Dec.expo].
  destruct (Z.compare_spec (c * 10 ^ (e - Z.min e (-3)))
              (99999999999999999999999999995 * 10 ^ (-3 - Z.min e (-3))))
    as [|Hlt|]; try done.
  intros _.
  rewrite quantize_cents_eq. unfold Dec.quantize_to, Dec.adjusted.
  cbn [Dec.coef Dec.expo Dec.cent].
  destruct (Z.eqb_spec c 0); [lia|].
  rewrite (Z.abs_eq c) by lia.
  assert (Hgoal :
    Dec.ndigits c <= 26 - e /\
    Dec.ndigits (Z.abs (Dec.coef
       (Dec.rescale Dec.ROUND_HALF_UP (-2) (Dec.mk c e)))) <= 28).
  { unfold Dec.rescale. cbn [Dec.coef Dec.expo].
    destruct (Z.eqb_spec c 0); [lia|].
    destruct (Z.leb_spec (-2) e) as [Hpad|Hcut]; cbn [Dec.coef].
    - rewrite Z.min_r in Hlt by lia.
      replace (-3 - -3) with 0 in Hlt by lia. change (10 ^ 0) with 1 in Hlt.
      replace (e - -3) with ((e + 2) + 1) in Hlt by lia.
      rewrite pow10_split in Hlt by lia. change (10 ^ 1) with 10 in Hlt.
      replace (e - -2) with (e + 2) by lia.
      pose proof (pow10_pos (e + 2) ltac:(lia)) as HP.
      assert (Hb : c * 10 ^ (e + 2) < 10 ^ 28) by (change (10 ^ 28) with 10000000000000000000000000000; lia).
      assert (He : e + 2 < 28).
      { destruct (Z.lt_ge_cases (e + 2) 28) as [|Hge]; [done|exfalso].
        assert (10 ^ 28 <= 10 ^ (e + 2)) by (apply Z.pow_le_mono_r; lia).
        nia. }
      split.
      + apply ndigits_upper; [|lia]. split; [lia|].
        apply (Z.mul_lt_mono_pos_r (10 ^ (e + 2))); [done|].
        rewrite <- pow10_split by lia.
        replace (26 - e + (e + 2)) with 28 by lia. done.
      + rewrite Z.abs_eq by nia. apply ndigits_upper; [nia|lia].
    - rewrite Z.min_l in Hlt by lia.
      replace (e - e) with 0 in Hlt by lia. change (10 ^ 0) with 1 in Hlt.
      set (k := -2 - e) in *. assert (Hk : 1 <= k) by (unfold k; lia).
      assert (HP : 10 ^ k = 10 * 10 ^ (-3 - e)).
      { replace k with (1 + (-3 - e)) by (unfold k; lia).
        by rewrite pow10_split by lia. }
      pose proof (pow10_pos (-3 - e)) as HP'.
      assert (Hck : c < 10 ^ (28 + k)).
      { rewrite pow10_split, HP by lia.
        change (10 ^ 28) with 10000000000000000000000000000. nia. }
      split.
      + replace (26 - e) with (28 + k) by (unfold k; lia).
        apply ndigits_upper; lia.
      + cbn [Dec.round_digits]. rewrite (Z.abs_eq c), Z.sgn_pos by lia.
        destruct (round_half_up_spec c k) as (q & r & Hqr & Hrb & Hq & ->);
          [lia..|].
        assert (Hq' : q <= 9999999999999999999999999999) by nia.
        destruct (Z.leb_spec (10 ^ k) (2 * r)).
        * assert (q < 9999999999999999999999999999) by nia.
          rewrite Z.mul_1_l, Z.abs_eq by lia.
          apply ndigits_upper; [|lia].
          change (10 ^ 28) with 10000000000000000000000000000. lia.
        * rewrite Z.mul_1_l, Z.abs_eq by lia.
          apply ndigits_upper; [|lia].
          change (10 ^ 28) with 10000000000000000000000000000. lia. }
  destruct Hgoal as [Hn1 Hn2]. unfold Dec.prec, Dec.Emax.
  pose proof (ndigits_pos c).
  destruct (Z.ltb_spec 999999 (e + Dec.ndigits c - 1)); [lia|].
  destruct (Z.ltb_spec 28 (e + Dec.ndigits c - 1 - -2 + 1)); [lia|].
  assert (He2 : Dec.expo (Dec.rescale Dec.ROUND_HALF_UP (-2) (Dec.mk c e)) = -2).
  { unfold Dec.rescale. cbn [Dec.coef Dec.expo].
    destruct (c =? 0); [done|]. destruct (-2 <=? e); done. }
  rewrite He2.
  destruct (Z.ltb_spec 999999 (-2 + Dec.ndigits (Z.abs (Dec.coef
       (Dec.rescale Dec.ROUND_HALF_UP (-2) (Dec.mk c e)))) - 1)); [lia|].
  destruct (Z.ltb_spec 28 (Dec.ndigits (Z.abs (Dec.coef
       (Dec.rescale Dec.ROUND_HALF_UP (-2) (Dec.mk c e)))))); [lia|].
  eauto.
Qed.

(** Comparison of decimals is comparison of their values. *)
Lemma compare_shift ca ea cb eb t t' :
  0 <= ea + t -> 0 <= eb + t -> t <= t' ->
  (ca * 10 ^ (ea + t') ?= cb * 10 ^ (eb + t'))
  = (ca * 10 ^ (ea + t) ?= cb * 10 ^ (eb + t)).
Proof.
  intros Ha Hb Ht.
  replace (ea + t') with ((ea + t) + (t' - t)) by lia.
  replace (eb + t') with ((eb + t) + (t' - t)) by lia.
  rewrite (pow10_split (ea + t) (t' - t)), (pow10_split (eb + t) (t' - t)),
    !Z.mul_assoc by lia.
  symmetry. apply Zmult_compare_compat_r.
  pose proof (pow10_pos (t' - t)). lia.
Qed.

Lemma to_Q_num_den d :
  exists s, 0 <= s /\ 0 <= Dec.expo d + s /\ - Dec.expo d <= s /\
    Qnum (Dec.to_Q d) = Dec.coef d * 10 ^ (Dec.expo d + s) /\
    Z.pos (Qden (Dec.to_Q d)) = 10 ^ s.
Proof.
  unfold Dec.to_Q. destruct (Z.leb_spec 0 (Dec.expo d)).
  - exists 0. cbn. rewrite Z.add_0_r. repeat split; lia.
  - exists (- Dec.expo d). cbn.
    replace (Dec.expo d + - Dec.expo d) with 0 by lia.
    rewrite Z2Pos.id by (apply pow10_pos; lia).
    repeat split; lia.
Qed.

Lemma compare_to_Q a b :
  Dec.compare a b = (Dec.to_Q a ?= Dec.to_Q b)%Q.
Proof.
  unfold Qcompare, Dec.compare.
  destruct (to_Q_num_den a) as (sa & Hsa & Hea & Hma & -> & ->).
  destruct (to_Q_num_den b) as (sb & Hsb & Heb & Hmb & -> & ->).
  rewrite <- !Z.mul_assoc, <- !pow10_split by lia.
  replace (Dec.expo b + sb + sa) with (Dec.expo b + (sa + sb)) by lia.
  replace (Dec.expo a + sa + sb) with (Dec.expo a + (sa + sb)) by lia.
  set (m := Z.min (Dec.expo a) (Dec.expo b)).
  replace (Dec.expo a - m) with (Dec.expo a + - m) by lia.
  replace (Dec.expo b - m) with (Dec.expo b + - m) by lia.
  symmetry. apply compare_shift; lia.
Qed.

Lemma ltb_to_Q a b : Dec.ltb a b = true <-> (Dec.to_Q a < Dec.to_Q b)%Q.
Proof.
  unfold Dec.ltb. rewrite compare_to_Q, Qlt_alt.
  destruct (Dec.to_Q a ?= Dec.to_Q b)%Q; split; done.
Qed.

Lemma leb_to_Q a b : Dec.leb a b = true <-> (Dec.to_Q a <= Dec.to_Q b)%Q.
Proof.
  unfold Dec.leb. rewrite compare_to_Q, Qle_alt.
  destruct (Dec.to_Q a ?= Dec.to_Q b)%Q; split; done.
Qed.

Lemma eqb_to_Q a b : Dec.eqb a b = true <-> (Dec.to_Q a == Dec.to_Q b)%Q.
Proof.
  unfold Dec.eqb. rewrite compare_to_Q, Qeq_alt.
  destruct (Dec.to_Q a ?= Dec.to_Q b)%Q; split; done.
Qed.

End DecFacts.

(** ** Dates *)

Section DateFacts.

Lemma date_eqb_eq a b : PyDate.eqb a b = true <-> a = b.
Proof.
  destruct a, b. unfold PyDate.eqb. cbn.
  rewrite !andb_true_iff, !Z.eqb_eq. split; [intros [[-> ->] ->]|intros [=]]; done.
Qed.

Lemma date_eqb_refl a : PyDate.eqb a a = true.
Proof. by apply date_eqb_eq. Qed.

Lemma date_compare_antisym a b :
  PyDate.compare b a = CompOpp (PyDate.compare a b).
Proof.
  unfold PyDate.compare.
  rewrite (Z.compare_antisym (PyDate.year a)),
          (Z.compare_antisym (PyDate.month a)),
          (Z.compare_antisym (PyDate.day a)).
  destruct (PyDate.year a ?= PyDate.year b); cbn; try done.
  destruct (PyDate.month a ?= PyDate.month b); cbn; done.
Qed.

Lemma date_compare_eq a b : PyDate.compare a b = Eq <-> a = b.
Proof.
  destruct a as [y m d], b as [y' m' d']. unfold PyDate.compare. cbn.
  destruct (Z.compare_spec y y'); [|split; [done|intros [=]; lia]..].
  destruct (Z.compare_spec m m'); [|split; [done|intros [=]; lia]..].
  destruct (Z.compare_spec d d'); split; try done; try (intros [=]; lia).
  intros _. by subst.
Qed.

Lemma date_leb_ltb a b : PyDate.leb a b = negb (PyDate.ltb b a).
Proof.
  unfold PyDate.leb, PyDate.ltb. rewrite (date_compare_antisym a b).
  destruct (PyDate.compare a b); done.
Qed.

Lemma date_leb_refl a : PyDate.leb a a = true.
Proof.
  unfold PyDate.leb. by rewrite (proj2 (date_compare_eq a a) eq_refl).
Qed.

Lemma date_leb_total a b : PyDate.leb a b = true \/ PyDate.leb b a = true.
Proof.
  unfold PyDate.leb. rewrite (date_compare_antisym a b).
  destruct (PyDate.compare a b); auto.
Qed.

Lemma date_leb_antisym a b :
  PyDate.leb a b = true -> PyDate.leb b a = true -> a = b.
Proof.
  unfold PyDate.leb. rewrite (date_compare_antisym a b).
  intros H1 H2. apply date_compare_eq.
  destruct (PyDate.compare a b); done.
Qed.

Lemma date_ltb_spec a b :
  PyDate.ltb a b = true <->
  PyDate.year a < PyDate.year b \/
  (PyDate.year a = PyDate.year b /\
   (PyDate.month a < PyDate.month b \/
    (PyDate.month a = PyDate.month b /\ PyDate.day a < PyDate.day b))).
Proof.
  unfold PyDate.ltb, PyDate.compare.
  destruct (Z.compare_spec (PyDate.year a) (PyDate.year b));
    [|split; [lia|done]|split; [done|lia]].
  destruct (Z.compare_spec (PyDate.month a) (PyDate.month b));
    [|split; [lia|done]|split; [done|lia]].
  destruct (Z.compare_spec (PyDate.day a) (PyDate.day b));
    split; try done; lia.
Qed.

Lemma date_leb_trans a b c :
  PyDate.leb a b = true -> PyDate.leb b c = true -> PyDate.leb a c = true.
Proof.
  rewrite !date_leb_ltb, !negb_true_iff, <- !not_true_iff_false,
          !date_ltb_spec. lia.
Qed.

Lemma date_ltb_leb a b : PyDate.ltb a b = true -> PyDate.leb a b = true.
Proof.
  unfold PyDate.ltb, PyDate.leb. destruct (PyDate.compare a b); done.
Qed.

Lemma days_in_month_bounds y m :
  1 <= m <= 12 -> 28 <= PyDate.days_in_month y m <= 31.
Proof.
  intros Hm. unfold PyDate.days_in_month.
  assert (Hc : m = 1 \/ m = 2 \/ m = 3 \/ m = 4 \/ m = 5 \/ m = 6 \/ m = 7
               \/ m = 8 \/ m = 9 \/ m = 10 \/ m = 11 \/ m = 12) by lia.
  destruct (PyDate.is_leap y);
    repeat (destruct Hc as [->|Hc]; [simpl; lia|]); subst; simpl; lia.
Qed.

Lemma make_Some y m d x :
  PyDate.make y m d = Some x ->
  x = PyDate.mk y m d /\ 1 <= y <= 9999 /\ 1 <= m <= 12 /\
  1 <= d <= PyDate.days_in_month y m.
Proof.
  unfold PyDate.make, PyDate.MINYEAR, PyDate.MAXYEAR.
  destruct (_ && _) eqn:E; [|done]. intros [= <-].
  rewrite !andb_true_iff, !Z.leb_le in E. split; [done|lia].
Qed.

Lemma make_valid y m d :
  1 <= y <= 9999 -> 1 <= m <= 12 -> 1 <= d <= PyDate.days_in_month y m ->
  PyDate.make y m d = Some (PyDate.mk y m d).
Proof.
  intros. unfold PyDate.make, PyDate.MINYEAR, PyDate.MAXYEAR.
  destruct (_ && _) eqn:E; [done|].
  rewrite !andb_false_iff, !Z.leb_gt in E. lia.
Qed.

Lemma monthrange_valid y m :
  1 <= m <= 12 -> PyDate.monthrange y m = Some (PyDate.days_in_month y m).
Proof.
  intros. unfold PyDate.monthrange.
  destruct (_ && _) eqn:E; [done|].
  rewrite !andb_false_iff, !Z.leb_gt in E. lia.
Qed.

Lemma month_start_valid y m :
  1 <= y <= 9999 -> 1 <= m <= 12 ->
  PyDate.make y m 1 = Some (month_start y m).
Proof.
  intros. apply make_valid; try done.
  pose proof (days_in_month_bounds y m). lia.
Qed.

Lemma month_end_valid y m :
  1 <= y <= 9999 -> 1 <= m <= 12 ->
  PyDate.make y m (PyDate.days_in_month y m) = Some (month_end y m).
Proof.
  intros. apply make_valid; try done.
  pose proof (days_in_month_bounds y m). lia.
Qed.

(** The day after a valid date is one ordinal further. *)
Lemma next_day_ordinal d nd :
  1 <= PyDate.month d <= 12 ->
  PyDate.day d <= PyDate.days_in_month (PyDate.year d) (PyDate.month d) ->
  PyDate.next_day d = Some nd ->
  PyDate.toordinal nd = PyDate.toordinal d + 1.
Proof.
  destruct d as [y m dd]. cbn [PyDate.year PyDate.month PyDate.day].
  intros Hm Hd. unfold PyDate.next_day, PyDate.toordinal.
  cbn [PyDate.year PyDate.month PyDate.day].
  destruct (Z.ltb_spec dd (PyDate.days_in_month y m)).
  { intros [= <-]. cbn. lia. }
  assert (dd = PyDate.days_in_month y m) by lia. subst dd.
  destruct (Z.ltb_spec m 12).
  { intros [= <-]. cbn [PyDate.year PyDate.month PyDate.day].
    unfold PyDate.days_before_month, PyDate.days_in_month.
    assert (Hc : m = 1 \/ m = 2 \/ m = 3 \/ m = 4 \/ m = 5 \/ m = 6
                 \/ m = 7 \/ m = 8 \/ m = 9 \/ m = 10 \/ m = 11) by lia.
    destruct (PyDate.is_leap y);
      repeat (destruct Hc as [->|Hc]; [simpl; lia|]); subst; simpl; lia. }
  assert (m = 12) by lia. subst m.
  destruct (y <? PyDate.MAXYEAR); [|done]. intros [= <-].
  cbn [PyDate.year PyDate.month PyDate.day].
  unfold PyDate.days_before_month, PyDate.days_in_month,
    PyDate.days_before_year, PyDate.is_leap.
  replace (y + 1 - 1) with y by lia.
  change (Z.to_nat 1) with 1%nat. change (Z.to_nat 12) with 12%nat.
  cbn [nth andb Z.ltb Z.eqb Z.compare Pos.compare Pos.compare_cont].
  destruct (Z.eqb_spec (y mod 4) 0), (Z.eqb_spec (y mod 100) 0),
    (Z.eqb_spec (y mod 400) 0); cbn [negb orb andb].
  all: change ((12 =? 2)%positive) with false; cbn [andb].
  all: Z.div_mod_to_equations; lia.
Qed.

End DateFacts.

(** ** What one call does to the state *)

Section Effects.

Lemma validate_amount_inr s a :
  validate_amount s = inr a ->
  is_cents a /\ Dec.ltb Dec.zero a = true.
Proof.
  unfold validate_amount.
  destruct (Dec.parse s) as [[d| |]|]; try done.
  destruct (Dec.quantize_cents d) as [q|] eqn:Hq; [|done].
  destruct (Dec.leb q Dec.zero) eqn:Hle; [done|]. intros [= <-].
  split; [by eapply quantize_cents_is_cents|].
  rewrite leb_ltb in Hle. by destruct (Dec.ltb Dec.zero q).
Qed.

Lemma validate_rate_inr s r :
  validate_rate s = inr r -> is_cents r.
Proof.
  unfold validate_rate.
  destruct (Dec.parse s) as [[d| |]|]; try done.
  destruct (Dec.quantize_cents d) as [q|] eqn:Hq; [|done].
  destruct (_ || _); [done|]. intros [= <-].
  by eapply quantize_cents_is_cents.
Qed.

Lemma Transaction_init_cents d acct k a id :
  is_cents a ->
  Transaction_init d acct k a id = Some (mkTransaction d acct k a id).
Proof.
  intros H. unfold Transaction_init.
  by rewrite (quantize_cents_of_cents a H).
Qed.

Lemma InterestRule_init_cents d id r :
  is_cents r -> InterestRule_init d id r = Some (mkInterestRule d id r).
Proof.
  intros H. unfold InterestRule_init.
  by rewrite (quantize_cents_of_cents r H).
Qed.

Lemma get_or_create_lookup acct_id (accts : gmap string BankAccount) :
  get_or_create acct_id accts !! acct_id
  = Some (default (BankAccount_init acct_id) (accts !! acct_id)).
Proof.
  unfold get_or_create. destruct (accts !! acct_id) eqn:E; cbn.
  - done.
  - by rewrite lookup_insert_eq.
Qed.

Lemma get_or_create_lookup_ne acct_id k (accts : gmap string BankAccount) :
  k <> acct_id -> get_or_create acct_id accts !! k = accts !! k.
Proof.
  intros. unfold get_or_create. destruct (accts !! acct_id); [done|].
  by rewrite lookup_insert_ne.
Qed.

(** The three ways a posting ends. *)
Lemma create_transaction_cases date_str acct_id txn_type amount_str st :
  let r := create_transaction date_str acct_id txn_type amount_str st in
  let accts := get_or_create acct_id (accounts st) in
  let acct := default (BankAccount_init acct_id) (accounts st !! acct_id) in
  (exists e, e <> InsufficientFunds /\ r = (TxnFail e, st)) \/
  (exists d amt,
      PyDate.strptime_Ymd date_str = Some d /\
      parse_txn_type txn_type = Some W /\
      validate_amount amount_str = inr amt /\
      can_withdraw acct amt d = false /\
      r = (TxnFail InsufficientFunds,
           mkBankSystem accts (interest_rules st) (transaction_counters st)))
  \/
  (exists d kind amt,
      PyDate.strptime_Ymd date_str = Some d /\
      parse_txn_type txn_type = Some kind /\ kind <> I /\
      validate_amount amount_str = inr amt /\
      (kind = W -> can_withdraw acct amt d = true) /\
      let n := default 0 (transaction_counters st !! date_str) + 1 in
      let txn := mkTransaction d acct_id kind amt
                   (Some (date_str ++ "-" ++ format_02d n)%string) in
      r = (TxnOk acct_id,
           mkBankSystem (<[acct_id := add_transaction txn acct]> accts)
                        (interest_rules st)
                        (<[date_str := n]> (transaction_counters st)))).
Proof.
  cbn zeta. unfold create_transaction.
  destruct (PyDate.strptime_Ymd date_str) as [d|];
    [|left; by exists InvalidDate].
  destruct (parse_txn_type txn_type) as [kind|] eqn:Hk;
    [|left; by exists InvalidType].
  assert (Hkind : kind <> I).
  { revert Hk. unfold parse_txn_type.
    repeat (destruct (_ =? _)%string; [by intros [= <-]|]). done. }
  destruct (validate_amount amount_str) as [e|amt] eqn:Hv.
  { left. exists e. split; [|done]. revert Hv. unfold validate_amount.
    destruct (Dec.parse amount_str) as [[x| |]|]; try (by intros [= <-]).
    destruct (Dec.quantize_cents x); [|by intros [= <-]].
    destruct (Dec.leb _ _); by intros [= <-]. }
  destruct (validate_amount_inr _ _ Hv) as [Hc Hpos].
  rewrite get_or_create_lookup. cbn [default].
  rewrite (Transaction_init_cents _ _ _ _ _ Hc).
  destruct kind; cbn [txn_kind_eqb andb]; try done.
  - right; right. exists d, D, amt. by repeat split.
  - destruct (can_withdraw _ amt d) eqn:Hw; cbn [negb].
    + right; right. exists d, W, amt. by repeat split.
    + right; left. exists d, amt. by repeat split.
Qed.

Lemma total_interest_cents acct rules dates end_date total :
  total_interest acct rules dates end_date = Some total -> is_cents total.
Proof.
  unfold total_interest. destruct (accumulate_interest _ _ _ _); [|done].
  apply quantize_cents_is_cents.
Qed.

Lemma monthrange_Some y m last :
  PyDate.monthrange y m = Some last ->
  1 <= m <= 12 /\ last = PyDate.days_in_month y m.
Proof.
  unfold PyDate.monthrange. destruct (_ && _) eqn:E; [|done].
  intros [= <-]. rewrite andb_true_iff, !Z.leb_le in E. done.
Qed.

(** An accrual either leaves the state alone or posts one Interest
    transaction dated at the month end. *)
Lemma calculate_interest_cases acct_id y m st :
  let r := calculate_interest acct_id y m st in
  (r.2 = st /\
   (r.1 = NoInterest \/ r.1 = InterestRaised \/
    r.1 = InterestValue Dec.zero)) \/
  (exists acct total,
      accounts st !! acct_id = Some acct /\
      1 <= y <= 9999 /\ 1 <= m <= 12 /\
      let account_txns :=
        List.filter (fun t => PyDate.leb (date t) (month_end y m))
                    (transactions acct) in
      account_txns <> [] /\
      List.filter (is_interest_of_month y m) account_txns = [] /\
      total_interest acct (interest_rules st)
        (balance_change_dates account_txns (interest_rules st)
           (month_start y m) (month_end y m))
        (month_end y m) = Some total /\
      Dec.ltb Dec.zero total = true /\
      r = (InterestValue total,
           mkBankSystem
             (<[acct_id := add_transaction
                  (mkTransaction (month_end y m) acct_id I total None) acct]>
                (accounts st))
             (interest_rules st) (transaction_counters st))).
Proof.
  cbn zeta. unfold calculate_interest.
  destruct (accounts st !! acct_id) as [acct|] eqn:Ha; [|left; auto].
  destruct (PyDate.monthrange y m) as [last|] eqn:Hr; [|left; auto].
  apply monthrange_Some in Hr as [Hm ->].
  destruct (PyDate.make y m 1) as [sd|] eqn:Hs; [|left; auto].
  destruct (PyDate.make y m (PyDate.days_in_month y m)) as [ed|] eqn:He;
    [|left; auto].
  apply make_Some in Hs as (-> & Hy & _ & _).
  apply make_Some in He as (-> & _ & _ & _).
  fold (month_end y m) (month_start y m).
  destruct (List.filter _ (transactions acct)) as [|t0 ts] eqn:Hf;
    [left; auto|].
  destruct (List.filter (is_interest_of_month y m) (t0 :: ts)) eqn:Hi;
    [|left; auto].
  destruct (total_interest _ _ _ _) as [total|] eqn:Ht; [|left; auto].
  destruct (Dec.ltb Dec.zero total) eqn:Hpos; [|left; auto].
  rewrite (Transaction_init_cents _ _ _ _ _ (total_interest_cents _ _ _ _ _ Ht)).
  right. exists acct, total. rewrite Hf. split_and!; try done; lia.
Qed.

(** A rule registration either leaves the state alone or replaces the
    rule list by the sorted list of the kept rules and the new one. *)
Lemma add_interest_rule_cases date_str rid rate_str st :
  let r := add_interest_rule date_str rid rate_str st in
  (exists e, r = (RuleFail e, st)) \/
  (exists d rt,
      PyDate.strptime_Ymd date_str = Some d /\
      validate_rate rate_str = inr rt /\
      let kept := List.filter
                    (fun rule => negb (PyDate.eqb (rule_date rule) d))
                    (interest_rules st) in
      r = (RuleOk,
           mkBankSystem (accounts st)
             (sorted rule_le (kept ++ [mkInterestRule d rid rt]))
             (transaction_counters st))).
Proof.
  cbn zeta. unfold add_interest_rule.
  destruct (PyDate.strptime_Ymd date_str) as [d|]; [|left; eauto].
  destruct (validate_rate rate_str) as [e|rt] eqn:Hv; [left; eauto|].
  rewrite (InterestRule_init_cents _ _ _ (validate_rate_inr _ _ Hv)).
  right. by exists d, rt.
Qed.

Lemma transactions_default st acct_id :
  transactions (default (BankAccount_init acct_id) (accounts st !! acct_id))
  = transactions_of st acct_id.
Proof. unfold transactions_of. by destruct (accounts st !! acct_id). Qed.

Lemma transactions_of_get_or_create st acct_id rules counters k :
  transactions_of
    (mkBankSystem (get_or_create acct_id (accounts st)) rules counters) k
  = transactions_of st k.
Proof.
  unfold transactions_of. cbn [accounts].
  destruct (decide (k = acct_id)) as [->|Hne].
  - rewrite get_or_create_lookup. by destruct (accounts st !! acct_id).
  - by rewrite get_or_create_lookup_ne.
Qed.

Lemma transactions_of_insert accts acct_id a rules counters k :
  transactions_of (mkBankSystem (<[acct_id := a]> accts) rules counters) k
  = if decide (k = acct_id) then transactions a
    else transactions_of (mkBankSystem accts rules counters) k.
Proof.
  unfold transactions_of. cbn [accounts]. destruct (decide (k = acct_id)) as [->|].
  - by rewrite lookup_insert_eq.
  - by rewrite lookup_insert_ne.
Qed.

(** A posting appends at most one transaction, never an Interest one. *)
Lemma create_transaction_transactions date_str acct_id txn_type amount_str
    st k :
  exists new,
    transactions_of
      (create_transaction date_str acct_id txn_type amount_str st).2 k
    = transactions_of st k ++ new /\
    (forall t, In t new -> transaction_type t <> I).
Proof.
  destruct (create_transaction_cases date_str acct_id txn_type amount_str st)
    as [(e & _ & ->)|[(d & amt & _ & _ & _ & _ & ->)
                     |(d & kind & amt & _ & _ & Hk & _ & _ & ->)]];
    cbn [snd].
  - exists []. by rewrite app_nil_r.
  - exists []. by rewrite app_nil_r, transactions_of_get_or_create.
  - rewrite transactions_of_insert. destruct (decide (k = acct_id)) as [->|].
    + eexists [_]. cbn [add_transaction transactions].
      rewrite transactions_default. split; [done|].
      intros t [<-|[]]. done.
    + exists []. by rewrite app_nil_r, transactions_of_get_or_create.
Qed.

Lemma add_interest_rule_accounts date_str rid rate_str st :
  accounts (add_interest_rule date_str rid rate_str st).2 = accounts st.
Proof.
  destruct (add_interest_rule_cases date_str rid rate_str st)
    as [(e & ->)|(d & rt & _ & _ & ->)]; done.
Qed.

Lemma add_interest_rule_transactions date_str rid rate_str st k :
  transactions_of (add_interest_rule date_str rid rate_str st).2 k
  = transactions_of st k.
Proof. unfold transactions_of. by rewrite add_interest_rule_accounts. Qed.

Lemma create_transaction_rules date_str acct_id txn_type amount_str st :
  interest_rules (create_transaction date_str acct_id txn_type amount_str st).2
  = interest_rules st.
Proof.
  destruct (create_transaction_cases date_str acct_id txn_type amount_str st)
    as [(e & _ & ->)|[(d & amt & _ & _ & _ & _ & ->)
                     |(d & kind & amt & _ & _ & _ & _ & _ & ->)]]; done.
Qed.

Lemma calculate_interest_rules acct_id y m st :
  interest_rules (calculate_interest acct_id y m st).2 = interest_rules st.
Proof.
  destruct (calculate_interest_cases acct_id y m st)
    as [[-> _]|(acct & total & _ & _ & _ & _ & _ & _ & _ & ->)]; done.
Qed.

(** An accrual appends nothing, or one well-formed Interest transaction
    of the month to the account. *)
Lemma calculate_interest_transactions acct_id y m st k :
  transactions_of (calculate_interest acct_id y m st).2 k
  = transactions_of st k \/
  (exists t,
      k = acct_id /\
      transactions_of (calculate_interest acct_id y m st).2 k
      = transactions_of st k ++ [t] /\
      transaction_type t = I /\ date t = month_end y m /\
      1 <= y <= 9999 /\ 1 <= m <= 12 /\
      Dec.ltb Dec.zero (amount t) = true /\
      (calculate_interest acct_id y m st).1 = InterestValue (amount t) /\
      List.filter (is_interest_of_month y m)
        (List.filter (fun t => PyDate.leb (date t) (month_end y m))
                     (transactions_of st k)) = []).
Proof.
  destruct (calculate_interest_cases acct_id y m st)
    as [[-> _]|(acct & total & Ha & Hy & Hm & _ & Hi & _ & Hpos & ->)];
    [by left|].
  cbn [fst snd]. rewrite transactions_of_insert.
  destruct (decide (k = acct_id)) as [->|].
  - right. eexists. split; [done|].
    unfold transactions_of. cbn [accounts]. rewrite Ha.
    cbn [add_transaction transactions].
    split_and!; try done; lia.
  - left. unfold transactions_of. by cbn [accounts].
Qed.

End Effects.

(** ** Invariants of a session *)

Section Invariants.

Lemma txn_kind_eqb_eq a b : txn_kind_eqb a b = true <-> a = b.
Proof. destruct a, b; cbn; split; done. Qed.

Lemma is_interest_of_month_spec y m t :
  is_interest_of_month y m t = true <->
  transaction_type t = I /\ PyDate.year (date t) = y /\
  PyDate.month (date t) = m.
Proof.
  unfold is_interest_of_month.
  rewrite !andb_true_iff, txn_kind_eqb_eq, !Z.eqb_eq. tauto.
Qed.

Lemma interest_ok_date t :
  interest_ok t ->
  date t = month_end (PyDate.year (date t)) (PyDate.month (date t)).
Proof.
  intros (_ & _ & Hd & _). unfold month_end. rewrite <- Hd.
  by destruct (date t).
Qed.

(** Restricting to the transactions up to the month end loses no
    Interest transaction of the month. *)
Lemma filter_interest_upto y m (l : list Transaction) :
  (forall t, In t l -> transaction_type t = I -> interest_ok t) ->
  List.filter (is_interest_of_month y m)
    (List.filter (fun t => PyDate.leb (date t) (month_end y m)) l)
  = List.filter (is_interest_of_month y m) l.
Proof.
  induction l as [|t l IH]; intros Hok; [done|]. cbn.
  assert (IH' := IH (fun t' Hin => Hok t' (or_intror Hin))).
  destruct (is_interest_of_month y m t) eqn:Ht.
  - apply is_interest_of_month_spec in Ht as (Hk & Hy & Hm).
    pose proof (interest_ok_date t (Hok t (or_introl eq_refl) Hk)) as Hd.
    rewrite Hy, Hm in Hd. rewrite Hd, date_leb_refl. cbn.
    assert (is_interest_of_month y m t = true) as ->
        by (by apply is_interest_of_month_spec).
    by rewrite IH'.
  - destruct (PyDate.leb (date t) (month_end y m)); cbn;
      rewrite ?Ht; apply IH'.
Qed.

Lemma accounts_inv_init : accounts_inv BankSystem_init.
Proof.
  intros k. unfold interest_of_month, transactions_of. cbn [accounts BankSystem_init].
  rewrite lookup_empty. split; [intros t []|intros; cbn; lia].
Qed.

Lemma accounts_inv_step st st' :
  step st st' -> accounts_inv st -> accounts_inv st'.
Proof.
  intros Hstep Hinv k. destruct (Hinv k) as [Hok Hone].
  destruct Hstep as [date_str acct_id txn_type amount_str
                    |date_str rid rate_str|acct_id y m].
  - destruct (create_transaction_transactions date_str acct_id txn_type
                amount_str st k) as (new & Heq & Hnew).
    unfold interest_of_month. rewrite Heq. split.
    + intros t [Hin|Hin]%in_app_or Ht; [by apply Hok|].
      by destruct (Hnew t Hin).
    + intros y m. rewrite List.filter_app, length_app.
      specialize (Hone y m). unfold interest_of_month in Hone.
      assert (List.filter (is_interest_of_month y m) new = []) as ->; [|cbn; lia].
      clear Heq. induction new as [|t new IH]; [done|]. cbn.
      destruct (is_interest_of_month y m t) eqn:Ht.
      * apply is_interest_of_month_spec in Ht as [Ht _].
        by destruct (Hnew t (or_introl eq_refl)).
      * apply IH. intros t' Hin. apply Hnew. by right.
  - unfold interest_of_month. rewrite add_interest_rule_transactions.
    split; [done|apply Hone].
  - unfold interest_of_month.
    destruct (calculate_interest_transactions acct_id y m st k)
      as [->|(t & -> & -> & Hk & Hd & Hy & Hm & Hpos & _ & Hnone)];
      [split; [done|apply Hone]|].
    rewrite filter_interest_upto in Hnone by done.
    assert (Hokt : interest_ok t).
    { unfold interest_ok. rewrite Hd. cbn. split_and!; try done; lia. }
    split.
    + intros t' [Hin|[<-|[]]]%in_app_or Ht'; [by apply Hok|done].
    + intros y' m'. rewrite List.filter_app, length_app. cbn [List.filter].
      destruct (is_interest_of_month y' m' t) eqn:Ht; cbn; [|specialize (Hone y' m'); unfold interest_of_month in Hone; lia].
      apply is_interest_of_month_spec in Ht as (_ & <- & <-).
      rewrite Hd. cbn. by rewrite Hnone.
Qed.

Lemma accounts_inv_reachable_from st st' :
  reachable_from st st' -> accounts_inv st -> accounts_inv st'.
Proof.
  induction 1 as [|st1 st2 st3 Hs _ IH]; [done|].
  intros. by apply IH, (accounts_inv_step st1).
Qed.

Lemma accounts_inv_reachable st : reachable st -> accounts_inv st.
Proof.
  intros H. eapply accounts_inv_reachable_from; [exact H|].
  apply accounts_inv_init.
Qed.

(** Transactions are only ever appended. *)
Lemma step_transactions_grow st st' k :
  step st st' ->
  exists new, transactions_of st' k = transactions_of st k ++ new.
Proof.
  intros [date_str acct_id txn_type amount_str|date_str rid rate_str
         |acct_id y m].
  - destruct (create_transaction_transactions date_str acct_id txn_type
                amount_str st k) as (new & Heq & _). eauto.
  - exists []. by rewrite app_nil_r, add_interest_rule_transactions.
  - destruct (calculate_interest_transactions acct_id y m st k)
      as [->|(t & _ & -> & _)]; [exists []; by rewrite app_nil_r|eauto].
Qed.

Lemma reachable_from_transactions_grow st st' k :
  reachable_from st st' ->
  exists new, transactions_of st' k = transactions_of st k ++ new.
Proof.
  induction 1 as [st|st1 st2 st3 Hs _ [new IH]].
  - exists []. by rewrite app_nil_r.
  - destruct (step_transactions_grow st1 st2 k Hs) as [new' Heq].
    exists (new' ++ new). by rewrite IH, Heq, app_assoc.
Qed.

(** Once the month has its Interest transaction, an accrual for that
    month does nothing and returns [None]. *)
Lemma calculate_interest_already acct_id y m st :
  accounts_inv st -> interest_of_month st acct_id y m <> [] ->
  calculate_interest acct_id y m st = (NoInterest, st).
Proof.
  intros Hinv Hne. destruct (Hinv acct_id) as [Hok _].
  unfold interest_of_month, transactions_of in *.
  unfold calculate_interest.
  destruct (accounts st !! acct_id) as [acct|]; [|done].
  destruct (List.filter (is_interest_of_month y m) (transactions acct))
    as [|t ts] eqn:Hf; [done|].
  assert (Hin : In t (List.filter (is_interest_of_month y m)
                        (transactions acct))) by (rewrite Hf; by left).
  apply filter_In in Hin as [Hin Ht].
  apply is_interest_of_month_spec in Ht as (Hk & <- & <-).
  destruct (Hok t Hin Hk) as (Hy & Hm & Hd & _).
  rewrite monthrange_valid, month_start_valid, month_end_valid by done.
  rewrite filter_interest_upto, Hf by done.
  by case_match.
Qed.

End Invariants.

(** ** The rule list *)

Section Rules.

Lemma insert_sorted_perm {A} (le : A -> A -> bool) x l :
  Permutation (x :: l) (insert_sorted le x l).
Proof.
  induction l as [|y l IH]; cbn; [done|].
  destruct (le x y); [done|].
  etransitivity; [apply perm_swap|]. by constructor.
Qed.

Lemma sorted_perm {A} (le : A -> A -> bool) l :
  Permutation l (sorted le l).
Proof.
  induction l as [|x l IH]; cbn; [done|].
  etransitivity; [|apply insert_sorted_perm]. by constructor.
Qed.

Lemma rule_lt_trans a b c : rule_lt a b -> rule_lt b c -> rule_lt a c.
Proof. unfold rule_lt. rewrite !date_ltb_spec. lia. Qed.

Lemma rule_not_le_lt a b : rule_le a b = false -> rule_lt b a.
Proof.
  unfold rule_le, rule_lt. rewrite date_leb_ltb.
  by destruct (PyDate.ltb _ _).
Qed.

Lemma rule_le_ne_lt a b :
  rule_le a b = true -> rule_date a <> rule_date b -> rule_lt a b.
Proof.
  unfold rule_le, rule_lt, PyDate.leb, PyDate.ltb. intros Hle Hne.
  destruct (PyDate.compare (rule_date a) (rule_date b)) eqn:E; try done.
  by apply date_compare_eq in E.
Qed.

Lemma rule_lt_ne a b : rule_lt a b -> rule_date a <> rule_date b.
Proof.
  unfold rule_lt, PyDate.ltb. intros H E.
  apply date_compare_eq in E. by rewrite E in H.
Qed.

Lemma insert_sorted_strict x l :
  StronglySorted rule_lt l ->
  (forall y, In y l -> rule_date y <> rule_date x) ->
  StronglySorted rule_lt (insert_sorted rule_le x l).
Proof.
  induction 1 as [|y l Hs IH Hall]; intros Hne; cbn.
  { repeat constructor. }
  destruct (rule_le x y) eqn:Hle.
  - assert (Hxy : rule_lt x y).
    { apply rule_le_ne_lt; [done|]. intros E. by apply (Hne y); [left|]. }
    constructor; [by constructor|]. constructor; [done|].
    eapply List.Forall_impl; [|exact Hall]. intros z. by apply rule_lt_trans.
  - constructor.
    + apply IH. intros z Hz. apply Hne. by right.
    + apply List.Forall_forall. intros z Hz.
      apply (Permutation_in _ (Permutation_sym (insert_sorted_perm _ _ _)))
        in Hz as [<-|Hz].
      * by apply rule_not_le_lt.
      * by apply (proj1 (List.Forall_forall _ _) Hall).
Qed.

Lemma sorted_strict l :
  List.NoDup (map rule_date l) -> StronglySorted rule_lt (sorted rule_le l).
Proof.
  induction l as [|x l IH]; cbn; intros Hnd; [constructor|].
  apply NoDup_cons_iff in Hnd as [Hx Hnd].
  apply insert_sorted_strict; [by apply IH|].
  intros y Hy E. apply Hx. rewrite <- E. apply in_map.
  by apply (Permutation_in _ (Permutation_sym (sorted_perm rule_le l))).
Qed.

Lemma strict_NoDup l :
  StronglySorted rule_lt l -> List.NoDup (map rule_date l).
Proof.
  induction 1 as [|x l Hs IH Hall]; cbn; constructor; [|done].
  intros (y & E & Hy)%in_map_iff.
  by apply (rule_lt_ne x y); [apply (proj1 (List.Forall_forall _ _) Hall)|].
Qed.

Lemma strict_sorted_le l :
  StronglySorted rule_lt l ->
  StronglySorted (fun a b => rule_le a b = true) l.
Proof.
  induction 1 as [|x l Hs IH Hall]; constructor; [done|].
  eapply List.Forall_impl; [|exact Hall]. intros y. apply date_ltb_leb.
Qed.

Lemma NoDup_map_filter (P : InterestRule -> bool) l :
  List.NoDup (map rule_date l) -> List.NoDup (map rule_date (List.filter P l)).
Proof.
  induction l as [|x l IH]; cbn; [done|]. intros [Hx Hnd]%NoDup_cons_iff.
  destruct (P x); cbn; [|by apply IH]. constructor; [|by apply IH].
  intros (y & E & [Hy _]%filter_In)%in_map_iff.
  apply Hx. rewrite <- E. by apply in_map.
Qed.

Lemma filter_other_dates_all d l :
  (forall r, In r l -> rule_date r <> d) ->
  List.filter (fun r => negb (PyDate.eqb (rule_date r) d)) l = l.
Proof.
  induction l as [|x l IH]; cbn; intros H; [done|].
  destruct (PyDate.eqb (rule_date x) d) eqn:E.
  - apply date_eqb_eq in E. by destruct (H x (or_introl eq_refl)).
  - cbn. f_equal. apply IH. intros r Hr. apply H. by right.
Qed.

Lemma filter_other_dates_length d l old :
  List.NoDup (map rule_date l) -> In old l -> rule_date old = d ->
  S (length (List.filter (fun r => negb (PyDate.eqb (rule_date r) d)) l))
  = length l.
Proof.
  induction l as [|x l IH]; cbn; intros Hnd Hin Hd; [done|].
  apply NoDup_cons_iff in Hnd as [Hx Hnd].
  destruct (PyDate.eqb (rule_date x) d) eqn:E; cbn.
  - apply date_eqb_eq in E. rewrite filter_other_dates_all; [done|].
    intros r Hr Er. apply Hx. rewrite E, <- Er. by apply in_map.
  - destruct Hin as [->|Hin].
    + rewrite <- date_eqb_eq in Hd. congruence.
    + f_equal. by apply IH.
Qed.

Lemma rules_inv_step st st' : step st st' -> rules_inv st -> rules_inv st'.
Proof.
  unfold rules_inv.
  intros [date_str acct_id txn_type amount_str|date_str rid rate_str
         |acct_id y m] Hinv.
  - by rewrite create_transaction_rules.
  - destruct (add_interest_rule_cases date_str rid rate_str st)
      as [(e & ->)|(d & rt & _ & _ & ->)]; [done|].
    cbn [snd interest_rules]. apply sorted_strict.
    rewrite map_app. cbn [map]. apply List.NoDup_app.
    + by apply NoDup_map_filter, strict_NoDup.
    + repeat constructor. by intros [].
    + intros x (r & <- & [_ Hr]%filter_In)%in_map_iff [E|[]].
      cbn in E. rewrite <- E, date_eqb_refl in Hr. done.
  - by rewrite calculate_interest_rules.
Qed.

Lemma rules_inv_reachable st : reachable st -> rules_inv st.
Proof.
  unfold reachable, reachable_from.
  intros H. apply rtc_ind_r with (P := rules_inv) in H; try done.
  - constructor.
  - intros st1 st2 _ Hs IH. by apply (rules_inv_step st1).
Qed.

Lemma filter_perm {A} (P : A -> bool) l l' :
  Permutation l l' -> Permutation (List.filter P l) (List.filter P l').
Proof.
  induction 1 as [|x l l' _ IH|x y l|l1 l2 l3 _ IH1 _ IH2]; cbn.
  - done.
  - destruct (P x); [by constructor|done].
  - destruct (P x), (P y); try done. apply perm_swap.
  - by etransitivity.
Qed.

Lemma filter_date_none d l :
  List.filter (fun r => PyDate.eqb (rule_date r) d)
    (List.filter (fun r => negb (PyDate.eqb (rule_date r) d)) l) = [].
Proof.
  induction l as [|x l IH]; cbn; [done|].
  destruct (PyDate.eqb (rule_date x) d) eqn:E; cbn; [done|].
  by rewrite E.
Qed.

End Rules.

(** * The claims *)

Section Sessions.

Lemma reachable_init : reachable BankSystem_init.
Proof. apply rtc_refl. Qed.

Lemma reachable_create date_str acct_id txn_type amount_str st :
  reachable st ->
  reachable (create_transaction date_str acct_id txn_type amount_str st).2.
Proof. intros H. eapply rtc_r; [exact H|constructor]. Qed.

Lemma reachable_rule date_str rid rate_str st :
  reachable st -> reachable (add_interest_rule date_str rid rate_str st).2.
Proof. intros H. eapply rtc_r; [exact H|constructor]. Qed.

Lemma reachable_interest acct_id y m st :
  reachable st -> reachable (calculate_interest acct_id y m st).2.
Proof. intros H. eapply rtc_r; [exact H|constructor]. Qed.

Lemma reachable_january : reachable january_session.
Proof.
  unfold january_session.
  apply reachable_rule; repeat apply reachable_create. apply reachable_init.
Qed.

End Sessions.

Section FailedPosting.

(** What a failed posting leaves in place. *)
Lemma posting_failure_keeps date_str acct_id txn_type amount_str st e :
  (create_transaction date_str acct_id txn_type amount_str st).1 = TxnFail e ->
  let st' := (create_transaction date_str acct_id txn_type amount_str st).2 in
  interest_rules st' = interest_rules st /\
  transaction_counters st' = transaction_counters st /\
  (forall k, transactions_of st' k = transactions_of st k).
Proof.
  cbn zeta.
  destruct (create_transaction_cases date_str acct_id txn_type amount_str st)
    as [(e' & Hne & ->)|[(d & amt & _ & _ & _ & _ & ->)
                        |(d & kind & amt & _ & _ & _ & _ & _ & ->)]];
    cbn [fst snd]; [done| |done].
  intros _. split_and!; try done.
  intros k. apply transactions_of_get_or_create.
Qed.

(** The result of a posting whose three inputs pass validation. *)
Lemma create_transaction_valid date_str acct_id txn_type amount_str st
    d kind amt :
  PyDate.strptime_Ymd date_str = Some d ->
  parse_txn_type txn_type = Some kind ->
  validate_amount amount_str = inr amt ->
  (create_transaction date_str acct_id txn_type amount_str st).1
  = if txn_kind_eqb kind W && negb (Dec.leb amt (balance_of st acct_id d))
    then TxnFail InsufficientFunds else TxnOk acct_id.
Proof.
  intros Hd Hk Hv. unfold create_transaction. rewrite Hd, Hk, Hv.
  rewrite get_or_create_lookup. cbn [default].
  unfold can_withdraw, balance_of.
  destruct (_ && _); [done|].
  by rewrite (Transaction_init_cents _ _ _ _ _
                (proj1 (validate_amount_inr _ _ Hv))).
Qed.

End FailedPosting.

(** ** C1: a failed posting and the state *)

(** C1, as stated, fails: a withdrawal on an account id that the ledger
    has not seen is rejected for insufficient funds, and the id is in the
    accounts map afterwards. *)
Lemma failed_withdrawal_registers_account :
  let r := create_transaction "20230101" "AC001" "W" "100" BankSystem_init in
  r.1 = TxnFail InsufficientFunds /\
  accounts BankSystem_init !! "AC001" = None /\
  accounts r.2 !! "AC001" = Some (BankAccount_init "AC001") /\
  r.2 <> BankSystem_init.
Proof.
  cbn zeta. split_and!; [by vm_compute..|].
  intros E.
  assert (accounts (create_transaction "20230101" "AC001" "W" "100"
                      BankSystem_init).2 !! "AC001" = None) as H
      by (by rewrite E).
  by vm_compute in H.
Qed.

(** C1 (amended): a posting that returns a failure leaves the rule list, the
    per-date counters and the transaction sequence of every account as they
    were, and keeps every account of the map; after InvalidDate,
    InvalidType, InvalidAmount or NonPositiveAmount the whole state is
    unchanged; after InsufficientFunds the accounts map is unchanged when
    the account id was known, and otherwise has gained that id with an
    empty transaction sequence. *)
Theorem failed_posting_state date_str acct_id txn_type amount_str st e :
  (create_transaction date_str acct_id txn_type amount_str st).1 = TxnFail e ->
  let st' := (create_transaction date_str acct_id txn_type amount_str st).2 in
  interest_rules st' = interest_rules st /\
  transaction_counters st' = transaction_counters st /\
  (forall k, transactions_of st' k = transactions_of st k) /\
  (forall k a, accounts st !! k = Some a -> accounts st' !! k = Some a) /\
  (e <> InsufficientFunds -> st' = st) /\
  (is_Some (accounts st !! acct_id) -> st' = st) /\
  (e = InsufficientFunds -> accounts st !! acct_id = None ->
   accounts st' = <[acct_id := BankAccount_init acct_id]> (accounts st)).
Proof.
  cbn zeta.
  destruct (create_transaction_cases date_str acct_id txn_type amount_str st)
    as [(e' & Hne & ->)|[(d & amt & _ & _ & _ & _ & ->)
                        |(d & kind & amt & _ & _ & _ & _ & _ & ->)]];
    cbn [fst snd]; [| |done].
  - intros [= <-]. split_and!; try done.
  - intros [= <-]. cbn [interest_rules transaction_counters accounts].
    split_and!; try done.
    + intros k. apply transactions_of_get_or_create.
    + intros k a Hk. unfold get_or_create.
      destruct (accounts st !! acct_id) eqn:Ha; [done|].
      rewrite lookup_insert_ne; [done|]. intros <-. congruence.
    + intros [a Ha]. unfold get_or_create. rewrite Ha. by destruct st.
    + intros _ Ha. unfold get_or_create. by rewrite Ha.
Qed.

Lemma failed_posting_state_witness :
  let st' := (create_transaction "20230101" "AC001" "W" "100"
                BankSystem_init).2 in
  interest_rules st' = interest_rules BankSystem_init /\
  transaction_counters st' = transaction_counters BankSystem_init /\
  (forall k, transactions_of st' k = transactions_of BankSystem_init k) /\
  (forall k a, accounts BankSystem_init !! k = Some a ->
               accounts st' !! k = Some a) /\
  (InsufficientFunds <> InsufficientFunds -> st' = BankSystem_init) /\
  (is_Some (accounts BankSystem_init !! "AC001") -> st' = BankSystem_init) /\
  (InsufficientFunds = InsufficientFunds ->
   accounts BankSystem_init !! "AC001" = None ->
   accounts st' = <["AC001" := BankAccount_init "AC001"]>
                    (accounts BankSystem_init)).
Proof.
  apply (failed_posting_state "20230101" "AC001" "W" "100" BankSystem_init
           InsufficientFunds).
  vm_compute. reflexivity.
Defined.

(** ** C5: the withdrawal boundary *)

(** C5: for a withdrawal with a valid date, type and amount, the posting
    fails with InsufficientFunds exactly when the balance of the account as
    of the withdrawal date is strictly less than the amount; withdrawing
    exactly the balance succeeds, withdrawing the balance plus 0.01 fails,
    and a failure appends no transaction and leaves the per-date counters
    as they were. *)
Theorem withdrawal_boundary date_str acct_id txn_type amount_str st d amt :
  PyDate.strptime_Ymd date_str = Some d ->
  parse_txn_type txn_type = Some W ->
  validate_amount amount_str = inr amt ->
  let balance := balance_of st acct_id d in
  let r := create_transaction date_str acct_id txn_type amount_str st in
  (r.1 = TxnFail InsufficientFunds <-> Dec.ltb balance amt = true) /\
  (r.1 = TxnOk acct_id <-> Dec.leb amt balance = true) /\
  ((Dec.to_Q amt == Dec.to_Q balance)%Q -> r.1 = TxnOk acct_id) /\
  ((Dec.to_Q amt == Dec.to_Q balance + (1 # 100))%Q ->
   r.1 = TxnFail InsufficientFunds) /\
  (r.1 = TxnFail InsufficientFunds ->
   transaction_counters r.2 = transaction_counters st /\
   forall k, transactions_of r.2 k = transactions_of st k).
Proof.
  intros Hd Hk Hv. cbn zeta.
  assert (Hcases :
    (create_transaction date_str acct_id txn_type amount_str st).1
      = TxnFail InsufficientFunds /\ Dec.leb amt (balance_of st acct_id d) = false
    \/ (create_transaction date_str acct_id txn_type amount_str st).1
      = TxnOk acct_id /\ Dec.leb amt (balance_of st acct_id d) = true).
  { destruct (create_transaction_cases date_str acct_id txn_type amount_str st)
      as [(e & Hne & Hr)|[(d' & amt' & Hd' & _ & Hv' & Hw & ->)
                         |(d' & kind & amt' & Hd' & Hk' & _ & Hv' & Hw & ->)]].
    - exfalso. revert Hr. unfold create_transaction.
      rewrite Hd, Hk, Hv. cbn [txn_kind_eqb andb].
      destruct (negb _); [by intros [= <-]|]. by case_match.
    - left. split; [done|]. rewrite Hd in Hd'. rewrite Hv in Hv'.
      injection Hd' as <-. injection Hv' as <-. exact Hw.
    - right. split; [done|]. rewrite Hd in Hd'. rewrite Hv in Hv'.
      rewrite Hk in Hk'. injection Hd' as <-. injection Hv' as <-.
      injection Hk' as <-. by apply Hw. }
  assert (Hlt : Dec.ltb (balance_of st acct_id d) amt
                = negb (Dec.leb amt (balance_of st acct_id d)))
    by (rewrite leb_ltb; by destruct (Dec.ltb _ _)).
  split_and!.
  - rewrite Hlt. destruct Hcases as [[-> ->]|[-> ->]]; split; done.
  - destruct Hcases as [[-> ->]|[-> ->]]; split; done.
  - intros E. destruct Hcases as [[_ Hf]|[Ht _]]; [|done].
    apply not_true_iff_false in Hf. destruct Hf.
    apply leb_to_Q. rewrite E. apply Qle_refl.
  - intros E. destruct Hcases as [[Hf _]|[_ Ht]]; [done|].
    apply leb_to_Q in Ht. rewrite E in Ht. exfalso.
    apply (Qlt_irrefl (Dec.to_Q (balance_of st acct_id d))).
    eapply Qlt_le_trans; [|exact Ht].
    rewrite <- (Qplus_0_r (Dec.to_Q (balance_of st acct_id d))) at 1.
    apply Qplus_lt_r. reflexivity.
  - intros Hfail.
    destruct (posting_failure_keeps date_str acct_id txn_type amount_str st
                InsufficientFunds Hfail) as (_ & Hc & Ht).
    done.
Qed.

Lemma withdrawal_boundary_witness :
  let st := january_session in
  let balance := balance_of st "AC001" (PyDate.mk 2023 1 25) in
  let r := create_transaction "20230125" "AC001" "W" "1300" st in
  (r.1 = TxnFail InsufficientFunds <->
   Dec.ltb balance (Dec.mk 130000 (-2)) = true) /\
  (r.1 = TxnOk "AC001" <-> Dec.leb (Dec.mk 130000 (-2)) balance = true) /\
  ((Dec.to_Q (Dec.mk 130000 (-2)) == Dec.to_Q balance)%Q ->
   r.1 = TxnOk "AC001") /\
  ((Dec.to_Q (Dec.mk 130000 (-2)) == Dec.to_Q balance + (1 # 100))%Q ->
   r.1 = TxnFail InsufficientFunds) /\
  (r.1 = TxnFail InsufficientFunds ->
   transaction_counters r.2 = transaction_counters st /\
   forall k, transactions_of r.2 k = transactions_of st k).
Proof.
  apply (withdrawal_boundary "20230125" "AC001" "W" "1300" january_session
           (PyDate.mk 2023 1 25) (Dec.mk 130000 (-2)));
    vm_compute; reflexivity.
Defined.

(** ** C9: rounding comes before the positivity check *)

(** C9, as stated, fails in its last part: an amount far above 0.005 is
    refused as badly formatted when its value at two decimals needs more
    than 28 digits. *)
Lemma huge_amount_rejected :
  Dec.parse "1e26" = Some (Dec.Finite (Dec.mk 1 26)) /\
  Dec.leb (Dec.mk 5 (-3)) (Dec.mk 1 26) = true /\
  create_transaction "20230101" "AC001" "D" "1e26" BankSystem_init
  = (TxnFail InvalidAmount, BankSystem_init).
Proof. split_and!; by vm_compute. Qed.

(** C9 (amended): the parsed amount is quantized to two digits, half up,
    before the positivity check: a parsed value strictly between 0 and
    0.005 becomes 0.00 and the posting is rejected as a non-positive
    amount, the state unchanged; a parsed value from 0.005 up to, and not
    including, 99999999999999999999999999.995 becomes a positive amount of
    at most 28 digits and is accepted, as a deposit always and as a
    withdrawal when the balance covers it. *)
Theorem rounding_before_positivity date_str acct_id txn_type amount_str st
    d kind x :
  PyDate.strptime_Ymd date_str = Some d ->
  parse_txn_type txn_type = Some kind ->
  Dec.parse amount_str = Some (Dec.Finite x) ->
  let r := create_transaction date_str acct_id txn_type amount_str st in
  (Dec.ltb Dec.zero x = true -> Dec.ltb x (Dec.mk 5 (-3)) = true ->
   Dec.quantize_cents x = Some (Dec.mk 0 (-2)) /\
   r = (TxnFail NonPositiveAmount, st)) /\
  (Dec.leb (Dec.mk 5 (-3)) x = true ->
   Dec.ltb x (Dec.mk 99999999999999999999999999995 (-3)) = true ->
   exists q,
     Dec.quantize_cents x = Some q /\ Dec.ltb Dec.zero q = true /\
     (kind = D -> r.1 = TxnOk acct_id) /\
     (kind = W -> Dec.leb q (balance_of st acct_id d) = true ->
      r.1 = TxnOk acct_id)).
Proof.
  intros Hd Hk Hp. cbn zeta. split.
  - intros Hpos Hsmall.
    pose proof (quantize_cents_tiny x Hpos Hsmall) as Hq.
    split; [done|]. unfold create_transaction, validate_amount.
    by rewrite Hd, Hk, Hp, Hq.
  - intros Hge Hlt.
    assert (Hpos : Dec.ltb Dec.zero x = true).
    { apply ltb_to_Q. apply leb_to_Q in Hge.
      eapply Qlt_le_trans; [|exact Hge]. reflexivity. }
    destruct (quantize_cents_defined x Hpos Hlt) as [q Hq].
    pose proof (quantize_cents_positive x q Hge Hq) as Hqpos.
    exists q. split; [done|]. split; [done|].
    assert (Hv : validate_amount amount_str = inr q).
    { unfold validate_amount. rewrite Hp, Hq, leb_ltb, Hqpos. done. }
    rewrite (create_transaction_valid _ _ _ _ _ d kind q Hd Hk Hv).
    split.
    + by intros ->.
    + intros -> ->. done.
Qed.

Lemma rounding_before_positivity_witness :
  create_transaction "20230101" "AC001" "D" "0.004" BankSystem_init
  = (TxnFail NonPositiveAmount, BankSystem_init) /\
  (create_transaction "20230101" "AC001" "D" "0.005" BankSystem_init).1
  = TxnOk "AC001".
Proof.
  split.
  - apply (rounding_before_positivity "20230101" "AC001" "D" "0.004"
             BankSystem_init (PyDate.mk 2023 1 1) D (Dec.mk 4 (-3)));
      reflexivity.
  - destruct (rounding_before_positivity "20230101" "AC001" "D" "0.005"
                BankSystem_init (PyDate.mk 2023 1 1) D (Dec.mk 5 (-3))
                eq_refl eq_refl eq_refl) as [_ H].
    destruct (H eq_refl eq_refl) as (q & _ & _ & HD & _).
    exact (HD eq_refl).
Defined.

(** The two sides of the boundary, evaluated. *)
Example half_cent_boundary :
  create_transaction "20230101" "AC001" "D" "0.004" BankSystem_init
  = (TxnFail NonPositiveAmount, BankSystem_init) /\
  (create_transaction "20230101" "AC001" "D" "0.005" BankSystem_init).1
  = TxnOk "AC001" /\
  List.map amount
    (transactions_of
       (create_transaction "20230101" "AC001" "D" "0.005" BankSystem_init).2
       "AC001")
  = [Dec.mk 1 (-2)].
Proof. split_and!; by vm_compute. Qed.

(** ** C10: balances can become negative *)

(** C10: non-negativity of the balance at every date is not an invariant:
    a deposit of 100 on 2023-01-10, a withdrawal of 100 on 2023-01-20 and
    then a withdrawal of 50 backdated to 2023-01-15 all succeed, and the
    balance as of 2023-01-20 is then -50. *)
Theorem backdated_withdrawal_negative_balance :
  let r1 := create_transaction "20230110" "AC001" "D" "100" BankSystem_init in
  let r2 := create_transaction "20230120" "AC001" "W" "100" r1.2 in
  let r3 := create_transaction "20230115" "AC001" "W" "50" r2.2 in
  r1.1 = TxnOk "AC001" /\ r2.1 = TxnOk "AC001" /\ r3.1 = TxnOk "AC001" /\
  r3.2 = backdated_session /\ reachable backdated_session /\
  balance_of backdated_session "AC001" (PyDate.mk 2023 1 15) = Dec.mk 5000 (-2) /\
  balance_of backdated_session "AC001" (PyDate.mk 2023 1 20)
  = Dec.mk (-5000) (-2) /\
  Dec.ltb (balance_of backdated_session "AC001" (PyDate.mk 2023 1 20)) Dec.zero
  = true.
Proof.
  cbn zeta. split_and!; try (by vm_compute).
  unfold backdated_session. repeat apply reachable_create. apply reachable_init.
Qed.

(** ** C2: the January scenario *)

(** C2: from an empty ledger, after a deposit of 1000 on 2023-01-01, a
    deposit of 500 on 2023-01-15, a withdrawal of 200 on 2023-01-20 and a
    5% rule effective 2023-01-01, the accrual for January 2023 returns
    5.08 and posts one Interest transaction of 5.08 dated 2023-01-31; the
    periods are 1000 for 14 days, 1500 for 5 days and 1300 for 12 days, and
    5.08 is their sum, each at 5%/365, rounded once. *)
Theorem january_interest :
  let st := january_session in
  let acct := default (BankAccount_init "AC001") (accounts st !! "AC001") in
  let end_date := month_end 2023 1 in
  let ps := periods (balance_change_dates (transactions acct)
                       (interest_rules st) (month_start 2023 1) end_date)
                    end_date in
  let r := calculate_interest "AC001" 2023 1 st in
  List.map (fun t => (date t, transaction_type t, amount t))
           (transactions_of st "AC001")
  = [(PyDate.mk 2023 1 1, D, Dec.mk 100000 (-2));
     (PyDate.mk 2023 1 15, D, Dec.mk 50000 (-2));
     (PyDate.mk 2023 1 20, W, Dec.mk 20000 (-2))] /\
  interest_rules st
  = [mkInterestRule (PyDate.mk 2023 1 1) "RULE1" (Dec.mk 500 (-2))] /\
  r.1 = InterestValue (Dec.mk 508 (-2)) /\
  transactions_of r.2 "AC001"
  = transactions_of st "AC001"
    ++ [mkTransaction (PyDate.mk 2023 1 31) "AC001" I (Dec.mk 508 (-2)) None] /\
  List.map (fun '(d, n) => (get_balance_at_date acct d, n)) ps
  = [(Dec.mk 100000 (-2), 14); (Dec.mk 150000 (-2), 5);
     (Dec.mk 130000 (-2), 12)] /\
  Dec.quantize_cents (period_sum acct (interest_rules st) ps)
  = Some (Dec.mk 508 (-2)) /\
  cents_half_up (exact_sum acct (interest_rules st) ps) = 508.
Proof. cbn zeta. split_and!; by vm_compute. Qed.

(** ** C6: the date text *)

(** C6 does not hold of the code: [strptime] with [%Y%m%d] also matches a
    month or a day written with one digit, so the 7-character text
    "2023115" is taken as 2023-11-05, a posting with it succeeds under the
    id "2023115-01", and a rule with it is registered; the 6-character
    text "202312" is taken as 2023-01-02 and the 8-character text
    "202301 5", which has a blank, as 2023-01-05. *)
Theorem short_date_text_accepted :
  PyDate.strptime_Ymd "2023115" = Some (PyDate.mk 2023 11 5) /\
  PyDate.strptime_Ymd "202312" = Some (PyDate.mk 2023 1 2) /\
  PyDate.strptime_Ymd "202301 5" = Some (PyDate.mk 2023 1 5) /\
  (create_transaction "2023115" "AC001" "D" "100" BankSystem_init).1
  = TxnOk "AC001" /\
  transactions_of
    (create_transaction "2023115" "AC001" "D" "100" BankSystem_init).2 "AC001"
  = [mkTransaction (PyDate.mk 2023 11 5) "AC001" D (Dec.mk 10000 (-2))
       (Some "2023115-01")] /\
  (add_interest_rule "2023115" "RULE1" "5" BankSystem_init).1 = RuleOk /\
  interest_rules (add_interest_rule "2023115" "RULE1" "5" BankSystem_init).2
  = [mkInterestRule (PyDate.mk 2023 11 5) "RULE1" (Dec.mk 500 (-2))].
Proof. split_and!; by vm_compute. Qed.

(** The usual cases of the date check, evaluated: eight digits of a real
    date are accepted; separators, a ninth character, a day that the month
    does not have and the year 0 are rejected. *)
Example date_text_cases :
  PyDate.strptime_Ymd "20230101" = Some (PyDate.mk 2023 1 1) /\
  PyDate.strptime_Ymd "20240229" = Some (PyDate.mk 2024 2 29) /\
  PyDate.strptime_Ymd "2023-01-01" = None /\
  PyDate.strptime_Ymd "202301011" = None /\
  PyDate.strptime_Ymd "20230229" = None /\
  PyDate.strptime_Ymd "00000101" = None /\
  (create_transaction "2023-01-01" "AC001" "D" "100" BankSystem_init).1
  = TxnFail InvalidDate.
Proof. split_and!; by vm_compute. Qed.

(** Amounts are normalized to two digits, half up. *)
Example amount_normalization :
  validate_amount "100.456" = inr (Dec.mk 10046 (-2)) /\
  validate_amount "5.125" = inr (Dec.mk 513 (-2)) /\
  validate_amount "-100.00" = inl NonPositiveAmount /\
  validate_amount "abc" = inl InvalidAmount /\
  validate_amount "NaN" = inl InvalidAmount.
Proof. split_and!; by vm_compute. Qed.

(** ** C7: the rule list after a registration *)

(** C7: after every successful rule registration in a session the rule list
    has at most one rule per effective date and is sorted ascending by
    effective date; exactly one rule carries the registered date, the new
    one; and when a rule for that date was there before, it is gone and the
    number of rules is unchanged. *)
Theorem rule_registration st date_str rid rate_str st' :
  reachable st ->
  add_interest_rule date_str rid rate_str st = (RuleOk, st') ->
  List.NoDup (map rule_date (interest_rules st')) /\
  StronglySorted (fun a b => PyDate.leb (rule_date a) (rule_date b) = true)
                 (interest_rules st') /\
  exists d rt,
    PyDate.strptime_Ymd date_str = Some d /\
    validate_rate rate_str = inr rt /\
    List.filter (fun r => PyDate.eqb (rule_date r) d) (interest_rules st')
    = [mkInterestRule d rid rt] /\
    (forall old, In old (interest_rules st) -> rule_date old = d ->
       length (interest_rules st') = length (interest_rules st) /\
       (old <> mkInterestRule d rid rt -> ~ In old (interest_rules st'))) /\
    ((forall old, In old (interest_rules st) -> rule_date old <> d) ->
     length (interest_rules st') = S (length (interest_rules st))).
Proof.
  intros Hreach Hadd.
  assert (Hinv' : rules_inv st').
  { replace st' with (add_interest_rule date_str rid rate_str st).2
      by (by rewrite Hadd).
    eapply rules_inv_step; [constructor|]. by apply rules_inv_reachable. }
  split; [by apply strict_NoDup|]. split; [by apply strict_sorted_le|].
  destruct (add_interest_rule_cases date_str rid rate_str st)
    as [(e & He)|(d & rt & Hd & Hv & He)]; [congruence|].
  rewrite Hadd in He. injection He as ->.
  exists d, rt. cbn [interest_rules]. split; [done|]. split; [done|].
  set (kept := List.filter (fun r => negb (PyDate.eqb (rule_date r) d))
                           (interest_rules st)).
  set (new := mkInterestRule d rid rt).
  assert (Hperm : Permutation (kept ++ [new]) (sorted rule_le (kept ++ [new])))
    by apply sorted_perm.
  assert (Hone : List.filter (fun r => PyDate.eqb (rule_date r) d)
                   (sorted rule_le (kept ++ [new])) = [new]).
  { apply Permutation_length_1_inv.
    etransitivity; [|apply filter_perm, Hperm].
    rewrite List.filter_app. unfold kept. rewrite filter_date_none. cbn.
    by rewrite date_eqb_refl. }
  split; [done|].
  assert (Hlen : length (sorted rule_le (kept ++ [new])) = S (length kept)).
  { rewrite <- (Permutation_length Hperm), length_app. cbn. lia. }
  split.
  - intros old Hin Hold. split.
    + rewrite Hlen. unfold kept.
      apply (filter_other_dates_length d _ old); try done.
      apply strict_NoDup. by apply rules_inv_reachable.
    + intros Hne Hin'.
      assert (In old (List.filter (fun r => PyDate.eqb (rule_date r) d)
                        (sorted rule_le (kept ++ [new])))) as Hf.
      { apply filter_In. split; [done|]. by apply date_eqb_eq. }
      rewrite Hone in Hf. destruct Hf as [<-|[]]. done.
  - intros Hnone. rewrite Hlen. unfold kept.
    by rewrite filter_other_dates_all.
Qed.

Lemma rule_registration_witness :
  let st := january_session in
  let st' := (add_interest_rule "20230101" "RULE2" "6" st).2 in
  List.NoDup (map rule_date (interest_rules st')) /\
  StronglySorted (fun a b => PyDate.leb (rule_date a) (rule_date b) = true)
                 (interest_rules st') /\
  exists d rt,
    PyDate.strptime_Ymd "20230101" = Some d /\
    validate_rate "6" = inr rt /\
    List.filter (fun r => PyDate.eqb (rule_date r) d) (interest_rules st')
    = [mkInterestRule d "RULE2" rt] /\
    (forall old, In old (interest_rules st) -> rule_date old = d ->
       length (interest_rules st') = length (interest_rules st) /\
       (old <> mkInterestRule d "RULE2" rt -> ~ In old (interest_rules st'))) /\
    ((forall old, In old (interest_rules st) -> rule_date old <> d) ->
     length (interest_rules st') = S (length (interest_rules st))).
Proof.
  apply (rule_registration january_session "20230101" "RULE2" "6").
  - apply reachable_january.
  - vm_compute. reflexivity.
Defined.

(** The replacement evaluated: the January session has a 5% rule for
    2023-01-01; registering 6% for the same date leaves one rule, the new
    one. *)
Example rule_replaced :
  interest_rules (add_interest_rule "20230101" "RULE2" "6" january_session).2
  = [mkInterestRule (PyDate.mk 2023 1 1) "RULE2" (Dec.mk 600 (-2))].
Proof. by vm_compute. Qed.

(** ** C4: one Interest transaction per account and month *)

(** C4: in every state of a session an account holds at most one Interest
    transaction dated in a given month; once it holds one, every later
    accrual for that account and month returns [None] and changes nothing,
    so that exactly one remains; in particular this is so after an accrual
    that posted. *)
Theorem interest_once_per_month st acct_id y m :
  reachable st ->
  (length (interest_of_month st acct_id y m) <= 1)%nat /\
  (interest_of_month st acct_id y m <> [] ->
   forall st2, reachable_from st st2 ->
     calculate_interest acct_id y m st2 = (NoInterest, st2) /\
     interest_of_month st2 acct_id y m = interest_of_month st acct_id y m /\
     length (interest_of_month st2 acct_id y m) = 1%nat) /\
  (forall v,
     (calculate_interest acct_id y m st).1 = InterestValue v ->
     Dec.ltb Dec.zero v = true ->
     let st1 := (calculate_interest acct_id y m st).2 in
     interest_of_month st1 acct_id y m
     = [mkTransaction (month_end y m) acct_id I v None] /\
     forall st2, reachable_from st1 st2 ->
       calculate_interest acct_id y m st2 = (NoInterest, st2) /\
       interest_of_month st2 acct_id y m
       = [mkTransaction (month_end y m) acct_id I v None]).
Proof.
  intros Hreach.
  assert (Hlater : forall st1, reachable st1 ->
            interest_of_month st1 acct_id y m <> [] ->
            forall st2, reachable_from st1 st2 ->
              calculate_interest acct_id y m st2 = (NoInterest, st2) /\
              interest_of_month st2 acct_id y m
              = interest_of_month st1 acct_id y m /\
              length (interest_of_month st2 acct_id y m) = 1%nat).
  { intros st1 Hr1 Hne st2 Hr2.
    assert (Hinv2 : accounts_inv st2).
    { apply accounts_inv_reachable. unfold reachable, reachable_from in *.
      by etransitivity. }
    destruct (reachable_from_transactions_grow st1 st2 acct_id Hr2)
      as [new Hnew].
    pose proof (proj2 (Hinv2 acct_id) y m) as Hle.
    unfold interest_of_month in *. rewrite Hnew, List.filter_app in *.
    rewrite length_app in Hle.
    destruct (List.filter (is_interest_of_month y m)
                (transactions_of st1 acct_id)) as [|t ts] eqn:E1; [done|].
    destruct (List.filter (is_interest_of_month y m) new) as [|t' ts'];
      [|cbn in Hle; lia].
    rewrite app_nil_r in *. destruct ts; [|cbn in Hle; lia].
    split; [|done].
    apply calculate_interest_already; [done|].
    unfold interest_of_month. by rewrite Hnew, List.filter_app, E1. }
  split; [apply (accounts_inv_reachable st Hreach acct_id)|].
  split; [by apply Hlater|].
  intros v Hv Hpos. cbn zeta.
  destruct (calculate_interest_cases acct_id y m st)
    as [[_ Hres]|(acct & total & Ha & Hy & Hm & _ & Hnone & _ & _ & Hr)].
  { rewrite Hv in Hres. destruct Hres as [|[|[= ->]]]; done. }
  assert (total = v) as -> by (rewrite Hr in Hv; by injection Hv).
  assert (Hst1 : interest_of_month (calculate_interest acct_id y m st).2
                   acct_id y m
                 = [mkTransaction (month_end y m) acct_id I v None]).
  { rewrite Hr. cbn [snd]. unfold interest_of_month.
    rewrite transactions_of_insert. destruct (decide (acct_id = acct_id)); [|done].
    cbn [add_transaction transactions]. rewrite List.filter_app.
    rewrite filter_interest_upto in Hnone.
    - rewrite Hnone. cbn. unfold is_interest_of_month. cbn.
      by rewrite !Z.eqb_refl.
    - pose proof (proj1 (accounts_inv_reachable st Hreach acct_id)) as Hok.
      unfold transactions_of in Hok. by rewrite Ha in Hok. }
  split; [done|]. intros st2 Hr2.
  destruct (Hlater (calculate_interest acct_id y m st).2
              (reachable_interest acct_id y m st Hreach)
              ltac:(by rewrite Hst1) st2 Hr2) as (H1 & H2 & _).
  split; [done|]. by rewrite H2.
Qed.

Lemma interest_once_per_month_witness :
  let st1 := (calculate_interest "AC001" 2023 1 january_session).2 in
  (length (interest_of_month january_session "AC001" 2023 1) <= 1)%nat /\
  interest_of_month st1 "AC001" 2023 1
  = [mkTransaction (month_end 2023 1) "AC001" I (Dec.mk 508 (-2)) None] /\
  calculate_interest "AC001" 2023 1 st1 = (NoInterest, st1).
Proof.
  destruct (interest_once_per_month january_session "AC001" 2023 1
              reachable_january) as (H1 & _ & H3).
  destruct (H3 (Dec.mk 508 (-2)) eq_refl eq_refl) as [H4 H5].
  split; [exact H1|]. split; [exact H4|].
  exact (proj1 (H5 _ (rtc_refl _ _))).
Defined.

(** The second accrual of the January scenario, evaluated. *)
Example second_accrual_not_applicable :
  let st1 := (calculate_interest "AC001" 2023 1 january_session).2 in
  (calculate_interest "AC001" 2023 1 st1).1 = NoInterest /\
  List.map amount (interest_of_month (calculate_interest "AC001" 2023 1 st1).2
                     "AC001" 2023 1)
  = [Dec.mk 508 (-2)].
Proof. cbn zeta. split; by vm_compute. Qed.

(** ** C8: a zero total is not posted *)

Section ZeroTotal.

Lemma eqb_zero_not_positive x :
  Dec.eqb x Dec.zero = true -> Dec.ltb Dec.zero x = false.
Proof.
  unfold Dec.eqb, Dec.ltb. rewrite (compare_antisym x Dec.zero).
  by destruct (Dec.compare x Dec.zero).
Qed.

Lemma positive_not_eqb_zero x :
  Dec.ltb Dec.zero x = true -> Dec.eqb x Dec.zero = false.
Proof.
  unfold Dec.eqb, Dec.ltb. rewrite (compare_antisym x Dec.zero).
  by destruct (Dec.compare x Dec.zero).
Qed.

End ZeroTotal.

(** C8: when the quantized total of an accrual is 0, the accrual returns 0
    and leaves the state as it was, so no transaction is appended; and in
    every state of a session every stored Interest transaction has an
    amount greater than 0. *)
Theorem zero_interest_not_posted st acct_id y m :
  reachable st ->
  (forall acct total,
     accounts st !! acct_id = Some acct ->
     1 <= y <= 9999 -> 1 <= m <= 12 ->
     let account_txns :=
       List.filter (fun t => PyDate.leb (date t) (month_end y m))
                   (transactions acct) in
     account_txns <> [] ->
     List.filter (is_interest_of_month y m) account_txns = [] ->
     total_interest acct (interest_rules st)
       (balance_change_dates account_txns (interest_rules st)
          (month_start y m) (month_end y m))
       (month_end y m) = Some total ->
     Dec.eqb total Dec.zero = true ->
     calculate_interest acct_id y m st = (InterestValue Dec.zero, st)) /\
  (forall k t,
     In t (transactions_of st k) -> transaction_type t = I ->
     Dec.ltb Dec.zero (amount t) = true /\
     Dec.eqb (amount t) Dec.zero = false).
Proof.
  intros Hreach. split.
  - intros acct total Ha Hy Hm. cbn zeta. intros Hne Hnone Ht Hz.
    unfold calculate_interest.
    rewrite Ha, monthrange_valid, month_start_valid, month_end_valid by done.
    destruct (List.filter _ (transactions acct)) as [|t0 ts] eqn:Hf; [done|].
    rewrite Hnone, Ht. by rewrite (eqb_zero_not_positive _ Hz).
  - intros k t Hin Hk.
    destruct (proj1 (accounts_inv_reachable st Hreach k) t Hin Hk)
      as (_ & _ & _ & Hpos).
    split; [done|]. by apply positive_not_eqb_zero.
Qed.

Lemma reachable_zero_balance : reachable zero_balance_session.
Proof.
  unfold zero_balance_session.
  repeat apply reachable_create. apply reachable_rule, reachable_init.
Qed.

Lemma zero_interest_not_posted_witness :
  calculate_interest "ACC002" 2023 1 zero_balance_session
  = (InterestValue Dec.zero, zero_balance_session).
Proof.
  destruct (zero_interest_not_posted zero_balance_session "ACC002" 2023 1
              reachable_zero_balance) as [H _].
  apply (H (mkBankAccount "ACC002"
              [mkTransaction (PyDate.mk 2023 1 1) "ACC002" D
                 (Dec.mk 50000 (-2)) (Some "20230101-01");
               mkTransaction (PyDate.mk 2023 1 1) "ACC002" W
                 (Dec.mk 50000 (-2)) (Some "20230101-02")])
           (Dec.mk 0 (-2))).
  - vm_compute. reflexivity.
  - lia.
  - lia.
  - vm_compute. intros [= ].
  - vm_compute. reflexivity.
  - vm_compute. reflexivity.
  - vm_compute. reflexivity.
Defined.

(** The two examples of C8, evaluated: an equal deposit and withdrawal on
    one day under a 5% rule, and a deposit in a ledger without rules; both
    accruals return 0 and leave the transactions as they were. *)
Example zero_total_examples :
  (let acct := default (BankAccount_init "") (accounts zero_balance_session !! "ACC002") in
   total_interest acct (interest_rules zero_balance_session)
     (balance_change_dates (transactions acct)
        (interest_rules zero_balance_session)
        (month_start 2023 1) (month_end 2023 1))
     (month_end 2023 1) = Some (Dec.mk 0 (-2))) /\
  (calculate_interest "ACC002" 2023 1 zero_balance_session).1
  = InterestValue Dec.zero /\
  transactions_of (calculate_interest "ACC002" 2023 1 zero_balance_session).2
    "ACC002"
  = transactions_of zero_balance_session "ACC002" /\
  (calculate_interest "AC001" 2023 1 no_rule_session).1
  = InterestValue Dec.zero /\
  transactions_of (calculate_interest "AC001" 2023 1 no_rule_session).2 "AC001"
  = transactions_of no_rule_session "AC001".
Proof. cbn zeta. split_and!; by vm_compute. Qed.

(** ** C3: the arithmetic of the accrual *)

Section Accrual.

Lemma div_by_nonzero x n :
  n <> 0 -> Dec.div x (Dec.of_int n) = Some (div_by x n).
Proof.
  intros Hn. unfold div_by.
  destruct (Dec.div x (Dec.of_int n)) eqn:E; [done|exfalso].
  revert E. unfold Dec.div. cbn [Dec.of_int Dec.coef].
  destruct (Z.eqb_spec n 0); [done|].
  destruct (Dec.coef x =? 0); [done|]. by case_match.
Qed.

Lemma daily_interest_term balance rt n :
  daily_interest balance rt n = Some (period_term balance rt n).
Proof.
  unfold daily_interest, period_term.
  by rewrite (div_by_nonzero _ 100), (div_by_nonzero _ 365).
Qed.

(** The loop over the indices of the breakpoints is the sum over the
    periods. *)
Lemma loop_is_period_sum acct rules end_date nd dates :
  PyDate.next_day end_date = Some nd ->
  PyDate.toordinal nd = PyDate.toordinal end_date + 1 ->
  forall suf pre acc,
    dates = pre ++ suf ->
    fold_left (period_step acct rules dates end_date)
              (seq (length pre) (length suf)) (Some acc)
    = Some (fold_left (add_period acct rules) (periods suf end_date) acc).
Proof.
  intros Hnd Hord. induction suf as [|d suf IH]; intros pre acc Hdates;
    [done|].
  cbn [length seq fold_left periods].
  assert (Hd : dates !! length pre = Some d)
    by (subst dates; apply list_lookup_middle; done).
  assert (Hnext : dates !! (length pre + 1)%nat = suf !! 0%nat).
  { subst dates. rewrite (lookup_app_r pre) by lia.
    replace (length pre + 1 - length pre)%nat with 1%nat by lia. done. }
  assert (Hpre : dates = (pre ++ [d]) ++ suf)
    by (by rewrite <- app_assoc).
  specialize (IH (pre ++ [d])). rewrite length_app, Nat.add_1_r in IH.
  unfold period_step at 2. rewrite Hd, Hnext.
  destruct (PyDate.eqb d end_date); [by apply IH|].
  rewrite fold_left_app. cbn [fold_left].
  destruct suf as [|d' suf']; cbn [lookup list_lookup].
  - rewrite Hnd. unfold add_period at 2. cbn [fst snd].
    replace (PyDate.days_between nd d)
      with (PyDate.days_between end_date d + 1)
      by (unfold PyDate.days_between; lia).
    destruct (applicable_rule rules d) as [rule|]; [|by apply IH].
    rewrite daily_interest_term. by apply IH.
  - unfold add_period at 2. cbn [fst snd].
    destruct (applicable_rule rules d) as [rule|]; [|by apply IH].
    rewrite daily_interest_term. by apply IH.
Qed.

Lemma next_day_month_end y m :
  1 <= m <= 12 -> (y, m) <> (9999, 12) -> y <= 9999 ->
  exists nd, PyDate.next_day (month_end y m) = Some nd /\
             PyDate.toordinal nd = PyDate.toordinal (month_end y m) + 1.
Proof.
  intros Hm Hne Hy.
  assert (exists nd, PyDate.next_day (month_end y m) = Some nd) as [nd Hnd].
  { unfold PyDate.next_day, month_end, PyDate.MAXYEAR.
    cbn [PyDate.year PyDate.month PyDate.day].
    destruct (_ <? _); [eauto|].
    destruct (Z.ltb_spec m 12); [eauto|].
    destruct (Z.ltb_spec y 9999); [eauto|].
    destruct Hne. f_equal; lia. }
  exists nd. split; [done|].
  apply next_day_ordinal; [done| |done]. cbn. lia.
Qed.

Lemma accumulate_is_period_sum acct rules y m dates :
  1 <= m <= 12 -> (y, m) <> (9999, 12) -> y <= 9999 ->
  accumulate_interest acct rules dates (month_end y m)
  = Some (period_sum acct rules (periods dates (month_end y m))).
Proof.
  intros Hm Hne Hy.
  destruct (next_day_month_end y m Hm Hne Hy) as (nd & Hnd & Hord).
  unfold accumulate_interest, period_sum.
  by apply (loop_is_period_sum acct rules (month_end y m) nd dates Hnd Hord
              dates []).
Qed.

End Accrual.

(** C3, as stated, fails: the terms are not computed and added exactly.
    With 6.39 from 2023-01-01, 14.97 from 2023-01-20 and 49.66 from
    2023-01-27 under a 5% rule the periods are 6.39 for 19 days, 14.97 for
    7 days and 49.66 for 5 days; their exact sum is 0.065, which rounds
    half up to 0.07, while the ledger, whose quotients and sums are rounded
    to 28 significant digits, accumulates 0.06499999999999999999999999999
    and returns 0.06. *)
Lemma half_cent_divergence :
  let st := half_cent_session in
  let acct := default (BankAccount_init "AC001") (accounts st !! "AC001") in
  let end_date := month_end 2023 1 in
  let ps := periods (balance_change_dates (transactions acct)
                       (interest_rules st) (month_start 2023 1) end_date)
                    end_date in
  List.map (fun '(d, n) => (get_balance_at_date acct d, n)) ps
  = [(Dec.mk 639 (-2), 19); (Dec.mk 1497 (-2), 7); (Dec.mk 4966 (-2), 5)] /\
  (exact_sum acct (interest_rules st) ps == 65 # 1000)%Q /\
  cents_half_up (exact_sum acct (interest_rules st) ps) = 7 /\
  accumulate_interest acct (interest_rules st)
    (balance_change_dates (transactions acct) (interest_rules st)
       (month_start 2023 1) end_date) end_date
  = Some (Dec.mk 6499999999999999999999999999 (-29)) /\
  (calculate_interest "AC001" 2023 1 st).1 = InterestValue (Dec.mk 6 (-2)).
Proof. cbn zeta. split_and!; by vm_compute. Qed.

(** C3 (amended): for an account with transactions up to the month end and
    no Interest transaction in the month, the accrual adds, over the
    periods between breakpoints, the terms
    [balance * rate / 100 * periodDays / 365] computed in the ledger's
    decimal arithmetic, in which every product, quotient and sum is
    rounded half-even to 28 significant digits; no term and no partial sum
    is quantized to 2 digits; the divisor is 365 in every year; and only the
    accumulated total is quantized, once, to 2 digits half up.  That total
    is returned when positive, and 0 is returned otherwise. *)
Theorem accrual_arithmetic st acct_id y m acct :
  accounts st !! acct_id = Some acct ->
  1 <= y <= 9999 -> 1 <= m <= 12 -> (y, m) <> (9999, 12) ->
  let end_date := month_end y m in
  let account_txns :=
    List.filter (fun t => PyDate.leb (date t) end_date) (transactions acct) in
  let dates := balance_change_dates account_txns (interest_rules st)
                 (month_start y m) end_date in
  let unrounded := period_sum acct (interest_rules st) (periods dates end_date) in
  account_txns <> [] ->
  List.filter (is_interest_of_month y m) account_txns = [] ->
  accumulate_interest acct (interest_rules st) dates end_date = Some unrounded /\
  total_interest acct (interest_rules st) dates end_date
  = Dec.quantize_cents unrounded /\
  (calculate_interest acct_id y m st).1
  = match Dec.quantize_cents unrounded with
    | Some total =>
        if Dec.ltb Dec.zero total then InterestValue total
        else InterestValue Dec.zero
    | None => InterestRaised
    end.
Proof.
  intros Ha Hy Hm Hne. cbn zeta. intros Htx Hnone.
  assert (Hacc := accumulate_is_period_sum acct (interest_rules st) y m
            (balance_change_dates
               (List.filter (fun t => PyDate.leb (date t) (month_end y m))
                            (transactions acct))
               (interest_rules st) (month_start y m) (month_end y m))
            Hm Hne ltac:(lia)).
  split; [done|].
  assert (Htot : total_interest acct (interest_rules st)
            (balance_change_dates
               (List.filter (fun t => PyDate.leb (date t) (month_end y m))
                            (transactions acct))
               (interest_rules st) (month_start y m) (month_end y m))
            (month_end y m)
          = Dec.quantize_cents
              (period_sum acct (interest_rules st)
                 (periods
                    (balance_change_dates
                       (List.filter
                          (fun t => PyDate.leb (date t) (month_end y m))
                          (transactions acct))
                       (interest_rules st) (month_start y m) (month_end y m))
                    (month_end y m))))
    by (unfold total_interest; by rewrite Hacc).
  split; [done|].
  unfold calculate_interest.
  rewrite Ha, monthrange_valid, month_start_valid, month_end_valid by done.
  destruct (List.filter _ (transactions acct)) as [|t0 ts] eqn:Hf; [done|].
  rewrite Hnone, Htot.
  destruct (Dec.quantize_cents _) as [total|] eqn:Hq; [|done].
  destruct (Dec.ltb Dec.zero total); [|done].
  by rewrite (Transaction_init_cents _ _ _ _ _
                (quantize_cents_is_cents _ _ Hq)).
Qed.

Lemma accrual_arithmetic_witness :
  let st := january_session in
  let acct := mkBankAccount "AC001"
    [mkTransaction (PyDate.mk 2023 1 1) "AC001" D (Dec.mk 100000 (-2))
       (Some "20230101-01");
     mkTransaction (PyDate.mk 2023 1 15) "AC001" D (Dec.mk 50000 (-2))
       (Some "20230115-01");
     mkTransaction (PyDate.mk 2023 1 20) "AC001" W (Dec.mk 20000 (-2))
       (Some "20230120-01")] in
  let end_date := month_end 2023 1 in
  let account_txns :=
    List.filter (fun t => PyDate.leb (date t) end_date) (transactions acct) in
  let dates := balance_change_dates account_txns (interest_rules st)
                 (month_start 2023 1) end_date in
  let unrounded := period_sum acct (interest_rules st) (periods dates end_date) in
  accumulate_interest acct (interest_rules st) dates end_date = Some unrounded /\
  total_interest acct (interest_rules st) dates end_date
  = Dec.quantize_cents unrounded /\
  (calculate_interest "AC001" 2023 1 st).1
  = match Dec.quantize_cents unrounded with
    | Some total =>
        if Dec.ltb Dec.zero total then InterestValue total
        else InterestValue Dec.zero
    | None => InterestRaised
    end.
Proof.
  apply (accrual_arithmetic january_session "AC001" 2023 1).
  - vm_compute. reflexivity.
  - lia.
  - lia.
  - intros [= ].
  - vm_compute. intros [= ].
  - vm_compute. reflexivity.
Defined.

(** The divisor in a leap year: 1000 at 5% over the 29 days of February
    2024 accrues 1000 * 5 / 100 * 29 / 365 = 3.97 (a divisor of 366 would
    give 3.96). *)
Example leap_february_divisor :
  (calculate_interest "AC001" 2024 2 leap_february_session).1
  = InterestValue (Dec.mk 397 (-2)) /\
  interest_of_month (calculate_interest "AC001" 2024 2 leap_february_session).2
    "AC001" 2024 2
  = [mkTransaction (PyDate.mk 2024 2 29) "AC001" I (Dec.mk 397 (-2)) None] /\
  cents_half_up (exact_term 1000 5 29) = 397 /\
  cents_half_up (1000 * 5 / 100 * 29 / 366)%Q = 396.
Proof. split_and!; by vm_compute. Qed.

(** * Further properties of the ledger *)

(** ** Balances are exact sums of cents *)

Section ExactCents.

Lemma ndigits_short z : Z.abs z < 10 ^ 28 -> Dec.ndigits (Z.abs z) <= Dec.prec.
Proof. intros H. unfold Dec.prec. apply ndigits_upper; lia. Qed.

Lemma rescale_cents mode c :
  Dec.rescale mode (-2) (Dec.mk c (-2)) = Dec.mk c (-2).
Proof.
  unfold Dec.rescale. cbn [Dec.coef Dec.expo].
  destruct (Z.eqb_spec c 0) as [->|]; [done|]. cbn. f_equal. lia.
Qed.

Lemma normalize_cents x y :
  Dec.normalize (Dec.mk x (-2)) (Dec.mk y (-2))
  = (Dec.mk x (-2), Dec.mk y (-2)).
Proof.
  unfold Dec.normalize. cbn [Dec.coef Dec.expo]. rewrite Z.ltb_irrefl.
  cbn [Dec.coef Dec.expo].
  pose proof (ndigits_pos (Z.abs y)) as Hy.
  assert ((Dec.ndigits (Z.abs y) + -2 - 1
             <? -2 + Z.min (-1) (Dec.ndigits (Z.abs x) - Dec.prec - 2))
          = false) as -> by (apply Z.ltb_ge; lia).
  cbn [Dec.coef Dec.expo]. change (-2 - -2) with 0.
  by rewrite Z.pow_0_r, Z.mul_1_r.
Qed.

Lemma add_cents_exact x y :
  Z.abs x < 10 ^ 28 -> Z.abs y < 10 ^ 28 -> Z.abs (x + y) < 10 ^ 28 ->
  Dec.add (Dec.mk x (-2)) (Dec.mk y (-2)) = Dec.mk (x + y) (-2).
Proof.
  intros Hx Hy Hxy. unfold Dec.add. cbn [Dec.coef Dec.expo].
  change (Z.max (Z.min (-2) (-2)) (-2 - Dec.prec - 1)) with (-2).
  change (Z.min (-2) (-2)) with (-2).
  destruct (Z.eqb_spec x 0) as [->|Hx0], (Z.eqb_spec y 0) as [->|Hy0];
    cbn [andb].
  - done.
  - rewrite rescale_cents, fix_ctx_short; [done|]. by apply ndigits_short.
  - rewrite rescale_cents, fix_ctx_short; [f_equal; lia|].
    by apply ndigits_short.
  - rewrite normalize_cents. cbn [Dec.coef Dec.expo].
    destruct (Z.eqb_spec (x + y) 0) as [->|]; [done|].
    rewrite fix_ctx_short; [done|]. by apply ndigits_short.
Qed.

Lemma add_zero_cents y :
  Z.abs y < 10 ^ 28 -> Dec.add Dec.zero (Dec.mk y (-2)) = Dec.mk y (-2).
Proof.
  intros Hy. unfold Dec.add, Dec.zero. cbn [Dec.coef Dec.expo].
  change (Z.max (Z.min 0 (-2)) (-2 - Dec.prec - 1)) with (-2).
  change (Z.min 0 (-2)) with (-2).
  destruct (Z.eqb_spec y 0) as [->|Hy0]; cbn [andb Z.eqb]; [done|].
  rewrite rescale_cents, fix_ctx_short; [done|]. by apply ndigits_short.
Qed.

Lemma holds_cents_add b s y :
  holds_cents b s ->
  Z.abs s < 10 ^ 28 -> Z.abs y < 10 ^ 28 -> Z.abs (s + y) < 10 ^ 28 ->
  holds_cents (Dec.add b (Dec.mk y (-2))) (s + y).
Proof.
  intros [->|[-> ->]] Hs Hy Hsy; left.
  - by apply add_cents_exact.
  - by apply add_zero_cents.
Qed.

Lemma holds_cents_to_Q b s :
  holds_cents b s -> (Dec.to_Q b == s # 100)%Q.
Proof. intros [->|[-> ->]]; reflexivity. Qed.

Lemma amount_as_cents (a : Dec.t) :
  is_cents a -> a = Dec.mk (Dec.coef a) (-2).
Proof. destruct a as [c e]. intros [He _]. cbn in *. by subst. Qed.

Lemma cents_upto_cons q t txns :
  cents_upto q (t :: txns)
  = (if PyDate.leb (date t) q then signed_cents t else 0) + cents_upto q txns.
Proof. unfold cents_upto. cbn. by destruct (PyDate.leb (date t) q). Qed.

Lemma cents_volume_cons t txns :
  cents_volume (t :: txns)
  = Z.abs (Dec.coef (amount t)) + cents_volume txns.
Proof. done. Qed.

Lemma cents_volume_nonneg txns : 0 <= cents_volume txns.
Proof.
  induction txns as [|t txns IH]; [done|]. rewrite cents_volume_cons. lia.
Qed.

Lemma cents_upto_bound q txns : Z.abs (cents_upto q txns) <= cents_volume txns.
Proof.
  induction txns as [|t txns IH]; [done|].
  rewrite cents_upto_cons, cents_volume_cons. unfold signed_cents.
  destruct (PyDate.leb (date t) q), (transaction_type t); lia.
Qed.

Lemma balance_step_cents q b s t :
  holds_cents b s -> is_cents (amount t) ->
  Z.abs s + Z.abs (Dec.coef (amount t)) < 10 ^ 28 ->
  holds_cents (balance_step q b t)
    (s + if PyDate.leb (date t) q then signed_cents t else 0).
Proof.
  intros Hb Hc Hbound. unfold balance_step, signed_cents.
  destruct (PyDate.leb (date t) q); [|by rewrite Z.add_0_r].
  rewrite (amount_as_cents _ Hc). cbn [Dec.coef].
  destruct (transaction_type t).
  - apply holds_cents_add; [done|lia..].
  - unfold Dec.sub, Dec.neg. cbn [Dec.coef Dec.expo].
    apply holds_cents_add; [done|lia..].
  - apply holds_cents_add; [done|lia..].
Qed.

Lemma balance_fold_cents q txns : forall b s,
  holds_cents b s -> Forall (fun t => is_cents (amount t)) txns ->
  Z.abs s + cents_volume txns < 10 ^ 28 ->
  holds_cents (fold_left (balance_step q) txns b) (s + cents_upto q txns).
Proof.
  induction txns as [|t txns IH]; intros b s Hb Hall Hbound.
  { cbn. by rewrite Z.add_0_r. }
  apply Forall_cons_1 in Hall as [Ht Hall].
  rewrite cents_volume_cons in Hbound. pose proof (cents_volume_nonneg txns).
  cbn [fold_left]. rewrite cents_upto_cons, Z.add_assoc.
  apply IH; [apply balance_step_cents; [done..|lia]|done|].
  unfold signed_cents. destruct (PyDate.leb _ _), (transaction_type t); lia.
Qed.

Lemma balance_holds_cents a q :
  exact_range (transactions a) ->
  holds_cents (get_balance_at_date a q) (cents_upto q (transactions a)).
Proof.
  intros [Hall Hvol]. unfold get_balance_at_date.
  apply (balance_fold_cents q (transactions a) Dec.zero 0);
    [by right|done|lia].
Qed.

End ExactCents.

Section BalanceFacts.

Lemma sum_perm (l l' : list Z) :
  Permutation l l' -> fold_right Z.add 0 l = fold_right Z.add 0 l'.
Proof.
  induction 1 as [|x l l' _ IH|x y l|l1 l2 l3 _ IH1 _ IH2]; cbn; lia.
Qed.

Lemma cents_upto_perm q txns txns' :
  Permutation txns txns' -> cents_upto q txns = cents_upto q txns'.
Proof.
  intros H. unfold cents_upto. by apply sum_perm, Permutation_map, filter_perm.
Qed.

Lemma cents_volume_perm txns txns' :
  Permutation txns txns' -> cents_volume txns = cents_volume txns'.
Proof. intros H. unfold cents_volume. by apply sum_perm, Permutation_map. Qed.

Lemma exact_range_perm txns txns' :
  Permutation txns txns' -> exact_range txns -> exact_range txns'.
Proof.
  intros H [Hall Hvol]. split.
  - by apply (Permutation_Forall H).
  - by rewrite <- (cents_volume_perm _ _ H).
Qed.

End BalanceFacts.

(** X1: while the amounts of an account are whole cents whose sum has at
    most 28 digits, the balance as of a date is exactly the sum of the
    deposits and interest minus the withdrawals dated on or before it. *)
Theorem balance_is_exact_sum a q :
  exact_range (transactions a) ->
  (Dec.to_Q (get_balance_at_date a q) == cents_upto q (transactions a) # 100)%Q.
Proof. intros H. by apply holds_cents_to_Q, balance_holds_cents. Qed.

(** X2: in that range the balance does not depend on the order in which
    the transactions were entered. *)
Theorem balance_order_independent a b q :
  Permutation (transactions a) (transactions b) ->
  exact_range (transactions a) ->
  (Dec.to_Q (get_balance_at_date a q) == Dec.to_Q (get_balance_at_date b q))%Q.
Proof.
  intros Hperm Ha.
  rewrite (holds_cents_to_Q _ _ (balance_holds_cents a q Ha)).
  rewrite (holds_cents_to_Q _ _
             (balance_holds_cents b q (exact_range_perm _ _ Hperm Ha))).
  by rewrite (cents_upto_perm q _ _ Hperm).
Qed.

Section Samples.

Lemma january_account_stored :
  accounts january_session !! "AC001" = Some january_account.
Proof. by vm_compute. Qed.

Lemma january_account_exact : exact_range (transactions january_account).
Proof.
  split; [|by vm_compute].
  repeat constructor; by vm_compute.
Qed.

Lemma january_reordered :
  Permutation (transactions january_account)
              (transactions january_account_reordered).
Proof.
  cbn. etransitivity; [apply perm_skip, perm_swap|]. apply perm_swap.
Qed.

End Samples.

Lemma balance_is_exact_sum_witness :
  (Dec.to_Q (get_balance_at_date january_account (PyDate.mk 2023 1 16))
   == cents_upto (PyDate.mk 2023 1 16) (transactions january_account) # 100)%Q.
Proof.
  apply (balance_is_exact_sum january_account (PyDate.mk 2023 1 16)).
  apply january_account_exact.
Defined.

Lemma balance_order_independent_witness :
  (Dec.to_Q (get_balance_at_date january_account (PyDate.mk 2023 1 16))
   == Dec.to_Q (get_balance_at_date january_account_reordered
                  (PyDate.mk 2023 1 16)))%Q.
Proof.
  apply (balance_order_independent january_account january_account_reordered
           (PyDate.mk 2023 1 16)).
  - apply january_reordered.
  - apply january_account_exact.
Defined.

(** ** Well-formed states *)

Section WellFormed.

Lemma make_valid_date y m d x : PyDate.make y m d = Some x -> valid_date x.
Proof.
  intros H. destruct (make_Some _ _ _ _ H) as (-> & Hy & Hm & Hd).
  unfold valid_date. cbn. by apply make_valid.
Qed.

Lemma strptime_valid text d :
  PyDate.strptime_Ymd text = Some d -> valid_date d.
Proof.
  unfold PyDate.strptime_Ymd.
  destruct (PyDate.year_scanner _) as [[y r]|]; [|done].
  destruct (PyDate.month_then_day _ _) as [[[m dd] [|]]|]; try done.
  apply make_valid_date.
Qed.

Lemma month_end_valid_date y m :
  1 <= y <= 9999 -> 1 <= m <= 12 -> valid_date (month_end y m).
Proof. intros. by apply (make_valid_date _ _ _ _ (month_end_valid y m H H0)). Qed.

Lemma validate_rate_range s r :
  validate_rate s = inr r ->
  is_cents r /\ Dec.ltb Dec.zero r = true /\
  Dec.ltb r (Dec.of_int 100) = true.
Proof.
  intros H. split; [by apply (validate_rate_inr s)|]. revert H.
  unfold validate_rate.
  destruct (Dec.parse s) as [[d| |]|]; try done.
  destruct (Dec.quantize_cents d) as [q|]; [|done].
  destruct (Dec.leb q Dec.zero) eqn:E1; [done|].
  destruct (Dec.leb (Dec.of_int 100) q) eqn:E2; [done|]. intros [= <-].
  rewrite leb_ltb in E1, E2. split.
  - by destruct (Dec.ltb Dec.zero q).
  - by destruct (Dec.ltb q (Dec.of_int 100)).
Qed.

Lemma wf_inv_init : wf_inv BankSystem_init.
Proof.
  split; [|constructor]. intros k a H. cbn in H. by rewrite lookup_empty in H.
Qed.

Lemma wf_get_or_create st acct_id k a :
  wf_inv st ->
  get_or_create acct_id (accounts st) !! k = Some a ->
  account_id a = k /\ Forall (txn_ok k) (transactions a).
Proof.
  intros [Hacc _] Hk. destruct (decide (k = acct_id)) as [->|Hne].
  - rewrite get_or_create_lookup in Hk. injection Hk as <-.
    destruct (accounts st !! acct_id) eqn:E; cbn; [by apply Hacc|].
    split; [done|constructor].
  - rewrite get_or_create_lookup_ne in Hk by done. by apply Hacc.
Qed.

Lemma wf_inv_step st st' : step st st' -> wf_inv st -> wf_inv st'.
Proof.
  intros Hstep Hwf. pose proof Hwf as [Hacc Hrules].
  destruct Hstep as [date_str acct_id txn_type amount_str
                    |date_str rid rate_str|acct_id y m].
  - destruct (create_transaction_cases date_str acct_id txn_type amount_str st)
      as [(e & _ & ->)|[(d & amt & _ & _ & _ & _ & ->)
                       |(d & kind & amt & Hd & _ & Hk & Hv & _ & ->)]];
      cbn [snd]; [done| |].
    + split; [|done]. intros k a. by apply wf_get_or_create.
    + split; [|done]. cbn [accounts]. intros k a Hka.
      destruct (decide (k = acct_id)) as [->|Hne].
      * rewrite lookup_insert_eq in Hka. injection Hka as <-.
        destruct (wf_get_or_create st acct_id acct_id _ Hwf
                    (get_or_create_lookup acct_id (accounts st)))
          as [Hid Hall].
        cbn [add_transaction account_id transactions]. split; [done|].
        apply Forall_app. split; [done|]. constructor; [|constructor].
        unfold txn_ok. cbn. split_and!.
        -- done.
        -- by apply (strptime_valid date_str).
        -- by apply (validate_amount_inr amount_str).
        -- by apply (validate_amount_inr amount_str).
        -- split; [by intros ->|done].
      * rewrite lookup_insert_ne in Hka by done.
        by apply (wf_get_or_create st acct_id).
  - destruct (add_interest_rule_cases date_str rid rate_str st)
      as [(e & ->)|(d & rt & Hd & Hv & ->)]; [done|].
    split; [done|]. cbn [snd interest_rules].
    apply (Permutation_Forall (sorted_perm rule_le _)).
    apply Forall_app. split.
    + apply List.Forall_forall. intros r [Hr _]%filter_In.
      by apply (proj1 (List.Forall_forall _ _) Hrules).
    + constructor; [|constructor]. unfold rule_ok. cbn.
      split; [by apply (strptime_valid date_str)|].
      by apply (validate_rate_range rate_str).
  - destruct (calculate_interest_cases acct_id y m st)
      as [[-> _]|(acct & total & Ha & Hy & Hm & _ & _ & Ht & Hpos & ->)];
      [done|].
    split; [|done]. cbn [snd accounts]. intros k a Hka.
    destruct (decide (k = acct_id)) as [->|Hne].
    + rewrite lookup_insert_eq in Hka. injection Hka as <-.
      destruct (Hacc acct_id acct Ha) as [Hid Hall].
      cbn [add_transaction account_id transactions]. split; [done|].
      apply Forall_app. split; [done|]. constructor; [|constructor].
      unfold txn_ok. cbn. split_and!; try done.
      * by apply month_end_valid_date.
      * by apply (total_interest_cents _ _ _ _ _ Ht).
    + rewrite lookup_insert_ne in Hka by done. by apply Hacc.
Qed.

Lemma reachable_invariant (P : BankSystem -> Prop) :
  P BankSystem_init -> (forall st st', step st st' -> P st -> P st') ->
  forall st, reachable st -> P st.
Proof.
  intros Hinit Hstep st Hr.
  apply (rtc_ind_r (R := step) P BankSystem_init Hinit); [|exact Hr].
  intros y z _ Hs Hy. by apply (Hstep y).
Qed.

End WellFormed.

(** X3: in every state of a session, every account is stored under its own
    id and every stored transaction names that account, has a real calendar
    date and a positive amount of whole cents with at most 28 digits, and
    carries an id exactly when it is not an Interest transaction; every
    stored rule has a real date and a rate of whole hundredths strictly
    between 0 and 100. *)
Theorem session_well_formed st : reachable st -> wf_inv st.
Proof.
  apply reachable_invariant; [apply wf_inv_init|apply wf_inv_step].
Qed.

Lemma session_well_formed_witness : wf_inv january_session.
Proof. apply (session_well_formed january_session), reachable_january. Defined.

(** ** Postings and balances *)

Section PostingBalance.

Lemma balance_of_appended accts acct_id txn rules counters st q :
  accts !! acct_id
  = Some (default (BankAccount_init acct_id) (accounts st !! acct_id)) ->
  balance_of
    (mkBankSystem
       (<[acct_id := add_transaction txn
            (default (BankAccount_init acct_id) (accounts st !! acct_id))]>
          accts)
       rules counters) acct_id q
  = balance_step q (balance_of st acct_id q) txn.
Proof.
  intros _. unfold balance_of. cbn [accounts].
  rewrite lookup_insert_eq. cbn [default].
  unfold get_balance_at_date, add_transaction. unfold id at 1.
  cbn [transactions]. by rewrite fold_left_app.
Qed.



Lemma leb_cents a b s :
  holds_cents b s -> (Dec.leb (Dec.mk a (-2)) b = true <-> a <= s).
Proof.
  intros Hb. rewrite leb_to_Q, (holds_cents_to_Q b s Hb).
  unfold Qle. cbn. lia.
Qed.

Lemma zero_leb_cents b s :
  holds_cents b s -> (Dec.leb Dec.zero b = true <-> 0 <= s).
Proof.
  intros Hb. rewrite leb_to_Q, (holds_cents_to_Q b s Hb).
  unfold Qle. cbn. lia.
Qed.

Lemma cents_volume_app txns new :
  cents_volume (txns ++ new) = cents_volume txns + cents_volume new.
Proof.
  induction txns as [|t txns IH]; [done|].
  cbn [app]. rewrite !cents_volume_cons, IH. lia.
Qed.

Lemma exact_range_app_l txns new :
  exact_range (txns ++ new) -> exact_range txns.
Proof.
  intros [Hall Hvol]. apply Forall_app in Hall as [Hl _]. split; [done|].
  rewrite cents_volume_app in Hvol.
  pose proof (cents_volume_nonneg new). lia.
Qed.

Lemma posting_balance_aux date_str acct_id txn_type amount_str st d kind amt :
  PyDate.strptime_Ymd date_str = Some d ->
  parse_txn_type txn_type = Some kind ->
  validate_amount amount_str = inr amt ->
  (create_transaction date_str acct_id txn_type amount_str st).1
  = TxnOk acct_id ->
  forall q,
    balance_of (create_transaction date_str acct_id txn_type amount_str st).2
               acct_id q
    = if PyDate.leb d q then
        match kind with
        | W => Dec.sub (balance_of st acct_id q) amt
        | D | I => Dec.add (balance_of st acct_id q) amt
        end
      else balance_of st acct_id q.
Proof.
  intros Hd Hk Hv Hok q.
  destruct (create_transaction_cases date_str acct_id txn_type amount_str st)
    as [(e & _ & Hr)|[(d' & amt' & _ & _ & _ & _ & Hr)
                     |(d' & kind' & amt' & Hd' & Hk' & _ & Hv' & _ & Hr)]];
    try (rewrite Hr in Hok; discriminate).
  rewrite Hd in Hd'. rewrite Hk in Hk'. rewrite Hv in Hv'.
  injection Hd' as <-. injection Hk' as <-. injection Hv' as <-.
  rewrite Hr. cbn [snd].
  rewrite balance_of_appended by apply get_or_create_lookup.
  unfold balance_step. cbn [date transaction_type amount].
  by destruct (PyDate.leb d q), kind.
Qed.

End PostingBalance.



(** X5: right after a successful withdrawal the balance of the account as
    of the withdrawal date is the former balance minus the amount, and is
    not negative, as long as the amounts the account held before are in
    the range where sums are exact. *)
Theorem withdrawal_leaves_balance_nonnegative date_str acct_id txn_type
    amount_str st d amt :
  PyDate.strptime_Ymd date_str = Some d ->
  parse_txn_type txn_type = Some W ->
  validate_amount amount_str = inr amt ->
  (create_transaction date_str acct_id txn_type amount_str st).1
  = TxnOk acct_id ->
  exact_range (transactions_of st acct_id) ->
  let st' := (create_transaction date_str acct_id txn_type amount_str st).2 in
  Dec.leb Dec.zero (balance_of st' acct_id d) = true /\
  (Dec.to_Q (balance_of st' acct_id d)
   == Dec.to_Q (balance_of st acct_id d) - Dec.to_Q amt)%Q.
Proof.
  intros Hd Hk Hv Hok Hold. cbn zeta.
  pose proof (create_transaction_valid _ acct_id _ _ st _ _ _ Hd Hk Hv) as Hres.
  rewrite Hok in Hres. cbn [txn_kind_eqb andb] in Hres.
  destruct (Dec.leb amt (balance_of st acct_id d)) eqn:Hle; [|done].
  assert (Hb : holds_cents (balance_of st acct_id d)
                 (cents_upto d (transactions_of st acct_id))).
  { unfold balance_of. rewrite <- transactions_default.
    apply balance_holds_cents. by rewrite transactions_default. }
  destruct (validate_amount_inr _ _ Hv) as [Hc Hpos].
  apply ltb_zero in Hpos.
  pose proof (posting_balance_aux date_str acct_id txn_type amount_str st
                d W amt Hd Hk Hv Hok d) as Heq.
  rewrite date_leb_refl in Heq.
  set (s := cents_upto d (transactions_of st acct_id)) in *.
  set (a := Dec.coef amt) in *.
  assert (Hamt : amt = Dec.mk a (-2)) by apply (amount_as_cents _ Hc).
  rewrite Hamt in Hle. apply (leb_cents _ _ _ Hb) in Hle.
  pose proof (cents_upto_bound d (transactions_of st acct_id)) as Hs.
  fold s in Hs. destruct Hold as [_ Hvol].
  assert (Hnewb : holds_cents (balance_of
              (create_transaction date_str acct_id txn_type amount_str st).2
              acct_id d) (s + - a)).
  { rewrite Heq, Hamt. unfold Dec.sub, Dec.neg. cbn [Dec.coef Dec.expo].
    apply holds_cents_add; [done|lia..]. }
  split.
  - apply (zero_leb_cents _ _ Hnewb). lia.
  - rewrite (holds_cents_to_Q _ _ Hnewb), (holds_cents_to_Q _ _ Hb), Hamt.
    unfold Qeq, Qminus, Qplus, Qopp. cbn. lia.
Qed.

Lemma withdrawal_leaves_balance_nonnegative_witness :
  let st' := (create_transaction "20230125" "AC001" "W" "300"
                january_session).2 in
  Dec.leb Dec.zero (balance_of st' "AC001" (PyDate.mk 2023 1 25)) = true /\
  (Dec.to_Q (balance_of st' "AC001" (PyDate.mk 2023 1 25))
   == Dec.to_Q (balance_of january_session "AC001" (PyDate.mk 2023 1 25))
      - Dec.to_Q (Dec.mk 30000 (-2)))%Q.
Proof.
  apply (withdrawal_leaves_balance_nonnegative "20230125" "AC001" "W" "300"
           january_session (PyDate.mk 2023 1 25) (Dec.mk 30000 (-2)));
    try (by vm_compute).
  unfold transactions_of. rewrite january_account_stored.
  apply january_account_exact.
Defined.

(** ** Accruals and balances *)

Section AccrualBalance.



End AccrualBalance.



(** ** What an accrual changes *)

(** X7: an accrual never returns a negative amount and changes nothing
    but the transaction list of the named account: the rules, the counters
    and the other accounts are kept; either the state is unchanged (and a
    returned amount is 0), or the returned amount is positive and exactly
    one Interest transaction without id, dated the month end and carrying
    that amount, is appended to the account. *)
Theorem accrual_effect acct_id y m st :
  let r := calculate_interest acct_id y m st in
  interest_rules r.2 = interest_rules st /\
  transaction_counters r.2 = transaction_counters st /\
  (forall k, k <> acct_id -> accounts r.2 !! k = accounts st !! k) /\
  (forall v, r.1 = InterestValue v -> Dec.leb Dec.zero v = true) /\
  (r.2 = st /\ (forall v, r.1 = InterestValue v -> v = Dec.zero) \/
   exists v, r.1 = InterestValue v /\ Dec.ltb Dec.zero v = true /\
     transactions_of r.2 acct_id
     = transactions_of st acct_id
       ++ [mkTransaction (month_end y m) acct_id I v None]).
Proof.
  cbn zeta.
  destruct (calculate_interest_cases acct_id y m st)
    as [[-> Hres]|(acct & total & Ha & _ & _ & _ & _ & _ & Hpos & ->)].
  - split_and!; try done.
    + intros v Hv. rewrite Hv in Hres. by destruct Hres as [|[|[= ->]]].
    + left. split; [done|]. intros v Hv. rewrite Hv in Hres.
      by destruct Hres as [|[|[= ->]]].
  - cbn [fst snd interest_rules transaction_counters accounts]. split_and!; try done.
    + intros k Hk. by rewrite lookup_insert_ne.
    + intros v [= <-]. revert Hpos. unfold Dec.ltb, Dec.leb.
      by destruct (Dec.compare _ _).
    + right. exists total. split_and!; try done.
      rewrite transactions_of_insert, decide_True by done.
      unfold transactions_of. by rewrite Ha.
Qed.

(** ** What a rule registration changes *)

Lemma sorted_in {A} (le : A -> A -> bool) (l : list A) x :
  In x (sorted le l) <-> In x l.
Proof.
  split; apply Permutation_in; [symmetry|]; apply sorted_perm.
Qed.

(** X8: a rule registration never raises and never touches the accounts
    or the counters; a rejected one leaves the whole state unchanged; an
    accepted one keeps every rule of another date. *)
Theorem rule_registration_frame date_str rid rate_str st :
  let r := add_interest_rule date_str rid rate_str st in
  accounts r.2 = accounts st /\
  transaction_counters r.2 = transaction_counters st /\
  r.1 <> RuleRaised /\
  (r.1 <> RuleOk -> r.2 = st) /\
  (r.1 = RuleOk ->
   exists d, PyDate.strptime_Ymd date_str = Some d /\
     forall rule, rule_date rule <> d ->
       (In rule (interest_rules r.2) <-> In rule (interest_rules st))).
Proof.
  cbn zeta.
  destruct (add_interest_rule_cases date_str rid rate_str st)
    as [(e & ->)|(d & rt & Hd & _ & ->)]; cbn [fst snd accounts
      transaction_counters interest_rules]; split_and!; try done.
  intros _. exists d. split; [done|]. intros rule Hne.
  rewrite sorted_in, in_app_iff, filter_In. cbn [In].
  split.
  - intros [[H _]|[<-|[]]]; [done|]. by cbn in Hne.
  - intros H. left. split; [done|].
    apply negb_true_iff, not_true_iff_false. by rewrite date_eqb_eq.
Qed.

(** ** The transaction type text *)

(** X9: the transaction type is accepted for exactly four texts: "D" and
    "d" denote a deposit, "W" and "w" a withdrawal; a caller can never
    enter an Interest transaction. *)
Theorem txn_type_texts txn_type :
  (parse_txn_type txn_type = Some D <->
   txn_type = "D"%string \/ txn_type = "d"%string) /\
  (parse_txn_type txn_type = Some W <->
   txn_type = "W"%string \/ txn_type = "w"%string) /\
  parse_txn_type txn_type <> Some I.
Proof.
  destruct txn_type as [|c [|c' s]].
  - vm_compute. intuition congruence.
  - destruct c as [[] [] [] [] [] [] [] []]; vm_compute;
      intuition congruence.
  - unfold parse_txn_type. cbn [list_ascii_of_string List.map string_of_list_ascii String.eqb].
    repeat match goal with
           | |- context [Ascii.eqb ?x ?y] => destruct (Ascii.eqb x y)
           end; cbn; intuition congruence.
Qed.

(** ** The window of accepted rates *)

Section Thresholds.

Lemma quantize_cents_coef c e q :
  c <> 0 -> Dec.quantize_cents (Dec.mk c e) = Some q ->
  q = Dec.rescale Dec.ROUND_HALF_UP (-2) (Dec.mk c e).
Proof.
  intros Hc. rewrite quantize_cents_eq. unfold Dec.quantize_to.
  cbn [Dec.coef Dec.expo Dec.cent].
  destruct (Z.eqb_spec c 0); [lia|].
  destruct (Dec.Emax <? _); [done|]. destruct (Dec.prec <? _); [done|].
  destruct (Dec.Emax <? _); [done|].
  destruct (Z.ltb_spec Dec.prec
              (Dec.ndigits (Z.abs (Dec.coef
                 (Dec.rescale Dec.ROUND_HALF_UP (-2) (Dec.mk c e))))));
    [done|].
  intros [= <-]. by rewrite fix_ctx_short.
Qed.

(** The quantized value reaches [T] cents exactly when the value reaches
    [T - 0.5] cents. *)
Lemma quantize_cents_threshold c e q T :
  0 < c -> 1 <= T -> Dec.quantize_cents (Dec.mk c e) = Some q ->
  T <= Dec.coef q <-> Dec.leb (Dec.mk (10 * T - 5) (-3)) (Dec.mk c e) = true.
Proof.
  intros Hc HT Hq. apply quantize_cents_coef in Hq as ->; [|lia].
  unfold Dec.leb, Dec.compare, Dec.rescale. cbn [Dec.coef Dec.expo].
  destruct (Z.eqb_spec c 0); [lia|].
  destruct (Z.leb_spec (-2) e) as [Hpad|Hcut]; cbn [Dec.coef].
  - rewrite Z.min_l by lia. replace (-3 - -3) with 0 by lia.
    change (10 ^ 0) with 1.
    replace (e - -3) with ((e - -2) + 1) by lia.
    rewrite pow10_split by lia. change (10 ^ 1) with 10.
    pose proof (pow10_pos (e - -2) ltac:(lia)) as HP.
    destruct (Z.compare_spec ((10 * T - 5) * 1) (c * (10 ^ (e - -2) * 10)));
      split; try done; lia.
  - cbn [Dec.round_digits]. rewrite Z.abs_eq, Z.sgn_pos by lia.
    rewrite Z.min_r by lia. replace (e - e) with 0 by lia.
    change (10 ^ 0) with 1.
    set (k := -2 - e). assert (Hk : 1 <= k) by (unfold k; lia).
    assert (HP : 10 ^ k = 10 * 10 ^ (-3 - e)).
    { replace k with (1 + (-3 - e)) by (unfold k; lia).
      by rewrite pow10_split by lia. }
    pose proof (pow10_pos (-3 - e) ltac:(lia)) as HP'.
    destruct (round_half_up_spec c k) as (q & r & Hqr & Hrb & Hq & ->);
      [lia..|].
    set (P := 10 ^ (-3 - e)) in *.
    destruct (Z.compare_spec ((10 * T - 5) * P) (c * 1));
      destruct (Z.leb_spec (10 ^ k) (2 * r)); split; try done; nia.
Qed.

Lemma quantize_cents_nonpositive c e q :
  c <= 0 -> Dec.quantize_cents (Dec.mk c e) = Some q -> Dec.coef q <= 0.
Proof.
  intros Hc Hq. destruct (Z.eq_dec c 0) as [->|Hne].
  { revert Hq. rewrite quantize_cents_eq. unfold Dec.quantize_to. cbn.
    by intros [= <-]. }
  apply quantize_cents_coef in Hq as ->; [|done].
  unfold Dec.rescale. cbn [Dec.coef Dec.expo].
  destruct (Z.eqb_spec c 0); [lia|].
  destruct (Z.leb_spec (-2) e) as [Hpad|Hcut]; cbn [Dec.coef].
  - pose proof (pow10_pos (e - -2) ltac:(lia)). nia.
  - cbn [Dec.round_digits]. rewrite Z.sgn_neg by lia.
    destruct (round_half_up_spec (Z.abs c) (-2 - e))
      as (q & r & Hqr & Hrb & Hq & ->); [lia..|].
    destruct (_ <=? _); lia.
Qed.

Lemma leb_nonpositive_small c e :
  c <= 0 -> Dec.leb (Dec.mk 5 (-3)) (Dec.mk c e) = false.
Proof.
  intros Hc. unfold Dec.leb, Dec.compare. cbn [Dec.coef Dec.expo].
  pose proof (pow10_pos (-3 - Z.min (-3) e) ltac:(lia)).
  pose proof (pow10_pos (e - Z.min (-3) e) ltac:(lia)).
  destruct (Z.compare_spec (5 * 10 ^ (-3 - Z.min (-3) e))
              (c * 10 ^ (e - Z.min (-3) e))); try done; nia.
Qed.

Lemma leb_hundred_cents cq :
  Dec.leb (Dec.of_int 100) (Dec.mk cq (-2)) = true <-> 10000 <= cq.
Proof.
  unfold Dec.leb, Dec.compare. cbn [Dec.of_int Dec.coef Dec.expo].
  change (100 * 10 ^ (0 - Z.min 0 (-2))) with 10000.
  change (10 ^ (-2 - Z.min 0 (-2))) with 1.
  destruct (Z.compare_spec 10000 (cq * 1)); split; try done; lia.
Qed.

End Thresholds.

(** X10: with a valid date, a rate that parses to a finite number [x] is
    accepted exactly when [0.005 <= x < 99.995], the values that round
    (half up, two digits) to a rate strictly between 0 and 100. *)
Theorem rate_window date_str rid rate_str st d x :
  PyDate.strptime_Ymd date_str = Some d ->
  Dec.parse rate_str = Some (Dec.Finite x) ->
  (add_interest_rule date_str rid rate_str st).1 = RuleOk <->
  Dec.leb (Dec.mk 5 (-3)) x = true /\ Dec.ltb x (Dec.mk 99995 (-3)) = true.
Proof.
  intros Hd Hp. unfold add_interest_rule. rewrite Hd.
  destruct (validate_rate rate_str) as [err|r] eqn:Hv.
  - cbn [fst]. split; [done|]. intros [Hlo Hhi]. exfalso. revert Hv.
    unfold validate_rate. rewrite Hp.
    destruct x as [c e].
    destruct (Z.le_gt_cases c 0) as [Hc|Hc].
    { by rewrite leb_nonpositive_small in Hlo. }
    destruct (Dec.quantize_cents (Dec.mk c e)) as [q|] eqn:Hq.
    + pose proof (quantize_cents_is_cents _ _ Hq) as [He _].
      pose proof (quantize_cents_threshold c e q 1 ltac:(lia) ltac:(lia) Hq)
        as H1.
      pose proof (quantize_cents_threshold c e q 10000 ltac:(lia) ltac:(lia) Hq)
        as H2.
      change (10 * 1 - 5) with 5 in H1. change (10 * 10000 - 5) with 99995 in H2.
      rewrite leb_ltb, Hhi in H2. cbn in H2.
      apply H1 in Hlo.
      assert (Hq1 : Dec.leb q Dec.zero = false).
      { apply not_true_iff_false. rewrite leb_zero. clear -Hlo. lia. }
      assert (Hq2 : Dec.leb (Dec.of_int 100) q = false).
      { destruct q as [cq eq]. cbn in He, Hlo, H2. subst eq.
        apply not_true_iff_false. rewrite leb_hundred_cents.
        intros H3. by apply H2 in H3. }
      by rewrite Hq1, Hq2.
    + destruct (quantize_cents_defined (Dec.mk c e)) as [q' Hq'].
      * by apply ltb_zero.
      * apply ltb_to_Q. apply ltb_to_Q in Hhi.
        eapply Qlt_trans; [exact Hhi|]. reflexivity.
      * congruence.
  - rewrite (InterestRule_init_cents _ _ _ (validate_rate_inr _ _ Hv)).
    cbn [fst]. split; [intros _|done]. revert Hv.
    unfold validate_rate. rewrite Hp.
    destruct (Dec.quantize_cents x) as [q|] eqn:Hq; [|done].
    destruct (Dec.leb q Dec.zero) eqn:Hq1; [done|].
    destruct (Dec.leb (Dec.of_int 100) q) eqn:Hq2; [done|]. intros _.
    apply not_true_iff_false in Hq1. rewrite leb_zero in Hq1.
    pose proof (quantize_cents_is_cents _ _ Hq) as [He _].
    destruct x as [c e].
    destruct (Z.le_gt_cases c 0) as [Hc|Hc].
    { pose proof (quantize_cents_nonpositive c e q Hc Hq). lia. }
    pose proof (quantize_cents_threshold c e q 1 ltac:(lia) ltac:(lia) Hq)
      as H1.
    pose proof (quantize_cents_threshold c e q 10000 ltac:(lia) ltac:(lia) Hq)
      as H2.
    change (10 * 1 - 5) with 5 in H1. change (10 * 10000 - 5) with 99995 in H2.
    split; [apply H1; lia|].
    rewrite leb_ltb in H2.
    destruct (Dec.ltb (Dec.mk c e) (Dec.mk 99995 (-3))); [done|exfalso].
    cbn in H2. assert (H3 : 10000 <= Dec.coef q) by (by apply H2).
    revert Hq2. destruct q as [cq eq]. cbn in He, H3. subst eq.
    intros Hq2. apply not_true_iff_false in Hq2.
    by rewrite leb_hundred_cents in Hq2.
Qed.

Lemma rate_window_witness :
  (add_interest_rule "20230101" "RULE1" "99.994" BankSystem_init).1 = RuleOk <->
  Dec.leb (Dec.mk 5 (-3)) (Dec.mk 99994 (-3)) = true /\
  Dec.ltb (Dec.mk 99994 (-3)) (Dec.mk 99995 (-3)) = true.
Proof.
  apply (rate_window "20230101" "RULE1" "99.994" BankSystem_init
           (PyDate.mk 2023 1 1) (Dec.mk 99994 (-3))); by vm_compute.
Defined.

Example rate_window_edges :
  (add_interest_rule "20230101" "RULE1" "0.004" BankSystem_init).1
  = RuleFail RateOutOfRange /\
  (add_interest_rule "20230101" "RULE1" "0.005" BankSystem_init).1 = RuleOk /\
  (add_interest_rule "20230101" "RULE1" "99.995" BankSystem_init).1
  = RuleFail RateOutOfRange.
Proof. split_and!; by vm_compute. Qed.

(** ** The breakpoints of a month *)

Section Breakpoints.

Lemma set_add_In x s d : In d (set_add x s) <-> d = x \/ In d s.
Proof.
  unfold set_add. destruct (existsb (PyDate.eqb x) s) eqn:E.
  - split; [auto|]. intros [->|H]; [|done].
    apply existsb_exists in E as (z & Hz & Heq).
    by apply date_eqb_eq in Heq as ->.
  - rewrite in_app_iff. cbn. intuition (subst; auto).
Qed.

Lemma set_add_NoDup x s : List.NoDup s -> List.NoDup (set_add x s).
Proof.
  intros Hs. unfold set_add. destruct (existsb (PyDate.eqb x) s) eqn:E; [done|].
  apply List.NoDup_app; [done|repeat constructor; by intros []|].
  intros z Hz [<-|[]].
  assert (existsb (PyDate.eqb x) s = true); [|congruence].
  apply existsb_exists. exists x. split; [done|apply date_eqb_refl].
Qed.

Lemma collect_In {A} (key : A -> PyDate.t) s e (l : list A) : forall s0 d,
  In d (fold_left (fun acc x => if in_month s e (key x)
                                then set_add (key x) acc else acc) l s0)
  <-> In d s0 \/ (in_month s e d = true /\ exists x, In x l /\ key x = d).
Proof.
  induction l as [|x l IH]; intros s0 d; cbn [fold_left].
  { split; [auto|]. intros [H|(_ & x & [] & _)]. done. }
  rewrite IH. destruct (in_month s e (key x)) eqn:Hin.
  - rewrite set_add_In. split.
    + intros [[->|H]|(Hm & z & Hz & Hk)]; eauto 7 using in_eq, in_cons.
    + intros [H|(Hm & z & [<-|Hz] & Hk)]; eauto 7.
  - split.
    + intros [H|(Hm & z & Hz & Hk)]; eauto 7 using in_cons.
    + intros [H|(Hm & z & [<-|Hz] & Hk)]; eauto 7. congruence.
Qed.

Lemma collect_NoDup {A} (key : A -> PyDate.t) s e (l : list A) : forall s0,
  List.NoDup s0 ->
  List.NoDup (fold_left (fun acc x => if in_month s e (key x)
                                      then set_add (key x) acc else acc) l s0).
Proof.
  induction l as [|x l IH]; intros s0 H0; cbn [fold_left]; [done|].
  apply IH. destruct (in_month s e (key x)); [by apply set_add_NoDup|done].
Qed.

Lemma date_lt_trans a b c : date_lt a b -> date_lt b c -> date_lt a c.
Proof. unfold date_lt. rewrite !date_ltb_spec. lia. Qed.

Lemma date_lt_irrefl a : ~ date_lt a a.
Proof. unfold date_lt. rewrite date_ltb_spec. lia. Qed.

Lemma date_insert_sorted_strict x l :
  StronglySorted date_lt l -> ~ In x l ->
  StronglySorted date_lt (insert_sorted PyDate.leb x l).
Proof.
  induction 1 as [|y l Hs IH Hall]; intros Hne; cbn.
  { repeat constructor. }
  assert (Hxy : x <> y) by (intros ->; apply Hne, in_eq).
  assert (Hxl : ~ In x l) by (intros H; apply Hne, in_cons, H).
  destruct (PyDate.leb x y) eqn:Hle.
  - assert (Hlt : date_lt x y).
    { unfold date_lt. destruct (PyDate.ltb x y) eqn:E; [done|].
      exfalso. apply Hxy, date_leb_antisym; [done|].
      by rewrite date_leb_ltb, E. }
    constructor; [by constructor|]. constructor; [done|].
    eapply List.Forall_impl; [|exact Hall]. intros z. by apply date_lt_trans.
  - assert (Hlt : date_lt y x).
    { unfold date_lt. rewrite date_leb_ltb in Hle.
      by destruct (PyDate.ltb y x). }
    constructor; [by apply IH|].
    apply List.Forall_forall. intros z Hz.
    apply (Permutation_in _ (Permutation_sym (insert_sorted_perm PyDate.leb x l)))
      in Hz as [<-|Hz]; [done|].
    by apply (proj1 (List.Forall_forall _ _) Hall).
Qed.

Lemma date_sorted_strict l :
  List.NoDup l -> StronglySorted date_lt (sorted PyDate.leb l).
Proof.
  induction l as [|x l IH]; intros Hnd; [constructor|].
  change (sorted PyDate.leb (x :: l))
    with (insert_sorted PyDate.leb x (sorted PyDate.leb l)).
  apply NoDup_cons_iff in Hnd as [Hx Hnd].
  apply date_insert_sorted_strict; [by apply IH|].
  by rewrite sorted_in.
Qed.

Lemma in_month_days y m d :
  in_month (month_start y m) (month_end y m) d = true <->
  d = PyDate.mk y m (PyDate.day d) /\
  1 <= PyDate.day d <= PyDate.days_in_month y m.
Proof.
  unfold in_month. rewrite andb_true_iff, !date_leb_ltb, !negb_true_iff,
    <- !not_true_iff_false, !date_ltb_spec.
  destruct d as [dy dm dd]. cbn. split.
  - intros [H1 H2]. split; [f_equal|]; lia.
  - intros [[= -> ->] H]. lia.
Qed.



Lemma breakpoints_facts txns rules s e :
  let dates := balance_change_dates txns rules s e in
  StronglySorted date_lt dates /\
  head dates = Some s /\
  (forall d, In d dates <->
     d = s \/
     in_month s e d = true /\
     ((exists t, In t txns /\ date t = d) \/
      (exists r, In r rules /\ rule_date r = d))).
Proof.
  cbn zeta. unfold balance_change_dates.
  set (s1 := fold_left _ txns []). set (s2 := fold_left _ rules s1).
  assert (Hin : forall d, In d (sorted PyDate.leb (set_add s s2)) <->
     d = s \/
     in_month s e d = true /\
     ((exists t, In t txns /\ date t = d) \/
      (exists r, In r rules /\ rule_date r = d))).
  { intros d. rewrite sorted_in, set_add_In. unfold s2.
    rewrite (collect_In rule_date). unfold s1. rewrite (collect_In date).
    cbn [In]. split.
    - intros [?|[[[]|[? ?]]|[? ?]]]; eauto.
    - intros [?|[? [?|?]]]; eauto. }
  assert (Hs : StronglySorted date_lt (sorted PyDate.leb (set_add s s2))).
  { apply date_sorted_strict, set_add_NoDup.
    apply (collect_NoDup rule_date), (collect_NoDup date). constructor. }
  split; [done|]. split; [|done].
  destruct (sorted PyDate.leb (set_add s s2)) as [|h l] eqn:E.
  { exfalso. apply (proj2 (Hin s)). by left. }
  cbn. f_equal.
  assert (Hsh : PyDate.leb s h = true).
  { destruct (proj1 (Hin h) (in_eq _ _)) as [->|[Hm _]];
      [apply date_leb_refl|].
    unfold in_month in Hm. by apply andb_true_iff in Hm as [? _]. }
  destruct (proj2 (Hin s) (or_introl eq_refl)) as [->|Hl]; [done|].
  apply StronglySorted_inv in Hs as [_ Hall].
  pose proof (proj1 (List.Forall_forall _ _) Hall s Hl) as Hlt.
  unfold date_lt in Hlt. rewrite date_leb_ltb, Hlt in Hsh. done.
Qed.

Lemma breakpoints_spec txns rules s e d :
  In d (balance_change_dates txns rules s e) ->
  d = s \/ in_month s e d = true.
Proof.
  intros H. destruct (breakpoints_facts txns rules s e) as (_ & _ & Hin).
  apply Hin in H as [?|[? _]]; auto.
Qed.

End Breakpoints.

(** X11: the breakpoints of an accrual are strictly ascending, start
    with the start date, and are exactly the start date together with the
    dates, within the month, of the given transactions and rules. *)
Theorem breakpoints_of_month txns rules s e :
  let dates := balance_change_dates txns rules s e in
  StronglySorted date_lt dates /\
  head dates = Some s /\
  (forall d, In d dates <->
     d = s \/
     in_month s e d = true /\
     ((exists t, In t txns /\ date t = d) \/
      (exists r, In r rules /\ rule_date r = d))).
Proof. apply breakpoints_facts. Qed.

(** ** The periods of the accrual loop *)

Section Periods.

Lemma in_month_ordinal y m d :
  in_month (month_start y m) (month_end y m) d = true ->
  PyDate.toordinal d
  = PyDate.days_before_year y + PyDate.days_before_month y m + PyDate.day d.
Proof. intros [Hd _]%in_month_days. by rewrite Hd at 1. Qed.

Lemma in_month_lt_days y m a b :
  in_month (month_start y m) (month_end y m) a = true ->
  in_month (month_start y m) (month_end y m) b = true ->
  date_lt a b -> PyDate.day a < PyDate.day b.
Proof.
  intros [Ha _]%in_month_days [Hb _]%in_month_days.
  unfold date_lt. rewrite date_ltb_spec, Ha, Hb. cbn. lia.
Qed.

Lemma periods_starts e ds :
  map fst (periods ds e)
  = List.filter (fun d => negb (PyDate.eqb d e)) ds.
Proof.
  induction ds as [|d rest IH]; [done|].
  cbn [periods List.filter]. rewrite map_app, IH.
  by destruct (PyDate.eqb d e).
Qed.

Lemma periods_days y m ds :
  StronglySorted date_lt ds ->
  Forall (fun d => in_month (month_start y m) (month_end y m) d = true) ds ->
  Forall (fun p => 1 <= p.2) (periods ds (month_end y m)) /\
  forall d rest, ds = d :: rest ->
    fold_right Z.add 0 (map snd (periods ds (month_end y m)))
    = PyDate.days_in_month y m + 1 - PyDate.day d
      - (if existsb (PyDate.eqb (month_end y m)) ds then 1 else 0).
Proof.
  induction 1 as [|d rest Hs IH Hall]; intros Hin; [by split|].
  apply Forall_cons in Hin as [Hd Hrest]. specialize (IH Hrest) as [IH1 IH2].
  pose proof (in_month_ordinal y m d Hd) as Hod.
  assert (Hoe : PyDate.toordinal (month_end y m)
                = PyDate.days_before_year y + PyDate.days_before_month y m
                  + PyDate.days_in_month y m) by done.
  pose proof (proj1 (in_month_days y m d) Hd) as [Hdeq Hdd].
  cbn [periods]. destruct (PyDate.eqb d (month_end y m)) eqn:Heq.
  - apply date_eqb_eq in Heq. subst d. cbn [app]. split; [done|].
    intros d' rest' [= <- <-].
    destruct rest as [|d1 rest].
    + cbn. rewrite date_eqb_refl. cbn. lia.
    + exfalso. apply Forall_cons in Hall as [Hlt _].
      apply Forall_cons in Hrest as [Hd1 _].
      pose proof (in_month_lt_days y m _ _ Hd Hd1 Hlt) as Hlt'.
      apply in_month_days in Hd1 as [_ Hd1]. cbn in Hlt'. lia.
  - assert (Hne : d <> month_end y m).
    { intros E. apply date_eqb_eq in E. congruence. }
    assert (Hde : PyDate.eqb (month_end y m) d = false).
    { apply not_true_iff_false. rewrite date_eqb_eq. congruence. }
    cbn [app]. split.
    + constructor; [|done]. cbn [snd]. destruct rest as [|d1 rest].
      * unfold PyDate.days_between. lia.
      * apply Forall_cons in Hall as [Hlt _].
        apply Forall_cons in Hrest as [Hd1 _].
        pose proof (in_month_lt_days y m _ _ Hd Hd1 Hlt).
        pose proof (in_month_ordinal y m d1 Hd1).
        unfold PyDate.days_between. lia.
    + intros d' rest' [= <- <-]. cbn [map fold_right snd existsb].
      rewrite Hde, orb_false_l. destruct rest as [|d1 rest].
      * cbn. unfold PyDate.days_between. lia.
      * rewrite (IH2 d1 rest eq_refl).
        apply Forall_cons in Hrest as [Hd1 _].
        pose proof (in_month_ordinal y m d1 Hd1).
        unfold PyDate.days_between. lia.
Qed.

End Periods.

(** X12: for a month before December 9999 the accrual loop adds one term
    per breakpoint other than the month end; every period has at least
    one day, and the days of all periods add up to the days of the month,
    or to one day less when the month end is itself a breakpoint: the
    last day then starts no period. *)
Theorem accrual_periods acct rules txns y m :
  1 <= y <= 9999 -> 1 <= m <= 12 -> (y, m) <> (9999, 12) ->
  let end_date := month_end y m in
  let dates := balance_change_dates txns rules (month_start y m) end_date in
  let ps := periods dates end_date in
  accumulate_interest acct rules dates end_date
  = Some (period_sum acct rules ps) /\
  map fst ps = List.filter (fun d => negb (PyDate.eqb d end_date)) dates /\
  Forall (fun p => 1 <= p.2) ps /\
  fold_right Z.add 0 (map snd ps)
  = PyDate.days_in_month y m
    - (if existsb (PyDate.eqb end_date) dates then 1 else 0).
Proof.
  intros Hy Hm Hne. cbn zeta.
  destruct (breakpoints_facts txns rules (month_start y m) (month_end y m))
    as (Hs & Hhd & Hin).
  set (dates := balance_change_dates txns rules (month_start y m)
                  (month_end y m)) in *.
  assert (Hall : Forall (fun d => in_month (month_start y m) (month_end y m) d
                                  = true) dates).
  { apply List.Forall_forall. intros d [->|[Hd _]]%Hin; [|done].
    apply in_month_days. cbn. split; [done|].
    pose proof (days_in_month_bounds y m Hm). lia. }
  destruct (periods_days y m dates Hs Hall) as [Hpos Hsum].
  split; [apply accumulate_is_period_sum; [lia|done|lia]|].
  split; [apply periods_starts|]. split; [done|].
  destruct dates as [|d rest]; [done|]. injection Hhd as ->.
  rewrite (Hsum _ _ eq_refl). cbn. lia.
Qed.

Lemma accrual_periods_witness :
  let acct := default (BankAccount_init "") (accounts january_session !! "AC001") in
  let rules := interest_rules january_session in
  let end_date := month_end 2023 1 in
  let dates := balance_change_dates (transactions acct) rules
                 (month_start 2023 1) end_date in
  let ps := periods dates end_date in
  accumulate_interest acct rules dates end_date
  = Some (period_sum acct rules ps) /\
  map fst ps = List.filter (fun d => negb (PyDate.eqb d end_date)) dates /\
  Forall (fun p => 1 <= p.2) ps /\
  fold_right Z.add 0 (map snd ps)
  = PyDate.days_in_month 2023 1
    - (if existsb (PyDate.eqb end_date) dates then 1 else 0).
Proof.
  apply (accrual_periods _ _ _ 2023 1); [lia|lia|done].
Defined.

(** A one-cent deposit on the last day of January lowers the interest of
    the month from 4.25 to 4.11: the 31st then starts no period. *)
Example month_end_posting_drops_last_day :
  let st := (add_interest_rule "20230101" "RULE1" "5" BankSystem_init).2 in
  let st := (create_transaction "20230101" "AC001" "D" "1000" st).2 in
  (calculate_interest "AC001" 2023 1 st).1 = InterestValue (Dec.mk 425 (-2)) /\
  (calculate_interest "AC001" 2023 1
     (create_transaction "20230131" "AC001" "D" "0.01" st).2).1
  = InterestValue (Dec.mk 411 (-2)).
Proof. split; by vm_compute. Qed.

(** ** The rule in force *)

Section RuleInForce.

Lemma applicable_rule_fold d rules :
  StronglySorted rule_lt rules -> forall acc,
  match acc with
  | Some a => PyDate.leb (rule_date a) d = true /\ Forall (rule_lt a) rules
  | None => True
  end ->
  match fold_left (fun found rule =>
                     if PyDate.leb (rule_date rule) d
                     then Some rule else found) rules acc with
  | Some r =>
      (Some r = acc \/ In r rules) /\ PyDate.leb (rule_date r) d = true /\
      forall r', In r' rules -> PyDate.leb (rule_date r') d = true ->
                 PyDate.leb (rule_date r') (rule_date r) = true
  | None => acc = None /\
            forall r', In r' rules -> PyDate.ltb d (rule_date r') = true
  end.
Proof.
  induction 1 as [|x l Hs IH Hall]; intros acc Hacc; cbn [fold_left].
  { destruct acc as [a|]; [|by split]. destruct Hacc as [Ha _].
    split_and!; [by left|done|by intros ? []]. }
  destruct (PyDate.leb (rule_date x) d) eqn:Hx.
  - specialize (IH (Some x) (conj Hx Hall)).
    destruct (fold_left _ l (Some x)) as [r|]; [|by destruct IH].
    destruct IH as (Hr & Hrd & Hmax). split_and!; [|done|].
    + right. destruct Hr as [[= ->]|Hr]; [apply in_eq|by apply in_cons].
    + intros r' [<-|Hr'] Hle; [|by apply Hmax].
      destruct Hr as [[= ->]|Hr]; [apply date_leb_refl|].
      apply date_ltb_leb. by apply (proj1 (List.Forall_forall _ _) Hall).
  - assert (Hxd : PyDate.ltb d (rule_date x) = true).
    { rewrite date_leb_ltb in Hx. by destruct (PyDate.ltb d (rule_date x)). }
    assert (Hl : forall r', In r' l -> PyDate.ltb d (rule_date r') = true).
    { intros r' Hr'.
      pose proof (proj1 (List.Forall_forall _ _) Hall r' Hr') as Hlt.
      unfold rule_lt in Hlt. revert Hxd Hlt. rewrite !date_ltb_spec. lia. }
    assert (Hacc' : match acc with
                    | Some a => PyDate.leb (rule_date a) d = true /\
                                Forall (rule_lt a) l
                    | None => True
                    end).
    { destruct acc as [a|]; [|done]. destruct Hacc as [Ha Hf].
      by apply Forall_cons in Hf as [_ Hf]. }
    specialize (IH acc Hacc').
    destruct (fold_left _ l acc) as [r|].
    + destruct IH as (Hr & Hrd & Hmax).
      assert (Hnl : ~ In r l).
      { intros Hr'. apply Hl in Hr'. rewrite date_leb_ltb, Hr' in Hrd. done. }
      split_and!; [destruct Hr; [by left|done]|done|].
      intros r' [<-|Hr'] Hle; [congruence|by apply Hmax].
    + destruct IH as [-> _]. split; [done|]. intros r' [<-|Hr']; auto.
Qed.

End RuleInForce.

(** X13: in every state of a session the rule the accrual loop picks for
    a date is the stored rule with the latest effective date not after
    it; no rule is picked exactly when every stored rule is later. *)
Theorem rule_in_force st d :
  reachable st ->
  match applicable_rule (interest_rules st) d with
  | Some r =>
      In r (interest_rules st) /\ PyDate.leb (rule_date r) d = true /\
      forall r', In r' (interest_rules st) ->
                 PyDate.leb (rule_date r') d = true ->
                 PyDate.leb (rule_date r') (rule_date r) = true
  | None =>
      forall r', In r' (interest_rules st) ->
                 PyDate.ltb d (rule_date r') = true
  end.
Proof.
  intros Hst. pose proof (rules_inv_reachable st Hst) as Hs.
  pose proof (applicable_rule_fold d (interest_rules st) Hs None Logic.I) as H.
  unfold applicable_rule. destruct (fold_left _ _ None) as [r|].
  - destruct H as ([[=]|Hr] & Hrd & Hmax). done.
  - by destruct H.
Qed.

Lemma rule_in_force_witness :
  match applicable_rule (interest_rules january_session)
                        (PyDate.mk 2023 1 15) with
  | Some r =>
      In r (interest_rules january_session) /\
      PyDate.leb (rule_date r) (PyDate.mk 2023 1 15) = true /\
      forall r', In r' (interest_rules january_session) ->
                 PyDate.leb (rule_date r') (PyDate.mk 2023 1 15) = true ->
                 PyDate.leb (rule_date r') (rule_date r) = true
  | None =>
      forall r', In r' (interest_rules january_session) ->
                 PyDate.ltb (PyDate.mk 2023 1 15) (rule_date r') = true
  end.
Proof.
  apply (rule_in_force january_session (PyDate.mk 2023 1 15)).
  apply reachable_january.
Defined.

(** ** The tables of the statement functions *)

Section Tables.

Lemma txn_key_le_total a b : txn_key_le a b = true \/ txn_key_le b a = true.
Proof.
  unfold txn_key_le.
  destruct (PyDate.ltb (date a) (date b)) eqn:Hab; [by left|].
  destruct (PyDate.ltb (date b) (date a)) eqn:Hba; [by right|].
  assert (Heq : date a = date b).
  { apply date_leb_antisym; rewrite date_leb_ltb; [by rewrite Hba|by rewrite Hab]. }
  rewrite Heq, date_eqb_refl. cbn [orb andb].
  apply String.leb_total.
Qed.

Lemma txn_key_le_date a b : txn_key_le a b = true -> txn_date_le a b.
Proof.
  unfold txn_key_le, txn_date_le. intros [H|[H _]%andb_true_iff]%orb_true_iff.
  - by apply date_ltb_leb.
  - apply date_eqb_eq in H as ->. apply date_leb_refl.
Qed.

Lemma insert_sorted_key_sorted x l :
  Sorted (fun a b => txn_key_le a b = true) l ->
  Sorted (fun a b => txn_key_le a b = true) (insert_sorted txn_key_le x l).
Proof.
  induction 1 as [|y l Hs IH Hhd]; cbn.
  { repeat constructor. }
  destruct (txn_key_le x y) eqn:Hle.
  - constructor; [by constructor|by constructor].
  - constructor; [done|].
    assert (Hyx : txn_key_le y x = true).
    { destruct (txn_key_le_total x y); [congruence|done]. }
    destruct l as [|z l]; cbn; [by constructor|].
    destruct (txn_key_le x z); constructor; [done|].
    by apply HdRel_inv in Hhd.
Qed.

Lemma sorted_by_date l :
  StronglySorted txn_date_le (sorted txn_key_le l).
Proof.
  assert (Hs : Sorted (fun a b => txn_key_le a b = true) (sorted txn_key_le l)).
  { induction l as [|x l IH]; [constructor|].
    by apply insert_sorted_key_sorted. }
  apply Sorted_StronglySorted.
  { intros a b c. apply date_leb_trans. }
  induction Hs as [|y l' Hs' IH Hhd]; constructor; [done|].
  destruct Hhd; constructor. by apply txn_key_le_date.
Qed.

Lemma running_rows_fst b l : map fst (running_rows b l) = l.
Proof.
  revert b. induction l as [|t l IH]; intros b; [done|].
  cbn. by rewrite IH.
Qed.

Lemma running_rows_last b l :
  last (b :: map snd (running_rows b l)) = Some (fold_left running_step l b).
Proof.
  revert b. induction l as [|t l IH]; intros b; [done|].
  cbn [running_rows map snd fold_left]. by rewrite <- IH.
Qed.

Lemma running_rows_closing b t l :
  last (map snd (running_rows b (t :: l)))
  = Some (fold_left running_step (t :: l) b).
Proof. cbn [running_rows map snd fold_left]. apply running_rows_last. Qed.

Lemma signed_sum_bound l : Z.abs (signed_sum l) <= cents_volume l.
Proof.
  induction l as [|t l IH]; [done|].
  unfold signed_sum in *. cbn [map fold_right]. rewrite cents_volume_cons.
  unfold signed_cents at 1. destruct (transaction_type t); lia.
Qed.

Lemma running_fold_cents l : forall b s,
  holds_cents b s -> Forall (fun t => is_cents (amount t)) l ->
  Z.abs s + cents_volume l < 10 ^ 28 ->
  holds_cents (fold_left running_step l b) (s + signed_sum l).
Proof.
  induction l as [|t l IH]; intros b s Hb Hall Hbound.
  { cbn. by rewrite Z.add_0_r. }
  apply Forall_cons_1 in Hall as [Ht Hall].
  rewrite cents_volume_cons in Hbound. pose proof (cents_volume_nonneg l).
  cbn [fold_left]. unfold signed_sum. cbn [map fold_right].
  rewrite Z.add_assoc. apply IH; [|done|].
  - assert (Hrun : running_step b t = balance_step (date t) b t).
    { unfold running_step, balance_step. by rewrite date_leb_refl. }
    rewrite Hrun.
    replace (s + signed_cents t)
      with (s + if PyDate.leb (date t) (date t) then signed_cents t else 0)
      by (by rewrite date_leb_refl).
    apply balance_step_cents; [done..|lia].
  - unfold signed_cents. destruct (transaction_type t); lia.
Qed.

End Tables.

Section Statements.

Lemma signed_sum_perm l l' :
  Permutation l l' -> signed_sum l = signed_sum l'.
Proof. intros H. unfold signed_sum. by apply sum_perm, Permutation_map. Qed.

Lemma cents_upto_all q l :
  (forall t, In t l -> PyDate.leb (date t) q = true) ->
  cents_upto q l = signed_sum l.
Proof.
  intros H. unfold cents_upto, signed_sum. f_equal. f_equal.
  induction l as [|t l IH]; [done|]. cbn.
  rewrite (H t (in_eq _ _)). f_equal. apply IH. intros t' Ht'.
  by apply H, in_cons.
Qed.

Lemma monthly_statement_state acct_id year_month st :
  (print_monthly_statement acct_id year_month st).2
  = match accounts st !! acct_id, parse_year_month year_month with
    | Some _, SelectorMonth y m => (calculate_interest acct_id y m st).2
    | _, _ => st
    end.
Proof.
  unfold print_monthly_statement.
  destruct (accounts st !! acct_id); [|done].
  destruct (parse_year_month year_month) as [y m| |]; try done.
  destruct (calculate_interest acct_id y m st) as [[|v|] st1]; cbn [snd];
    try done;
    destruct (PyDate.monthrange y m); try done;
    destruct (PyDate.make y m 1); try done;
    destruct (PyDate.make y m _); try done;
    destruct (List.filter _ _); try done;
    by destruct (prev_day _).
Qed.

End Statements.

(** X14: in a session, asking for the same monthly statement again
    returns the same result and leaves the state as the first request
    left it: the interest of the month is posted at most once. *)
Theorem monthly_statement_repeatable acct_id year_month st :
  reachable st ->
  let r := print_monthly_statement acct_id year_month st in
  print_monthly_statement acct_id year_month r.2 = r.
Proof.
  intros Hst. cbn zeta.
  pose proof (monthly_statement_state acct_id year_month st) as Hstate.
  destruct (accounts st !! acct_id) as [acct0|] eqn:Ha;
    [|rewrite Hstate; apply surjective_pairing || done].
  destruct (parse_year_month year_month) as [y m| |] eqn:Hsel;
    try (rewrite Hstate; done).
  destruct (calculate_interest_cases acct_id y m st)
    as [[Hsame _]|(acct & total & Ha' & _ & _ & _ & _ & _ & _ & Hr)].
  { rewrite Hstate, Hsame. done. }
  assert (Hinv : accounts_inv (calculate_interest acct_id y m st).2).
  { apply (accounts_inv_step st); [constructor|].
    by apply accounts_inv_reachable. }
  rewrite Hstate. rewrite Hr in Hinv |- *. cbn [snd] in Hinv |- *.
  set (st1 := mkBankSystem _ _ _) in *.
  assert (Ha1 : accounts st1 !! acct_id
                = Some (add_transaction
                          (mkTransaction (month_end y m) acct_id I total None)
                          acct)).
  { unfold st1. cbn [accounts]. apply lookup_insert_eq. }
  assert (Hne : interest_of_month st1 acct_id y m <> []).
  { unfold interest_of_month, transactions_of. rewrite Ha1.
    unfold add_transaction. cbn [transactions].
    rewrite List.filter_app. cbn [List.filter].
    unfold is_interest_of_month at 2.
    cbn [transaction_type date txn_kind_eqb month_end PyDate.year PyDate.month].
    rewrite !Z.eqb_refl. cbn [andb]. by destruct (List.filter _ _). }
  pose proof (calculate_interest_already acct_id y m _ Hinv Hne) as Hagain.
  unfold print_monthly_statement.
  rewrite Ha, Hsel, Ha1, Hr, Hagain. done.
Qed.

Section MonthlyTable.

Lemma prev_day_month_start y m before d :
  1 <= m <= 12 ->
  prev_day (month_start y m) = Some before -> valid_date d ->
  PyDate.leb d before = PyDate.ltb d (month_start y m).
Proof.
  intros Hm Hp Hd. apply make_Some in Hd as (_ & Hy & Hdm & Hdd).
  pose proof (days_in_month_bounds (PyDate.year d) (PyDate.month d) Hdm).
  assert (Hgoal : forall b : PyDate.t,
            (PyDate.ltb b d = true <-> ~ PyDate.ltb d (month_start y m) = true)
            -> PyDate.leb d b = PyDate.ltb d (month_start y m)).
  { intros b Hb. rewrite date_leb_ltb.
    destruct (PyDate.ltb b d), (PyDate.ltb d (month_start y m)); try done;
      exfalso; intuition congruence. }
  revert Hp. unfold prev_day, PyDate.MINYEAR.
  cbn [month_start PyDate.year PyDate.month PyDate.day]. rewrite Z.ltb_irrefl.
  destruct (Z.ltb_spec 1 m).
  - intros [= <-]. apply Hgoal. rewrite !date_ltb_spec.
    cbn [month_start PyDate.year PyDate.month PyDate.day].
    destruct (Z.eq_dec (PyDate.year d) y) as [Ey|]; [|lia].
    destruct (Z.eq_dec (PyDate.month d) (m - 1)) as [Em|]; [|lia].
    rewrite <- Ey, <- Em. lia.
  - destruct (Z.ltb_spec 1 y); [|done]. intros [= <-].
    apply Hgoal. rewrite !date_ltb_spec.
    cbn [month_start PyDate.year PyDate.month PyDate.day]. lia.
Qed.

Lemma month_split y m before txns :
  1 <= m <= 12 ->
  prev_day (month_start y m) = Some before ->
  Forall (fun t => valid_date (date t)) txns ->
  cents_upto (month_end y m) txns
  = cents_upto before txns
    + signed_sum (List.filter (fun t => in_month (month_start y m)
                                          (month_end y m) (date t)) txns) /\
  Z.abs (cents_upto before txns)
  + cents_volume (List.filter (fun t => in_month (month_start y m)
                                          (month_end y m) (date t)) txns)
  <= cents_volume txns.
Proof.
  intros Hm Hp. induction 1 as [|t txns Ht _ [IH1 IH2]]; [done|].
  rewrite !cents_upto_cons, cents_volume_cons. cbn [List.filter].
  rewrite (prev_day_month_start y m before (date t) Hm Hp Ht).
  assert (Hin : in_month (month_start y m) (month_end y m) (date t)
                = negb (PyDate.ltb (date t) (month_start y m))
                  && PyDate.leb (date t) (month_end y m)).
  { unfold in_month. by rewrite date_leb_ltb. }
  rewrite Hin. clear Hin.
  destruct (PyDate.ltb (date t) (month_start y m)) eqn:Hlt; cbn [negb andb].
  - assert (Hle : PyDate.leb (date t) (month_end y m) = true).
    { apply date_ltb_leb. revert Hlt.
      pose proof (days_in_month_bounds y m Hm).
      rewrite !date_ltb_spec. cbn. lia. }
    rewrite Hle. split; [lia|]. unfold signed_cents.
    destruct (transaction_type t); lia.
  - destruct (PyDate.leb (date t) (month_end y m)).
    + unfold signed_sum in *. cbn [map fold_right]. rewrite cents_volume_cons.
      lia.
    + lia.
Qed.

Lemma wf_transactions st k :
  wf_inv st -> Forall (fun t => valid_date (date t)) (transactions_of st k).
Proof.
  intros [Hacc _]. unfold transactions_of.
  destruct (accounts st !! k) as [a|] eqn:Ha; [|constructor].
  destruct (Hacc k a Ha) as [_ Hall].
  eapply List.Forall_impl; [|exact Hall]. by intros t (_ & ? & _).
Qed.

Lemma not_raised_continues {A} (res : interest_result) (x z : A) :
  res <> InterestRaised ->
  match res with
  | NoInterest => x
  | InterestValue _ => x
  | InterestRaised => z
  end = x.
Proof. by destruct res. Qed.

End MonthlyTable.

(** X15: a monthly statement that prints a table leaves the state of the
    accrual for the selected month; its rows are the transactions of that
    month after the accrual, in ascending date order, and there is at
    least one; when the account's amounts are in the exact range, the
    balance of the last row is the account's balance at the month end. *)
Theorem monthly_statement_table acct_id year_month st rows st1 :
  reachable st ->
  print_monthly_statement acct_id year_month st = (StatementTable rows, st1) ->
  exists y m,
    parse_year_month year_month = SelectorMonth y m /\
    st1 = (calculate_interest acct_id y m st).2 /\
    rows <> [] /\
    Permutation (map fst rows)
      (List.filter (fun t => in_month (month_start y m) (month_end y m)
                               (date t))
                   (transactions_of st1 acct_id)) /\
    StronglySorted txn_date_le (map fst rows) /\
    (exact_range (transactions_of st1 acct_id) ->
     forall closing, last (map snd rows) = Some closing ->
       (Dec.to_Q closing
        == Dec.to_Q (balance_of st1 acct_id (month_end y m)))%Q).
Proof.
  intros Hst Hp.
  pose proof (monthly_statement_state acct_id year_month st) as Hstate.
  rewrite Hp in Hstate. cbn [snd] in Hstate.
  unfold print_monthly_statement in Hp.
  destruct (accounts st !! acct_id) as [acct0|] eqn:Ha; [|done].
  destruct (parse_year_month year_month) as [y m| |]; try done.
  assert (Hwf : wf_inv st1).
  { subst st1. apply (reachable_invariant wf_inv wf_inv_init wf_inv_step).
    eapply rtc_r; [exact Hst|]. constructor. }
  exists y, m. split; [done|]. split; [done|].
  destruct (calculate_interest acct_id y m st) as [res st1'].
  cbn [snd] in Hstate. subst st1'.
  rewrite not_raised_continues in Hp by (by intros ->).
  destruct (PyDate.monthrange y m) as [last_day|] eqn:Hr; [|done].
  apply monthrange_Some in Hr as [Hm ->].
  destruct (PyDate.make y m 1) as [sd|] eqn:Hs; [|done].
  destruct (PyDate.make y m (PyDate.days_in_month y m)) as [ed|] eqn:He;
    [|done].
  apply make_Some in Hs as (-> & Hy & _ & _).
  apply make_Some in He as (-> & _ & _ & _).
  fold (month_start y m) in Hp. fold (month_end y m) in Hp. revert Hp.
  set (txns := transactions_of st1 acct_id).
  set (month_txns := List.filter _ txns).
  destruct month_txns as [|t0 rest] eqn:Hmt; [done|].
  destruct (prev_day (month_start y m)) as [before|] eqn:Hprev; [|done].
  intros [= <-].
  change (insert_sorted txn_key_le t0 (sorted txn_key_le rest))
    with (sorted txn_key_le (t0 :: rest)).
  rewrite running_rows_fst. split.
  { intros Hnil. apply (f_equal (map fst)) in Hnil.
    rewrite running_rows_fst in Hnil.
    pose proof (sorted_perm txn_key_le (t0 :: rest)) as Hperm.
    rewrite Hnil in Hperm. symmetry in Hperm.
    by apply Permutation_nil_cons in Hperm. }
  split; [symmetry; apply sorted_perm|].
  split; [apply sorted_by_date|].
  intros [Hall Hvol] closing Hlast.
  pose proof (wf_transactions st1 acct_id Hwf) as Hvalid. fold txns in Hvalid.
  destruct (month_split y m before txns Hm Hprev Hvalid) as [Hsplit Hbound].
  fold month_txns in Hsplit, Hbound. rewrite <- Hmt in *.
  assert (Hopen : holds_cents (fold_left (balance_step before) txns Dec.zero)
                    (cents_upto before txns)).
  { apply (balance_fold_cents before txns Dec.zero 0); [by right|done|lia]. }
  assert (Hmall : Forall (fun t => is_cents (amount t))
                    (sorted txn_key_le month_txns)).
  { apply (Permutation_Forall (sorted_perm txn_key_le month_txns)).
    apply List.Forall_forall. intros t Ht.
    apply (proj1 (List.Forall_forall _ _) Hall).
    unfold month_txns in Ht. by apply filter_In in Ht as [? _]. }
  pose proof (running_fold_cents (sorted txn_key_le month_txns) _ _ Hopen Hmall)
    as Hclose.
  rewrite <- (cents_volume_perm _ _ (sorted_perm txn_key_le month_txns)),
          <- (signed_sum_perm _ _ (sorted_perm txn_key_le month_txns))
    in Hclose.
  specialize (Hclose ltac:(lia)). rewrite <- Hsplit in Hclose.
  assert (Hc : closing = fold_left running_step (sorted txn_key_le month_txns)
                           (fold_left (balance_step before) txns Dec.zero)).
  { destruct (sorted txn_key_le month_txns) as [|t1 l1] eqn:Hsort.
    - pose proof (sorted_perm txn_key_le month_txns) as Hperm.
      rewrite Hsort, Hmt in Hperm. symmetry in Hperm.
      by apply Permutation_nil_cons in Hperm.
    - rewrite running_rows_closing in Hlast. congruence. }
  rewrite Hc, (holds_cents_to_Q _ _ Hclose).
  symmetry. apply holds_cents_to_Q.
  unfold balance_of, txns, transactions_of in *.
  destruct (accounts st1 !! acct_id) as [a1|] eqn:Ha1.
  - by apply balance_holds_cents.
  - by right.
Qed.

Lemma monthly_statement_repeatable_witness :
  let r := print_monthly_statement "AC001" "202301" january_session in
  print_monthly_statement "AC001" "202301" r.2 = r.
Proof.
  apply (monthly_statement_repeatable "AC001" "202301" january_session).
  apply reachable_january.
Defined.

Lemma monthly_statement_table_witness :
  let r := print_monthly_statement "AC001" "202301" january_session in
  let rows := match r.1 with StatementTable rows => rows | _ => [] end in
  exists y m,
    parse_year_month "202301" = SelectorMonth y m /\
    r.2 = (calculate_interest "AC001" y m january_session).2 /\
    rows <> [] /\
    Permutation (map fst rows)
      (List.filter (fun t => in_month (month_start y m) (month_end y m)
                               (date t))
                   (transactions_of r.2 "AC001")) /\
    StronglySorted txn_date_le (map fst rows) /\
    (exact_range (transactions_of r.2 "AC001") ->
     forall closing, last (map snd rows) = Some closing ->
       (Dec.to_Q closing
        == Dec.to_Q (balance_of r.2 "AC001" (month_end y m)))%Q).
Proof.
  cbn zeta.
  apply (monthly_statement_table "AC001" "202301" january_session).
  - apply reachable_january.
  - by vm_compute.
Defined.

(** X16: the listing of an account has one row for each of its
    transactions, in ascending date order; within the exact range the
    balance of the last row is the balance of the account at any date not
    before its last transaction. *)
Theorem account_listing acct_id with_balance st rows :
  print_account_transactions acct_id with_balance st = StatementTable rows ->
  accounts st !! acct_id <> None /\
  Permutation (map fst rows) (transactions_of st acct_id) /\
  StronglySorted txn_date_le (map fst rows) /\
  (exact_range (transactions_of st acct_id) ->
   forall closing q,
     last (map snd rows) = Some closing ->
     (forall t, In t (transactions_of st acct_id) ->
                PyDate.leb (date t) q = true) ->
     (Dec.to_Q closing == Dec.to_Q (balance_of st acct_id q))%Q).
Proof.
  unfold print_account_transactions, transactions_of, balance_of.
  destruct (accounts st !! acct_id) as [a|]; [|done]. intros [= <-].
  rewrite running_rows_fst. split; [done|].
  split; [symmetry; apply sorted_perm|]. split; [apply sorted_by_date|].
  intros [Hall Hvol] closing q Hlast Hq. cbn [default].
  assert (Hsall : Forall (fun t => is_cents (amount t))
                    (sorted txn_key_le (transactions a))).
  { by apply (Permutation_Forall (sorted_perm txn_key_le (transactions a))). }
  pose proof (running_fold_cents (sorted txn_key_le (transactions a))
                Dec.zero 0 ltac:(by right) Hsall) as Hclose.
  rewrite <- (cents_volume_perm _ _ (sorted_perm txn_key_le (transactions a))),
          <- (signed_sum_perm _ _ (sorted_perm txn_key_le (transactions a)))
    in Hclose.
  specialize (Hclose ltac:(lia)). rewrite Z.add_0_l in Hclose.
  assert (Hc : (Dec.to_Q closing == signed_sum (transactions a) # 100)%Q).
  { destruct (sorted txn_key_le (transactions a)) as [|t1 l1] eqn:Hsort.
    - done.
    - rewrite running_rows_closing in Hlast. injection Hlast as <-.
      by apply holds_cents_to_Q. }
  rewrite Hc. symmetry. apply holds_cents_to_Q.
  rewrite <- (cents_upto_all q (transactions a) Hq).
  by apply balance_holds_cents.
Qed.

Lemma account_listing_witness :
  let rows :=
    match print_account_transactions "AC001" true january_session with
    | StatementTable rows => rows
    | _ => []
    end in
  accounts january_session !! "AC001" <> None /\
  Permutation (map fst rows) (transactions_of january_session "AC001") /\
  StronglySorted txn_date_le (map fst rows) /\
  (exact_range (transactions_of january_session "AC001") ->
   forall closing q,
     last (map snd rows) = Some closing ->
     (forall t, In t (transactions_of january_session "AC001") ->
                PyDate.leb (date t) q = true) ->
     (Dec.to_Q closing == Dec.to_Q (balance_of january_session "AC001" q))%Q).
Proof.
  cbn zeta. apply (account_listing "AC001" true january_session).
  by vm_compute.
Defined.

(** ** Month selectors and date texts *)

Section Texts.

Lemma forall_below (f : Z -> bool) (n : Z) :
  forallb f (map Z.of_nat (seq 0 (Z.to_nat n))) = true ->
  forall y, 0 <= y < n -> f y = true.
Proof.
  intros H y Hy. apply (proj1 (forallb_forall _ _) H).
  apply in_map_iff. exists (Z.to_nat y). split; [lia|].
  apply in_seq. lia.
Qed.

Lemma digit_char_spec n :
  Dec.is_digit (digit_char n) = true /\
  Dec.digit_val (digit_char n) = n mod 10.
Proof.
  unfold digit_char. pose proof (Z.mod_pos_bound n 10 ltac:(lia)) as Hb.
  generalize dependent (n mod 10). intros k Hb.
  assert (Hk : k = 0 \/ k = 1 \/ k = 2 \/ k = 3 \/ k = 4 \/ k = 5 \/ k = 6
               \/ k = 7 \/ k = 8 \/ k = 9) by lia.
  repeat (destruct Hk as [->|Hk]; [vm_compute; by split|]).
  subst k. vm_compute. by split.
Qed.

Lemma year_text_value y :
  0 <= y <= 9999 ->
  forallb Dec.is_digit (year_text y) = true /\
  Dec.int_of_digits (year_text y) = y.
Proof.
  intros Hy. unfold year_text, Dec.int_of_digits. cbn [forallb fold_left].
  destruct (digit_char_spec (y / 1000)) as [-> ->].
  destruct (digit_char_spec (y / 100)) as [-> ->].
  destruct (digit_char_spec (y / 10)) as [-> ->].
  destruct (digit_char_spec y) as [-> ->].
  split; [done|]. Z.div_mod_to_equations. lia.
Qed.

Lemma year_text_scanned y r :
  0 <= y <= 9999 ->
  PyDate.year_scanner (year_text y ++ r) = Some (y, r).
Proof.
  intros Hy. destruct (year_text_value y Hy) as [Hd Hv].
  unfold year_text in *. cbn [app PyDate.year_scanner].
  by rewrite Hd, Hv.
Qed.

Lemma month_day_scanned m d :
  1 <= m <= 12 -> 1 <= d <= 31 ->
  PyDate.month_then_day PyDate.month_alternatives (two_digits m ++ two_digits d)
  = Some (m, d, []).
Proof.
  intros Hm Hd.
  set (ok := fun m d =>
    match PyDate.month_then_day PyDate.month_alternatives
            (two_digits m ++ two_digits d) with
    | Some (m', d', []) => (m' =? m) && (d' =? d)
    | _ => false
    end).
  assert (Hall : forallb (fun m =>
            forallb (fun d => (m =? 0) || (d =? 0) || ok m d)
                    (map Z.of_nat (seq 0 (Z.to_nat 32))))
            (map Z.of_nat (seq 0 (Z.to_nat 13))) = true) by (by vm_compute).
  pose proof (forall_below _ 13 Hall m ltac:(lia)) as H1. cbv beta in H1.
  pose proof (forall_below _ 32 H1 d ltac:(lia)) as H2. cbv beta in H2.
  destruct (Z.eqb_spec m 0); [lia|]. destruct (Z.eqb_spec d 0); [lia|].
  cbn [orb] in H2. unfold ok in H2. clear Hall H1. revert H2.
  generalize (PyDate.month_then_day PyDate.month_alternatives
                (two_digits m ++ two_digits d)).
  intros [[[m' d'] [|? ?]]|] H2; try done.
  apply andb_true_iff in H2 as [->%Z.eqb_eq ->%Z.eqb_eq]. done.
Qed.

Lemma digit_not_space c : Dec.is_digit c = true -> PyInt.is_space c = false.
Proof.
  unfold Dec.is_digit, PyInt.is_space.
  intros [H1 H2]%andb_true_iff. apply Z.leb_le in H1, H2.
  apply orb_false_iff. split.
  - apply andb_false_iff. right. apply Z.leb_gt. lia.
  - apply Z.eqb_neq. lia.
Qed.

Lemma digit_no_sign c r :
  Dec.is_digit c = true -> Dec.take_sign (c :: r) = (false, c :: r).
Proof.
  unfold Dec.is_digit, Dec.code.
  intros [H1 H2]%andb_true_iff. apply Z.leb_le in H1, H2.
  rewrite <- (ascii_nat_embedding c).
  assert (Hn : (48 <= nat_of_ascii c <= 57)%nat) by lia.
  generalize dependent (nat_of_ascii c). intros n _ _ Hn.
  do 48 (destruct n as [|n]; [lia|]).
  do 10 (destruct n as [|n]; [done|]). lia.
Qed.

Lemma year_text_int y :
  0 <= y <= 9999 -> PyInt.parse (year_text y) = Some y.
Proof.
  intros Hy. destruct (year_text_value y Hy) as [Hd Hv].
  unfold year_text, Dec.int_of_digits in *.
  cbn [forallb fold_left] in Hd, Hv.
  apply andb_true_iff in Hd as [H1 Hd]. apply andb_true_iff in Hd as [H2 Hd].
  apply andb_true_iff in Hd as [H3 Hd]. apply andb_true_iff in Hd as [H4 _].
  unfold PyInt.parse, PyInt.strip. cbn [PyInt.lstrip].
  rewrite (digit_not_space _ H1). cbn [rev app PyInt.lstrip].
  rewrite (digit_not_space _ H4). cbn [rev app].
  rewrite (digit_no_sign _ _ H1). cbn [PyInt.scan].
  rewrite H1, H2, H3, H4. cbn [Z.ltb]. 
  change (PyInt.max_str_digits <? 0 + 1 + 1 + 1 + 1) with false.
  cbv iota. by rewrite Hv.
Qed.

Lemma month_text_int m :
  1 <= m <= 12 ->
  PyInt.parse (two_digits m) = Some m /\
  (m <= 9 -> PyInt.parse [digit_char m] = Some m).
Proof.
  intros Hm.
  set (ok := fun m =>
    match PyInt.parse (two_digits m), PyInt.parse [digit_char m] with
    | Some a, Some b => (a =? m) && ((9 <? m) || (b =? m))
    | Some a, None => (a =? m) && (9 <? m)
    | _, _ => false
    end).
  assert (Hall : forallb (fun m => (m =? 0) || ok m)
                   (map Z.of_nat (seq 0 (Z.to_nat 13))) = true)
    by (by vm_compute).
  pose proof (forall_below _ 13 Hall m ltac:(lia)) as H. cbv beta in H.
  destruct (Z.eqb_spec m 0); [lia|]. cbn [orb] in H. unfold ok in H.
  destruct (PyInt.parse (two_digits m)) as [a|]; [|done].
  destruct (PyInt.parse [digit_char m]) as [b|].
  - apply andb_true_iff in H as [->%Z.eqb_eq H]. split; [done|]. intros H9.
    destruct (Z.ltb_spec 9 m); [lia|]. by apply Z.eqb_eq in H as ->.
  - apply andb_true_iff in H as [->%Z.eqb_eq H]. split; [done|]. intros H9.
    destruct (Z.ltb_spec 9 m); [lia|done].
Qed.

End Texts.

(** X17: the text a table prints for a real date of a four-digit year is
    read back by the date parser as the same date. *)
Theorem printed_date_reads_back d :
  valid_date d -> 1000 <= PyDate.year d ->
  PyDate.strptime_Ymd (strftime_Ymd d) = Some d.
Proof.
  intros Hv Hy. pose proof Hv as Hv'.
  apply make_Some in Hv' as (_ & Hyr & Hm & Hd).
  pose proof (days_in_month_bounds (PyDate.year d) (PyDate.month d) Hm).
  unfold PyDate.strptime_Ymd, strftime_Ymd.
  rewrite list_ascii_of_string_of_list_ascii.
  rewrite year_text_scanned by lia.
  rewrite month_day_scanned by lia. done.
Qed.

Lemma printed_date_reads_back_witness :
  PyDate.strptime_Ymd (strftime_Ymd (PyDate.mk 2023 1 15))
  = Some (PyDate.mk 2023 1 15).
Proof.
  apply (printed_date_reads_back (PyDate.mk 2023 1 15)); [done|].
  cbn. lia.
Defined.

(** X18: a month selector made of the four digits of the year and the
    two digits of the month selects that year and month; the month may
    also be written with one digit. *)
Theorem month_selector_texts y m :
  0 <= y <= 9999 -> 1 <= m <= 12 ->
  parse_year_month (string_of_list_ascii (year_text y ++ two_digits m))
  = SelectorMonth y m /\
  (m <= 9 ->
   parse_year_month (string_of_list_ascii (year_text y ++ [digit_char m]))
   = SelectorMonth y m).
Proof.
  intros Hy Hm. destruct (month_text_int m Hm) as [H2 H1].
  unfold parse_year_month. rewrite !list_ascii_of_string_of_list_ascii.
  change (firstn 4 (year_text y ++ two_digits m)) with (year_text y).
  change (skipn 4 (year_text y ++ two_digits m)) with (two_digits m).
  change (firstn 4 (year_text y ++ [digit_char m])) with (year_text y).
  change (skipn 4 (year_text y ++ [digit_char m])) with [digit_char m].
  rewrite (year_text_int y Hy), H2.
  assert (Hin : (m <? 1) || (12 <? m) = false).
  { apply orb_false_iff. split; apply Z.ltb_ge; lia. }
  rewrite Hin. split; [done|]. intros H9. by rewrite (H1 H9), Hin.
Qed.

Lemma month_selector_texts_witness :
  parse_year_month (string_of_list_ascii (year_text 2023 ++ two_digits 1))
  = SelectorMonth 2023 1 /\
  parse_year_month (string_of_list_ascii (year_text 2023 ++ [digit_char 1]))
  = SelectorMonth 2023 1.
Proof.
  destruct (month_selector_texts 2023 1) as [H2 H1]; [lia|lia|].
  split; [exact H2|apply H1; lia].
Defined.

Section SelectorRange.

Lemma selector_month_range year_month y m :
  parse_year_month year_month = SelectorMonth y m -> 1 <= m <= 12.
Proof.
  unfold parse_year_month.
  destruct (PyInt.parse (firstn 4 _)) as [y'|]; [|done].
  destruct (PyInt.parse (skipn 4 _)) as [m'|]; [|done].
  destruct (Z.ltb_spec m' 1); [done|]. destruct (Z.ltb_spec 12 m'); [done|].
  intros [= <- <-]. lia.
Qed.

End SelectorRange.

(** X19: for a known account, a month selector whose year is outside
    1..9999 (the text "0000" is the year 0) is not reported as invalid:
    the statement raises, with the state unchanged. *)
Theorem statement_year_out_of_range acct_id year_month st acct y m :
  accounts st !! acct_id = Some acct ->
  parse_year_month year_month = SelectorMonth y m ->
  ~ 1 <= y <= 9999 ->
  print_monthly_statement acct_id year_month st = (StatementRaised, st).
Proof.
  intros Ha Hsel Hy. pose proof (selector_month_range _ _ _ Hsel) as Hm.
  unfold print_monthly_statement. rewrite Ha, Hsel.
  unfold calculate_interest. rewrite Ha, (monthrange_valid y m Hm).
  destruct (PyDate.make y m 1) as [sd|] eqn:Hs; [|done].
  apply make_Some in Hs as (_ & Hy' & _). lia.
Qed.

Lemma statement_year_out_of_range_witness :
  print_monthly_statement "AC001" "000001" january_session
  = (StatementRaised, january_session).
Proof.
  apply (statement_year_out_of_range "AC001" "000001" january_session
           (default (BankAccount_init "")
                    (accounts january_session !! "AC001")) 0 1);
    [by vm_compute|by vm_compute|lia].
Defined.

(** ** Transaction ids *)

Section Ids.

Lemma pretty_N_char_val x :
  (x < 10)%N -> Dec.digit_val (pretty_N_char x) = Z.of_N x.
Proof.
  intros Hx.
  assert (Hk : (x = 0 \/ x = 1 \/ x = 2 \/ x = 3 \/ x = 4 \/ x = 5 \/ x = 6
                \/ x = 7 \/ x = 8 \/ x = 9)%N) by lia.
  repeat (destruct Hk as [->|Hk]; [done|]). by subst.
Qed.

Lemma pretty_N_go_value x : forall s,
  fold_left (fun acc c => 10 * acc + Dec.digit_val c)
            (list_ascii_of_string (pretty_N_go x s)) 0
  = fold_left (fun acc c => 10 * acc + Dec.digit_val c)
              (list_ascii_of_string s) (Z.of_N x).
Proof.
  induction (N.lt_wf_0 x) as [x _ IH]. intros s.
  destruct (N.eq_dec x 0%N) as [->|Hx].
  { by rewrite pretty_N_go_0. }
  rewrite pretty_N_go_step by lia.
  rewrite IH by (apply N.div_lt; lia).
  cbn [list_ascii_of_string fold_left]. f_equal.
  rewrite pretty_N_char_val by (apply N.mod_lt; lia).
  rewrite N2Z.inj_div, N2Z.inj_mod. change (Z.of_N 10) with 10.
  pose proof (Z.div_mod (Z.of_N x) 10). lia.
Qed.

Lemma pretty_value n : 0 <= n -> text_value (pretty n) = n.
Proof.
  intros Hn. unfold text_value, Dec.int_of_digits.
  destruct n as [|p|p]; [done| |lia].
  change (pretty (Z.pos p)) with (pretty_N_go (N.pos p) "").
  by rewrite pretty_N_go_value.
Qed.

Lemma format_02d_value n : 0 <= n -> text_value (format_02d n) = n.
Proof.
  intros Hn. unfold format_02d.
  destruct (_ && _); [|by apply pretty_value].
  rewrite <- (pretty_value n Hn) at 2. done.
Qed.

Lemma format_02d_inj n n' :
  0 <= n -> 0 <= n' -> format_02d n = format_02d n' -> n = n'.
Proof.
  intros Hn Hn' H. by rewrite <- (format_02d_value n), <- (format_02d_value n'), H.
Qed.

Lemma split_at_dash D D' r r' :
  dash_free D -> dash_free D' ->
  (D ++ "-" ++ r = D' ++ "-" ++ r')%string -> D = D' /\ r = r'.
Proof.
  unfold dash_free. revert D'.
  induction D as [|c D IH]; intros [|c' D'] HD HD'; cbn.
  - intros [= H]. by subst.
  - intros [= H _]. exfalso. apply HD'. left. by rewrite <- H.
  - intros [= H _]. exfalso. apply HD. left. by rewrite H.
  - intros [= Hc H]. subst c'. destruct (IH D') as [-> ->]; try done.
    + intros Hin. apply HD. by right.
    + intros Hin. apply HD'. by right.
Qed.

Lemma in_range_not_dash lo hi c :
  PyDate.in_range lo hi c = true -> c <> "-"%char.
Proof.
  unfold PyDate.in_range. intros [_ H]%andb_true_iff ->. by vm_compute in H.
Qed.

Lemma two_chars_clean lo hi lo' hi' : clean (PyDate.two_chars lo hi lo' hi').
Proof.
  intros [|a [|b s]] v r; cbn; try done.
  destruct (PyDate.in_range lo hi a) eqn:Ha; [|done].
  destruct (PyDate.in_range lo' hi' b) eqn:Hb; [|done].
  intros [= _ <-]. exists [a; b]. split; [done|].
  intros [E|[E|[]]];
    [apply in_range_not_dash in Ha|apply in_range_not_dash in Hb]; congruence.
Qed.

Lemma one_char_clean lo hi : clean (PyDate.one_char lo hi).
Proof.
  intros [|a s] v r; cbn; try done.
  destruct (PyDate.in_range lo hi a) eqn:Ha; [|done].
  intros [= _ <-]. exists [a]. split; [done|].
  intros [E|[]]. apply in_range_not_dash in Ha. congruence.
Qed.

Lemma space_then_clean lo hi : clean (PyDate.space_then lo hi).
Proof.
  intros s v r H.
  assert (exists s', s = " "%char :: s' /\ PyDate.one_char lo hi s' = Some (v, r))
    as (s' & -> & H').
  { destruct s as [|c s']; [done|]. unfold PyDate.space_then in H.
    destruct c as [[] [] [] [] [] [] [] []]; try done. by exists s'. }
  destruct (one_char_clean lo hi s' v r H') as (pre & -> & Hpre).
  exists (" "%char :: pre). split; [done|]. by intros [|].
Qed.

Lemma first_alternative_clean alts :
  Forall clean alts -> clean (PyDate.first_alternative alts).
Proof.
  induction 1 as [|f alts Hf _ IH]; intros s v r; cbn; [done|].
  destruct (f s) as [[v' r']|] eqn:E; [|apply IH].
  intros [= <- <-]. by apply Hf in E.
Qed.

Lemma day_alternatives_clean :
  clean (PyDate.first_alternative PyDate.day_alternatives).
Proof.
  apply first_alternative_clean. unfold PyDate.day_alternatives.
  repeat constructor; auto using two_chars_clean, one_char_clean,
    space_then_clean.
Qed.

Lemma month_then_day_clean alts s m d r :
  Forall clean alts ->
  PyDate.month_then_day alts s = Some (m, d, r) ->
  exists pre, s = pre ++ r /\ ~ In "-"%char pre.
Proof.
  induction 1 as [|f alts Hf _ IH]; cbn [PyDate.month_then_day]; [done|].
  destruct (f s) as [[m' r']|] eqn:E; [|apply IH].
  destruct (PyDate.first_alternative PyDate.day_alternatives r')
    as [[d' r'']|] eqn:E'; [|apply IH].
  intros [= <- <- <-].
  apply Hf in E as (pre & -> & Hpre).
  apply day_alternatives_clean in E' as (pre' & -> & Hpre').
  exists (pre ++ pre'). split; [by rewrite app_assoc|].
  rewrite in_app_iff. tauto.
Qed.

Lemma strptime_dash_free text d :
  PyDate.strptime_Ymd text = Some d -> dash_free text.
Proof.
  unfold PyDate.strptime_Ymd, dash_free.
  destruct (PyDate.year_scanner _) as [[y r]|] eqn:Hy; [|done].
  destruct (PyDate.month_then_day _ r) as [[[m dd] [|? ?]]|] eqn:Hm;
    try done.
  intros _.
  apply month_then_day_clean in Hm as (pre & -> & Hpre).
  2:{ unfold PyDate.month_alternatives.
      repeat constructor; auto using two_chars_clean, one_char_clean. }
  revert Hy. unfold PyDate.year_scanner.
  destruct (list_ascii_of_string text) as [|a [|b [|c [|e s]]]]; try done.
  destruct (forallb Dec.is_digit [a; b; c; e]) eqn:Hd; [|done].
  intros [= _ ->]. cbn in Hd.
  rewrite !andb_true_iff in Hd. destruct Hd as (Ha & Hb & Hc & He & _).
  rewrite app_nil_r. cbn [In].
  intros [E|[E|[E|[E|H]]]]; [subst; by vm_compute in Ha, Hb, Hc, He..|].
  done.
Qed.

End Ids.

Section IdsInvariant.

Lemma ids_inv_init : ids_inv BankSystem_init.
Proof.
  unfold ids_inv, ids_of, transactions_of. cbn [accounts BankSystem_init
    transaction_counters].
  split_and!; intros *; rewrite ?lookup_empty; try done.
  cbn. constructor.
Qed.

Lemma ids_inv_same st st' :
  (forall k, ids_of st' k = ids_of st k) ->
  transaction_counters st' = transaction_counters st ->
  ids_inv st -> ids_inv st'.
Proof.
  intros Hids Hc (H0 & H1 & H2 & H3). unfold ids_inv. rewrite Hc.
  split_and!; try done.
  - intros k id. rewrite Hids. apply H1.
  - intros k. rewrite Hids. apply H2.
  - intros k1 k2 id. rewrite !Hids. apply H3.
Qed.

Lemma ids_inv_step st st' : step st st' -> ids_inv st -> ids_inv st'.
Proof.
  intros Hstep Hinv.
  destruct Hstep as [date_str acct_id txn_type amount_str
                    |date_str rid rate_str|acct_id y m].
  - destruct (create_transaction_cases date_str acct_id txn_type amount_str st)
      as [(e & _ & ->)|[(d & amt & _ & _ & _ & _ & ->)
                       |(d & kind & amt & Hd & _ & Hk & Hv & _ & ->)]];
      cbn [snd]; [done| |].
    { apply (ids_inv_same st); [|done|done]. intros k. unfold ids_of.
      by rewrite transactions_of_get_or_create. }
    destruct Hinv as (H0 & H1 & H2 & H3).
    set (c := default 0 (transaction_counters st !! date_str)).
    assert (Hc : 0 <= c).
    { unfold c. destruct (transaction_counters st !! date_str) as [c0|] eqn:E;
        [|done]. cbn. specialize (H0 _ _ E). lia. }
    set (newid := (date_str ++ "-" ++ format_02d (c + 1))%string).
    set (st' := mkBankSystem _ _ _).
    assert (Hids : forall k, ids_of st' k
                   = ids_of st k ++ if decide (k = acct_id) then [newid]
                                    else []).
    { intros k. unfold ids_of, st'. rewrite transactions_of_insert.
      destruct (decide (k = acct_id)) as [->|Hne].
      - unfold add_transaction. cbn [transactions].
        rewrite transactions_default, omap_app. done.
      - by rewrite transactions_of_get_or_create, app_nil_r. }
    assert (Hcnt : forall D, default 0 (transaction_counters st' !! D)
                   = if decide (D = date_str) then c + 1
                     else default 0 (transaction_counters st !! D)).
    { intros D. unfold st'. cbn [transaction_counters].
      destruct (decide (D = date_str)) as [->|Hne].
      - by rewrite lookup_insert_eq.
      - by rewrite lookup_insert_ne. }
    assert (Hfresh : forall k, ~ In newid (ids_of st k)).
    { intros k Hin. destruct (H1 k newid Hin) as (D & n & Heq & HD & Hn).
      apply split_at_dash in Heq as [<- Hfmt];
        [|by apply (strptime_dash_free _ d)|done].
      apply format_02d_inj in Hfmt; [|lia..]. fold c in Hn. lia. }
    unfold ids_inv. split_and!.
    + intros D c0. unfold st'. cbn [transaction_counters].
      destruct (decide (D = date_str)) as [->|Hne].
      * rewrite lookup_insert_eq. intros [= <-]. fold c. lia.
      * rewrite lookup_insert_ne by done. apply H0.
    + intros k id. rewrite Hids, in_app_iff. intros [Hin|Hin].
      * destruct (H1 k id Hin) as (D & n & Heq & HD & Hn).
        exists D, n. split; [done|]. split; [done|]. rewrite Hcnt.
        destruct (decide (D = date_str)) as [->|]; [fold c in Hn; lia|done].
      * destruct (decide (k = acct_id)); [|done]. destruct Hin as [<-|[]].
        exists date_str, (c + 1). split; [done|].
        split; [by apply (strptime_dash_free _ d)|].
        rewrite Hcnt, decide_True by done. lia.
    + intros k. rewrite Hids. apply List.NoDup_app; [apply H2| |].
      * destruct (decide (k = acct_id)); repeat constructor. by intros [].
      * intros id Hin Hin'. destruct (decide (k = acct_id)); [|done].
        destruct Hin' as [<-|[]]. by apply (Hfresh k).
    + intros k1 k2 id. rewrite !Hids, !in_app_iff.
      intros [Hin1|Hin1] [Hin2|Hin2].
      * by apply (H3 k1 k2 id).
      * destruct (decide (k2 = acct_id)); [|done]. destruct Hin2 as [<-|[]].
        by apply Hfresh in Hin1.
      * destruct (decide (k1 = acct_id)); [|done]. destruct Hin1 as [<-|[]].
        by apply Hfresh in Hin2.
      * destruct (decide (k1 = acct_id)), (decide (k2 = acct_id)); try done.
        congruence.
  - apply (ids_inv_same st); [| |done].
    + intros k. unfold ids_of. by rewrite add_interest_rule_transactions.
    + destruct (add_interest_rule_cases date_str rid rate_str st)
        as [(e & ->)|(d & rt & _ & _ & ->)]; done.
  - apply (ids_inv_same st); [| |done].
    + intros k.
      destruct (calculate_interest_cases acct_id y m st)
        as [[-> _]|(acct & total & Ha & _ & _ & _ & _ & _ & _ & ->)];
        [done|]. cbn [snd]. unfold ids_of. rewrite transactions_of_insert.
      destruct (decide (k = acct_id)) as [->|Hne]; [|done].
      unfold add_transaction, transactions_of. cbn [transactions].
      rewrite Ha, omap_app. cbn. by rewrite app_nil_r.
    + destruct (calculate_interest_cases acct_id y m st)
        as [[-> _]|(acct & total & _ & _ & _ & _ & _ & _ & _ & ->)]; done.
Qed.

End IdsInvariant.

(** X20: in every state of a session each transaction id is the entered
    date text, a hyphen and the two-digit form of a number between 1 and
    the counter of that text; no id occurs twice in an account, and none
    in two accounts. *)
Theorem transaction_ids_unique st : reachable st -> ids_inv st.
Proof. apply reachable_invariant; [apply ids_inv_init|apply ids_inv_step]. Qed.

Lemma transaction_ids_unique_witness : ids_inv january_session.
Proof. apply transaction_ids_unique, reachable_january. Defined.

(** ** What a posting changes *)

(** X21: a posting never raises and never touches the rules or the other
    accounts; an accepted one appends one transaction to the account, with
    the id made of the date text and the incremented counter of that text;
    a rejected one leaves every transaction list and the counters
    unchanged. *)
Theorem posting_effect date_str acct_id txn_type amount_str st :
  let r := create_transaction date_str acct_id txn_type amount_str st in
  let n := default 0 (transaction_counters st !! date_str) + 1 in
  r.1 <> TxnRaised /\
  interest_rules r.2 = interest_rules st /\
  (forall k, k <> acct_id -> accounts r.2 !! k = accounts st !! k) /\
  match r.1 with
  | TxnOk k =>
      k = acct_id /\
      transaction_counters r.2 = <[date_str := n]> (transaction_counters st) /\
      exists t,
        transactions_of r.2 acct_id = transactions_of st acct_id ++ [t] /\
        account t = acct_id /\
        txn_id t = Some (date_str ++ "-" ++ format_02d n)%string
  | _ =>
      transaction_counters r.2 = transaction_counters st /\
      forall k, transactions_of r.2 k = transactions_of st k
  end.
Proof.
  cbn zeta.
  destruct (create_transaction_cases date_str acct_id txn_type amount_str st)
    as [(e & _ & ->)|[(d & amt & _ & _ & _ & _ & ->)
                     |(d & kind & amt & Hd & _ & Hk & Hv & _ & ->)]];
    cbn [fst snd interest_rules accounts transaction_counters].
  - by split_and!.
  - split_and!; try done.
    + intros k Hk. by apply get_or_create_lookup_ne.
    + intros k. apply transactions_of_get_or_create.
  - split_and!; try done.
    + intros k Hne. rewrite lookup_insert_ne by done.
      by apply get_or_create_lookup_ne.
    + eexists (mkTransaction d acct_id kind amt _). split_and!; [|done..].
      rewrite transactions_of_insert, decide_True by done.
      unfold add_transaction. cbn [transactions].
      by rewrite transactions_default.
Qed.

(** ** Accruals without a rule in force *)

Section NoRule.

Lemma applicable_rule_none rules d :
  (forall r, In r rules -> PyDate.ltb d (rule_date r) = true) ->
  applicable_rule rules d = None.
Proof.
  unfold applicable_rule. induction rules as [|r rules IH]; intros H; [done|].
  cbn [fold_left]. rewrite date_leb_ltb, (H r (in_eq _ _)). cbn [negb].
  apply IH. intros r' Hr'. by apply H, in_cons.
Qed.

Lemma period_sum_no_rule acct rules ps :
  (forall p, In p ps -> applicable_rule rules p.1 = None) ->
  period_sum acct rules ps = Dec.zero.
Proof.
  unfold period_sum. generalize Dec.zero.
  induction ps as [|p ps IH]; intros acc H; [done|].
  cbn [fold_left]. unfold add_period at 2. rewrite (H p (in_eq _ _)).
  apply IH. intros p' Hp'. by apply H, in_cons.
Qed.

End NoRule.

(** X22: for a month before December 9999 in which no rule is in force
    (every rule is dated after the month end), an accrual for a known
    account posts nothing and does not raise: it returns nothing, or 0. *)
Theorem no_rule_no_interest acct_id y m st acct :
  accounts st !! acct_id = Some acct ->
  1 <= y <= 9999 -> 1 <= m <= 12 -> (y, m) <> (9999, 12) ->
  (forall r, In r (interest_rules st) ->
             PyDate.ltb (month_end y m) (rule_date r) = true) ->
  let r := calculate_interest acct_id y m st in
  r.2 = st /\ (r.1 = NoInterest \/ r.1 = InterestValue Dec.zero).
Proof.
  intros Ha Hy Hm Hne Hrules. cbn zeta. unfold calculate_interest.
  rewrite Ha, (monthrange_valid y m Hm), (month_start_valid y m Hy Hm),
    (month_end_valid y m Hy Hm).
  destruct (List.filter _ (transactions acct)) as [|t0 l0] eqn:Hf; [by auto|].
  rewrite <- Hf.
  destruct (List.filter (is_interest_of_month y m) _); [|by auto].
  unfold total_interest.
  rewrite accumulate_is_period_sum by (done || lia).
  rewrite period_sum_no_rule.
  { cbn. auto. }
  intros p Hp. apply applicable_rule_none. intros r Hr.
  assert (Hin : In p.1 (map fst (periods
             (balance_change_dates (List.filter
                (fun t => PyDate.leb (date t) (month_end y m))
                (transactions acct)) (interest_rules st)
                (month_start y m) (month_end y m)) (month_end y m))))
    by (by apply in_map).
  rewrite periods_starts in Hin. apply filter_In in Hin as [Hin _].
  apply breakpoints_spec in Hin.
  assert (Hle : PyDate.leb p.1 (month_end y m) = true).
  { destruct Hin as [Heq|Hin].
    - rewrite Heq. apply date_ltb_leb, date_ltb_spec. cbn.
      pose proof (days_in_month_bounds y m Hm). lia.
    - unfold in_month in Hin. by apply andb_true_iff in Hin as [_ ?]. }
  specialize (Hrules r Hr). revert Hle Hrules.
  rewrite date_leb_ltb, negb_true_iff, <- not_true_iff_false, !date_ltb_spec.
  lia.
Qed.

Lemma no_rule_no_interest_witness :
  let r := calculate_interest "AC001" 2023 1 no_rule_session in
  r.2 = no_rule_session /\
  (r.1 = NoInterest \/ r.1 = InterestValue Dec.zero).
Proof.
  apply (no_rule_no_interest "AC001" 2023 1 no_rule_session
           (default (BankAccount_init "")
              (accounts no_rule_session !! "AC001")));
    [by vm_compute|lia|lia|done|].
  intros r Hr. by vm_compute in Hr.
Defined.
